(** * Mini order processing service

    A shallow embedding of the service layer of the order processing
    backend ([src/services/order_service.py], [src/services/product_service.py])
    together with the rows of [src/db/models/model.py] and the request and
    response shapes of [src/schemas/schema.py].

    - Python [int] is [Z]; Python [str] is [string].
    - Python [float] is kept abstract behind the interface [PyFloat]: the
      development relies on no law of floating point arithmetic, so every
      statement holds for whatever the interpreter computes.  Two instances
      run the examples: exact arithmetic over [Q], and the binary64
      arithmetic of the interpreter over the primitive floats.
    - The SQLAlchemy session is explicit state: a [Store] holds the three
      tables, a service method maps the persisted store to an outcome and the
      store persisted afterwards.  What the database decides on its own (the
      id it issues at [flush], its clock, whether [commit] is accepted) is the
      [DbReply] argument.
    - [raise] is the [Raise] constructor of [outcome]. *)

From stdpp Require Import base gmap list strings pretty.
From Stdlib Require Import QArith.
From Stdlib Require Import PrimFloat Uint63.

Local Open Scope Z_scope.

(** ** Floats *)

(** The float operations the services use: the literal [0.0], the implicit
    [int] to [float] conversion of mixed arithmetic, [int / int] (true
    division), [+], [-], [*] and [<]. *)
Class PyFloat (F : Type) := {
  fzero : F;
  float_of_int : Z → F;
  int_truediv : Z → Z → F;
  fadd : F → F → F;
  fsub : F → F → F;
  fmul : F → F → F;
  flt : F → F → bool
}.

(** ** Exceptions and outcomes *)

(** What [Session.commit] can raise. *)
Inductive db_error :=
  | IntegrityError (msg : string)
  | OperationalError (msg : string).

(** [str(e)] of a database error. *)
Definition str_db_error (e : db_error) : string :=
  match e with
  | IntegrityError msg => msg
  | OperationalError msg => msg
  end.

Inductive exn :=
  | HTTPException (status_code : Z) (detail : string)
  | DBError (e : db_error)
  | AttributeError.

Inductive outcome (A : Type) :=
  | Return (a : A)
  | Raise (e : exn).
Arguments Return {A} a.
Arguments Raise {A} e.

(** The reply of the database to one request. *)
Record DbReply := {
  issued_id : Z;                 (* primary key generated for the inserted row *)
  server_now : Z;                (* [func.now()] *)
  on_commit : option db_error    (* [None]: the commit is accepted *)
}.

(** ** Rows ([src/db/models/model.py]) *)

(** A row of [products].  The primary key [id] is the key under which the
    row is stored in the table. *)
Module Product.
Record t (F : Type) := mk {
  name : string;
  description : string;
  price : F;
  inventory : Z
}.
Arguments mk {F} _ _ _ _.
Arguments name {F} _.
Arguments description {F} _.
Arguments price {F} _.
Arguments inventory {F} _.
End Product.

Module Order.
Record t (F : Type) := mk {
  id : Z;
  customer_name : string;
  customer_email : string;
  subtotal : F;
  shipping_fee : F;
  total_amount : F;
  created_at : Z
}.
Arguments mk {F} _ _ _ _ _ _ _.
Arguments id {F} _.
Arguments customer_name {F} _.
Arguments customer_email {F} _.
Arguments subtotal {F} _.
Arguments shipping_fee {F} _.
Arguments total_amount {F} _.
Arguments created_at {F} _.
End Order.

(** A row of [order_items]; its own generated key is never read. *)
Module OrderItem.
Record t (F : Type) := mk {
  order_id : Z;
  product_id : Z;
  quantity : Z;
  unit_price : F;
  discount_applied : bool
}.
Arguments mk {F} _ _ _ _ _.
Arguments order_id {F} _.
Arguments product_id {F} _.
Arguments quantity {F} _.
Arguments unit_price {F} _.
Arguments discount_applied {F} _.
End OrderItem.

(** ** Requests and responses ([src/schemas/schema.py]) *)

Module OrderItemCreate.
Record t := mk {
  product_id : Z;
  quantity : Z
}.
End OrderItemCreate.

Module OrderCreate.
Record t := mk {
  customer_name : string;
  customer_email : string;
  items : list OrderItemCreate.t
}.
End OrderCreate.

Module OrderItemResponse.
Record t (F : Type) := mk {
  product_id : Z;
  quantity : Z;
  unit_price : F;
  discount_applied : bool
}.
Arguments mk {F} _ _ _ _.
Arguments product_id {F} _.
Arguments quantity {F} _.
Arguments unit_price {F} _.
Arguments discount_applied {F} _.
End OrderItemResponse.

Module OrderResponse.
Record t (F : Type) := mk {
  id : Z;
  customer_name : string;
  customer_email : string;
  items : list (OrderItemResponse.t F);
  subtotal : F;
  shipping_fee : F;
  total_amount : F;
  created_at : Z
}.
Arguments mk {F} _ _ _ _ _ _ _ _.
Arguments id {F} _.
Arguments customer_name {F} _.
Arguments customer_email {F} _.
Arguments items {F} _.
Arguments subtotal {F} _.
Arguments shipping_fee {F} _.
Arguments total_amount {F} _.
Arguments created_at {F} _.
End OrderResponse.

Module ProductCreate.
Record t (F : Type) := mk {
  name : string;
  description : string;
  price : F;
  inventory : Z
}.
Arguments mk {F} _ _ _ _.
Arguments name {F} _.
Arguments description {F} _.
Arguments price {F} _.
Arguments inventory {F} _.
End ProductCreate.

Module InventoryUpdate.
Record t := mk { quantity : Z }.
End InventoryUpdate.

(** ** The store *)

Module Store.
Record t (F : Type) := mk {
  products : gmap Z (Product.t F);
  orders : list (Order.t F);
  order_items : list (OrderItem.t F)
}.
Arguments mk {F} _ _ _.
Arguments products {F} _.
Arguments orders {F} _.
Arguments order_items {F} _.
End Store.

(** ** Configuration (read from the environment at import time) *)

Record Config (F : Type) := mkConfig {
  BULK_DISCOUNT_THRESHOLD : Z;
  BULK_DISCOUNT_PERCENT : Z;
  FREE_SHIPPING_THRESHOLD : F;
  SHIPPING_FEE : F
}.
Arguments mkConfig {F} _ _ _ _.
Arguments BULK_DISCOUNT_THRESHOLD {F} _.
Arguments BULK_DISCOUNT_PERCENT {F} _.
Arguments FREE_SHIPPING_THRESHOLD {F} _.
Arguments SHIPPING_FEE {F} _.

(** ** OrderService *)

Section OrderService.
Context {F : Type} `{PyFloat F}.
Variable cfg : Config F.

(** The dict appended to [order_items] in the first loop. *)
Record item_data := mk_item_data {
  d_product_id : Z;
  d_quantity : Z;
  d_unit_price : F;
  d_discount_applied : bool
}.

Definition not_found_detail (product_id : Z) : string :=
  "Product with ID " +:+ pretty product_id +:+ " not found".

Definition not_enough_detail (name : string) (requested available : Z) : string :=
  "Not enough inventory for product " +:+ name +:+ ". Requested: "
    +:+ pretty requested +:+ ", Available: " +:+ pretty available.

(** [for item in order.items:] of [create_order], lines 27 to 57, with the
    two accumulators [order_items] and [subtotal]. *)
Fixpoint price_loop (tbl : gmap Z (Product.t F)) (items : list OrderItemCreate.t)
    (order_items : list item_data) (subtotal : F) : outcome (list item_data * F) :=
  match items with
  | [] => Return (order_items, subtotal)
  | item :: rest =>
      match tbl !! OrderItemCreate.product_id item with
      | None =>
          Raise (HTTPException 404 (not_found_detail (OrderItemCreate.product_id item)))
      | Some product =>
          if Product.inventory product <? OrderItemCreate.quantity item then
            Raise (HTTPException 400
                     (not_enough_detail (Product.name product)
                        (OrderItemCreate.quantity item) (Product.inventory product)))
          else
            let unit_price := Product.price product in
            let discount_applied := false in
            let '(discount_applied, unit_price) :=
              if OrderItemCreate.quantity item >=? BULK_DISCOUNT_THRESHOLD cfg then
                (true,
                 fmul unit_price
                   (fsub (float_of_int 1) (int_truediv (BULK_DISCOUNT_PERCENT cfg) 100)))
              else (discount_applied, unit_price) in
            let item_total :=
              fmul unit_price (float_of_int (OrderItemCreate.quantity item)) in
            price_loop tbl rest
              (order_items ++
                 [mk_item_data (OrderItemCreate.product_id item)
                    (OrderItemCreate.quantity item) unit_price discount_applied])
              (fadd subtotal item_total)
      end
  end.

(** [for item_data, item_request in zip(order_items, order.items):], lines
    77 to 89, on the session's working copy of the store.  Reading
    [.inventory] of a missing product is Python's [AttributeError]. *)
Fixpoint persist_loop (order_id : Z) (pairs : list (item_data * OrderItemCreate.t))
    (s : Store.t F) : outcome (Store.t F) :=
  match pairs with
  | [] => Return s
  | (data, item_request) :: rest =>
      let db_item :=
        OrderItem.mk order_id (d_product_id data) (d_quantity data)
          (d_unit_price data) (d_discount_applied data) in
      let s :=
        Store.mk (Store.products s) (Store.orders s) (Store.order_items s ++ [db_item]) in
      match Store.products s !! OrderItemCreate.product_id item_request with
      | None => Raise AttributeError
      | Some product =>
          let product :=
            Product.mk (Product.name product) (Product.description product)
              (Product.price product)
              (Product.inventory product - OrderItemCreate.quantity item_request) in
          persist_loop order_id rest
            (Store.mk
               (<[OrderItemCreate.product_id item_request := product]> (Store.products s))
               (Store.orders s) (Store.order_items s))
      end
  end.

(** [db_order.items] after the refresh: the rows of [order_items] that
    point to the order. *)
Definition order_lines (s : Store.t F) (order_id : Z) : list (OrderItem.t F) :=
  filter (λ it, OrderItem.order_id it = order_id) (Store.order_items s).

Definition item_response (it : OrderItem.t F) : OrderItemResponse.t F :=
  OrderItemResponse.mk (OrderItem.product_id it) (OrderItem.quantity it)
    (OrderItem.unit_price it) (OrderItem.discount_applied it).

(** [OrderService.create_order]: the outcome and the store persisted when
    the call is over. *)
Definition create_order (reply : DbReply) (db : Store.t F) (order : OrderCreate.t)
    : outcome (OrderResponse.t F) * Store.t F :=
  match price_loop (Store.products db) (OrderCreate.items order) [] fzero with
  | Raise e => (Raise e, db)
  | Return (order_items, subtotal) =>
      let shipping_fee :=
        if flt subtotal (FREE_SHIPPING_THRESHOLD cfg) then SHIPPING_FEE cfg else fzero in
      let total_amount := fadd subtotal shipping_fee in
      let db_order :=
        Order.mk (issued_id reply) (OrderCreate.customer_name order)
          (OrderCreate.customer_email order) subtotal shipping_fee total_amount
          (server_now reply) in
      let session :=
        Store.mk (Store.products db) (Store.orders db ++ [db_order]) (Store.order_items db) in
      match persist_loop (Order.id db_order)
              (zip order_items (OrderCreate.items order)) session with
      | Raise e => (Raise e, db)
      | Return session =>
          match on_commit reply with
          | None =>
              let response :=
                OrderResponse.mk (Order.id db_order) (Order.customer_name db_order)
                  (Order.customer_email db_order)
                  (item_response <$> order_lines session (Order.id db_order))
                  (Order.subtotal db_order) (Order.shipping_fee db_order)
                  (Order.total_amount db_order) (Order.created_at db_order) in
              (Return response, session)
          | Some (IntegrityError msg) =>
              (Raise (HTTPException 400 ("Database error: " +:+ msg)), db)
          | Some e => (Raise (DBError e), db)
          end
      end
  end.

(** [OrderService.get_order]. *)
Definition get_order (db : Store.t F) (order_id : Z) : outcome (Order.t F) :=
  match List.find (λ o, Order.id o =? order_id) (Store.orders db) with
  | None => Raise (HTTPException 404 "Order not found")
  | Some order => Return order
  end.

End OrderService.

Arguments item_data F : clear implicits.
Arguments mk_item_data {F} _ _ _ _.
Arguments d_product_id {F} _.
Arguments d_quantity {F} _.
Arguments d_unit_price {F} _.
Arguments d_discount_applied {F} _.

(** ** ProductService *)

Section ProductService.
Context {F : Type} `{PyFloat F}.

(** [ProductService.get_product]. *)
Definition get_product (db : Store.t F) (product_id : Z) : outcome (Product.t F) :=
  match Store.products db !! product_id with
  | None => Raise (HTTPException 404 "Product not found")
  | Some product => Return product
  end.

(** [ProductService.create_product]; only [IntegrityError] is caught. *)
Definition create_product (reply : DbReply) (db : Store.t F) (product : ProductCreate.t F)
    : outcome (Z * Product.t F) * Store.t F :=
  let db_product :=
    Product.mk (ProductCreate.name product) (ProductCreate.description product)
      (ProductCreate.price product) (ProductCreate.inventory product) in
  match on_commit reply with
  | None =>
      (Return (issued_id reply, db_product),
       Store.mk (<[issued_id reply := db_product]> (Store.products db)) (Store.orders db)
         (Store.order_items db))
  | Some (IntegrityError _) => (Raise (HTTPException 400 "Product already exists"), db)
  | Some e => (Raise (DBError e), db)
  end.

Definition below_zero_detail (current change : Z) : string :=
  "Cannot reduce inventory below zero. Current inventory: " +:+ pretty current
    +:+ ", Requested change: " +:+ pretty change.

(** [ProductService.update_product_inventory]; every exception of the
    commit is caught. *)
Definition update_product_inventory (reply : DbReply) (db : Store.t F) (product_id : Z)
    (inventory_update : InventoryUpdate.t) : outcome (Product.t F) * Store.t F :=
  match Store.products db !! product_id with
  | None => (Raise (HTTPException 404 "Product not found"), db)
  | Some product =>
      let new_inventory :=
        Product.inventory product + InventoryUpdate.quantity inventory_update in
      if new_inventory <? 0 then
        (Raise (HTTPException 400
                  (below_zero_detail (Product.inventory product)
                     (InventoryUpdate.quantity inventory_update))), db)
      else
        let product :=
          Product.mk (Product.name product) (Product.description product)
            (Product.price product) new_inventory in
        match on_commit reply with
        | None =>
            (Return product,
             Store.mk (<[product_id := product]> (Store.products db)) (Store.orders db)
               (Store.order_items db))
        | Some e =>
            (Raise (HTTPException 500 ("Error updating inventory: " +:+ str_db_error e)), db)
        end
  end.

End ProductService.

(** ** Exact arithmetic for examples *)

#[export] Instance Q_PyFloat : PyFloat Q := {|
  fzero := 0%Q;
  float_of_int := inject_Z;
  int_truediv := λ a b, Qdiv (inject_Z a) (inject_Z b);
  fadd := Qplus;
  fsub := Qminus;
  fmul := Qmult;
  flt := λ x y, if Qlt_le_dec x y then true else false
|}.

(** ** Binary64 arithmetic

    The conversion is exact below 2^53 and correctly rounded below 2^63,
    which covers the integer columns of the tables; [int / int] is then the
    correctly rounded quotient. *)

Definition float_of_Z (z : Z) : float :=
  match z with
  | Z0 => PrimFloat.zero
  | Zpos _ => PrimFloat.of_uint63 (Uint63.of_Z z)
  | Zneg p => PrimFloat.opp (PrimFloat.of_uint63 (Uint63.of_Z (Zpos p)))
  end.

#[export] Instance binary64_PyFloat : PyFloat float := {|
  fzero := PrimFloat.zero;
  float_of_int := float_of_Z;
  int_truediv := λ a b, PrimFloat.div (float_of_Z a) (float_of_Z b);
  fadd := PrimFloat.add;
  fsub := PrimFloat.sub;
  fmul := PrimFloat.mul;
  flt := PrimFloat.ltb
|}.

(** ** Validation at the boundary ([Field(..., gt=0)], [Field(..., ge=0)]) *)

Definition valid_order (order : OrderCreate.t) : Prop :=
  Forall (λ item, 0 < OrderItemCreate.quantity item) (OrderCreate.items order).

Definition valid_product `{PyFloat F} (product : ProductCreate.t F) : Prop :=
  flt fzero (ProductCreate.price product) = true ∧ 0 ≤ ProductCreate.inventory product.

(** ** Vocabulary of the statements *)

Section Vocabulary.
Context {F : Type} `{PyFloat F}.
Variable cfg : Config F.

(** The catalog price after the bulk discount, as line 46 computes it. *)
Definition discounted (price : F) : F :=
  fmul price (fsub (float_of_int 1) (int_truediv (BULK_DISCOUNT_PERCENT cfg) 100)).

(** One pass through the body of the first loop, for one line. *)
Definition price_line (tbl : gmap Z (Product.t F)) (item : OrderItemCreate.t)
    : outcome (item_data F) :=
  match tbl !! OrderItemCreate.product_id item with
  | None => Raise (HTTPException 404 (not_found_detail (OrderItemCreate.product_id item)))
  | Some product =>
      if Product.inventory product <? OrderItemCreate.quantity item then
        Raise (HTTPException 400
                 (not_enough_detail (Product.name product)
                    (OrderItemCreate.quantity item) (Product.inventory product)))
      else
        Return
          (mk_item_data (OrderItemCreate.product_id item) (OrderItemCreate.quantity item)
             (if OrderItemCreate.quantity item >=? BULK_DISCOUNT_THRESHOLD cfg
              then discounted (Product.price product) else Product.price product)
             (OrderItemCreate.quantity item >=? BULK_DISCOUNT_THRESHOLD cfg))
  end.

(** The line names a product of the catalog that has the stock asked for. *)
Definition available (tbl : gmap Z (Product.t F)) (item : OrderItemCreate.t) : Prop :=
  ∃ product, tbl !! OrderItemCreate.product_id item = Some product
             ∧ OrderItemCreate.quantity item ≤ Product.inventory product.

Definition item_total (d : item_data F) : F :=
  fmul (d_unit_price d) (float_of_int (d_quantity d)).

(** [subtotal += item_total], line after line. *)
Definition sum_totals (start : F) (ds : list (item_data F)) : F :=
  foldl (λ acc d, fadd acc (item_total d)) start ds.

Definition row_of (order_id : Z) (d : item_data F) : OrderItem.t F :=
  OrderItem.mk order_id (d_product_id d) (d_quantity d) (d_unit_price d)
    (d_discount_applied d).

Definition sell (quantity : Z) (product : Product.t F) : Product.t F :=
  Product.mk (Product.name product) (Product.description product)
    (Product.price product) (Product.inventory product - quantity).

(** The catalog after the stock of every line has been taken. *)
Definition take_stock (tbl : gmap Z (Product.t F)) (items : list OrderItemCreate.t)
    : gmap Z (Product.t F) :=
  foldl (λ t item,
           alter (sell (OrderItemCreate.quantity item)) (OrderItemCreate.product_id item) t)
    tbl items.

(** The quantity a request asks of one product, over all its lines. *)
Definition requested (product_id : Z) (items : list OrderItemCreate.t) : Z :=
  foldr (λ item acc,
           if decide (OrderItemCreate.product_id item = product_id)
           then OrderItemCreate.quantity item + acc else acc)
    0 items.

(** Line 60: the fee charged on a subtotal. *)
Definition shipping_for (subtotal : F) : F :=
  if flt subtotal (FREE_SHIPPING_THRESHOLD cfg) then SHIPPING_FEE cfg else fzero.

(** The row of [orders] written for a request whose lines priced as [ds]. *)
Definition order_row (reply : DbReply) (order : OrderCreate.t) (ds : list (item_data F))
    : Order.t F :=
  let subtotal := sum_totals fzero ds in
  Order.mk (issued_id reply) (OrderCreate.customer_name order)
    (OrderCreate.customer_email order) subtotal (shipping_for subtotal)
    (fadd subtotal (shipping_for subtotal)) (server_now reply).

(** The store once such an order is committed. *)
Definition stored (reply : DbReply) (db : Store.t F) (order : OrderCreate.t)
    (ds : list (item_data F)) : Store.t F :=
  Store.mk (take_stock (Store.products db) (OrderCreate.items order))
    (Store.orders db ++ [order_row reply order ds])
    (Store.order_items db ++ (row_of (issued_id reply) <$> ds)).

(** The response built from the refreshed order. *)
Definition response_of (reply : DbReply) (db : Store.t F) (order : OrderCreate.t)
    (ds : list (item_data F)) : OrderResponse.t F :=
  let db_order := order_row reply order ds in
  OrderResponse.mk (Order.id db_order) (Order.customer_name db_order)
    (Order.customer_email db_order)
    (item_response <$> order_lines (stored reply db order ds) (Order.id db_order))
    (Order.subtotal db_order) (Order.shipping_fee db_order)
    (Order.total_amount db_order) (Order.created_at db_order).

(** The bulk discount rule in the words of the specification, for the row
    written for a requested line: at or above the threshold the catalog
    price times [1 - percent/100] and the flag set, below it the catalog
    price and the flag clear. *)
Definition bulk_discount_rule (tbl : gmap Z (Product.t F)) (item : OrderItemCreate.t)
    (row : OrderItem.t F) : Prop :=
  OrderItem.product_id row = OrderItemCreate.product_id item
  ∧ OrderItem.quantity row = OrderItemCreate.quantity item
  ∧ ∃ product,
      tbl !! OrderItemCreate.product_id item = Some product
      ∧ (BULK_DISCOUNT_THRESHOLD cfg ≤ OrderItemCreate.quantity item →
           OrderItem.unit_price row
           = fmul (Product.price product)
               (fsub (float_of_int 1) (int_truediv (BULK_DISCOUNT_PERCENT cfg) 100))
           ∧ OrderItem.discount_applied row = true)
      ∧ (OrderItemCreate.quantity item < BULK_DISCOUNT_THRESHOLD cfg →
           OrderItem.unit_price row = Product.price product
           ∧ OrderItem.discount_applied row = false).

(** The sum over the lines of an order of unit price times quantity, added
    up from [0.0] in line order. *)
Definition lines_total (rows : list (OrderItem.t F)) : F :=
  foldl (λ acc row,
           fadd acc (fmul (OrderItem.unit_price row) (float_of_int (OrderItem.quantity row))))
    fzero rows.

(** The stock of a product, if the catalog has it. *)
Definition stock (db : Store.t F) (product_id : Z) : option Z :=
  Product.inventory <$> Store.products db !! product_id.

(** Two runs of [create_order] end alike: the same exception, or the
    same priced lines and amounts, and the same catalog afterwards. *)
Definition same_result (r1 r2 : outcome (OrderResponse.t F) * Store.t F) : Prop :=
  match r1.1, r2.1 with
  | Raise e1, Raise e2 => e1 = e2
  | Return a, Return b =>
      OrderResponse.items a = OrderResponse.items b
      ∧ OrderResponse.subtotal a = OrderResponse.subtotal b
      ∧ OrderResponse.shipping_fee a = OrderResponse.shipping_fee b
      ∧ OrderResponse.total_amount a = OrderResponse.total_amount b
  | _, _ => False
  end
  ∧ Store.products r1.2 = Store.products r2.2.

(** No row of [order_items] points to the key the database issues. *)
Definition fresh_order_id (reply : DbReply) (db : Store.t F) : Prop :=
  Forall (λ it, OrderItem.order_id it ≠ issued_id reply) (Store.order_items db).

(** Every product has a stock of zero or more. *)
Definition stock_nonneg (db : Store.t F) : Prop :=
  map_Forall (λ _ product, 0 ≤ Product.inventory product) (Store.products db).

End Vocabulary.

(** Does [sub] occur in [s]? *)
Fixpoint occurs (sub s : string) : bool :=
  String.prefix sub s ||
  match s with
  | EmptyString => false
  | String _ rest => occurs sub rest
  end.

Definition client_error (status_code : Z) : Prop := 400 ≤ status_code ≤ 499.
Definition server_error (status_code : Z) : Prop := 500 ≤ status_code ≤ 599.

(** ** A running example

    The catalog of the test fixture ([src/test.py], [setup_test_db]) and the
    default configuration, over exact arithmetic. *)

Definition cfg0 : Config Q := mkConfig 5 10 50%Q 5%Q.

Definition catalog0 : gmap Z (Product.t Q) :=
  <[1 := Product.mk "Test Product 1" "Description 1" 10%Q 20]>
  (<[2 := Product.mk "Test Product 2" "Description 2" 20%Q 15]>
  (<[3 := Product.mk "Test Product 3" "Description 3" 5%Q 50]>
  (<[4 := Product.mk "Luxury Item" "Very expensive item" 100%Q 5]>
  (<[5 := Product.mk "Bulk Item" "Item often sold in bulk" (5 # 2)%Q 200]> ∅)))).

Definition db0 : Store.t Q := Store.mk catalog0 [] [].

(** The same configuration and catalog in binary64. *)
Definition cfg64 : Config float := mkConfig 5 10 50%float 5%float.

Definition catalog64 : gmap Z (Product.t float) :=
  <[1 := Product.mk "Test Product 1" "Description 1" 10%float 20]>
  (<[2 := Product.mk "Test Product 2" "Description 2" 20%float 15]>
  (<[3 := Product.mk "Test Product 3" "Description 3" 5%float 50]>
  (<[4 := Product.mk "Luxury Item" "Very expensive item" 100%float 5]>
  (<[5 := Product.mk "Bulk Item" "Item often sold in bulk" 2.5%float 200]> ∅)))).

Definition db64 : Store.t float := Store.mk catalog64 [] [].

Definition accepted : DbReply :=
  {| issued_id := 1; server_now := 1700000000; on_commit := None |}.

Definition conflict : DbReply :=
  {| issued_id := 1; server_now := 1700000000;
     on_commit := Some (IntegrityError "duplicate key value") |}.

(** The connection is lost at the commit. *)
Definition dropped : DbReply :=
  {| issued_id := 1; server_now := 1700000000;
     on_commit := Some (OperationalError "server closed the connection unexpectedly") |}.

(** The database refuses a value that its INTEGER column cannot hold. *)
Definition out_of_range : DbReply :=
  {| issued_id := 1; server_now := 1700000000;
     on_commit := Some (OperationalError "integer out of range") |}.

(** The environment sets [SHIPPING_FEE=0.0]. *)
Definition cfg_free_shipping : Config Q := mkConfig 5 10 50%Q 0%Q.

(** The environment sets [BULK_DISCOUNT_THRESHOLD=8]. *)
Definition cfg_threshold_8 : Config Q := mkConfig 8 10 50%Q 5%Q.

Definition request (lines : list (Z * Z)) : OrderCreate.t :=
  OrderCreate.mk "John Doe" "john@example.com"
    ((λ l, OrderItemCreate.mk l.1 l.2) <$> lines).

(** ** Listings

    [query.offset(skip).limit(limit).all()] on the rows in the order the
    database returns them.  SQL gives both bounds a meaning from zero
    upwards, and the statements about listings are made there. *)

Definition offset_limit {A : Type} (skip limit : Z) (rows : list A) : list A :=
  take (Z.to_nat limit) (drop (Z.to_nat skip) rows).

(** [OrderService.get_all_orders].  The rows of [orders] are only ever
    appended, so the order of the table is the order of insertion. *)
Definition get_all_orders {F : Type} (db : Store.t F) (skip limit : Z) : list (Order.t F) :=
  offset_limit skip limit (Store.orders db).

(** [ProductService.get_product_list].  The query has no [ORDER BY]: the
    order of the rows is the database's choice, [row_order]. *)
Definition get_product_list {F : Type}
    (row_order : gmap Z (Product.t F) → list (Z * Product.t F))
    (db : Store.t F) (skip limit : Z) : list (Z * Product.t F) :=
  offset_limit skip limit (row_order (Store.products db)).

(** What every choice of the database obeys: the rows of the table, each
    once. *)
Definition scans_table {F : Type}
    (row_order : gmap Z (Product.t F) → list (Z * Product.t F)) : Prop :=
  ∀ tbl, row_order tbl ≡ₚ map_to_list tbl.

(** ** ProductController ([src/controllers/product_controller.py])

    Each method hands its arguments to the method of the same name of
    [ProductService]. *)

Module ProductController.
Definition get_product_list {F : Type}
    (row_order : gmap Z (Product.t F) → list (Z * Product.t F))
    (db : Store.t F) (skip limit : Z) : list (Z * Product.t F) :=
  get_product_list row_order db skip limit.

Definition get_product {F : Type} (db : Store.t F) (product_id : Z)
    : outcome (Product.t F) :=
  get_product db product_id.

Definition create_product {F : Type} (reply : DbReply) (db : Store.t F)
    (product : ProductCreate.t F) : outcome (Z * Product.t F) * Store.t F :=
  create_product reply db product.

Definition update_product_inventory {F : Type} (reply : DbReply) (db : Store.t F)
    (product_id : Z) (inventory_update : InventoryUpdate.t)
    : outcome (Product.t F) * Store.t F :=
  update_product_inventory reply db product_id inventory_update.
End ProductController.

(** ** The service as a transition system

    One step is one call of a method that writes: [create_order],
    [create_product] through its controller, [update_product_inventory]
    through its controller.  The key the database issues for a new row is
    one no row of the table has. *)

Inductive service_step {F : Type} `{PyFloat F} (cfg : Config F)
    : Store.t F → Store.t F → Prop :=
  | step_create_order reply db order :
      issued_id reply ∉ Order.id <$> Store.orders db →
      service_step cfg db (create_order cfg reply db order).2
  | step_create_product reply db product :
      Store.products db !! issued_id reply = None →
      service_step cfg db (ProductController.create_product reply db product).2
  | step_update_product_inventory reply db product_id inventory_update :
      service_step cfg db
        (ProductController.update_product_inventory reply db product_id inventory_update).2.

(** The stores the service can reach from [db]. *)
Definition reachable {F : Type} `{PyFloat F} (cfg : Config F) (db db' : Store.t F) : Prop :=
  rtc (service_step cfg) db db'.

(** Every order line points to a product of the catalog and to a stored
    order. *)
Definition referential_integrity {F : Type} (db : Store.t F) : Prop :=
  Forall (λ it,
            is_Some (Store.products db !! OrderItem.product_id it)
            ∧ OrderItem.order_id it ∈ Order.id <$> Store.orders db)
    (Store.order_items db).

(** The amounts of a stored order, against its stored lines. *)
Definition order_consistent {F : Type} `{PyFloat F} (cfg : Config F) (db : Store.t F)
    (o : Order.t F) : Prop :=
  Order.subtotal o = lines_total (order_lines db (Order.id o))
  ∧ Order.shipping_fee o
    = (if flt (Order.subtotal o) (FREE_SHIPPING_THRESHOLD cfg)
       then SHIPPING_FEE cfg else fzero)
  ∧ Order.total_amount o = fadd (Order.subtotal o) (Order.shipping_fee o).

(** What the service keeps true of a store. *)
Definition consistent {F : Type} `{PyFloat F} (cfg : Config F) (db : Store.t F) : Prop :=
  NoDup (Order.id <$> Store.orders db)
  ∧ referential_integrity db
  ∧ Forall (order_consistent cfg db) (Store.orders db).

(** Nothing of [db] is lost or rewritten in [db']: the stored orders and
    order lines of [db] open those of [db'], and every product of [db] is
    still there under its name, description and price. *)
Definition extends {F : Type} (db db' : Store.t F) : Prop :=
  Store.orders db `prefix_of` Store.orders db'
  ∧ Store.order_items db `prefix_of` Store.order_items db'
  ∧ ∀ k product,
      Store.products db !! k = Some product →
      ∃ product',
        Store.products db' !! k = Some product'
        ∧ Product.name product' = Product.name product
        ∧ Product.description product' = Product.description product
        ∧ Product.price product' = Product.price product.

(** The store with nothing in it. *)
Definition empty_store {F : Type} : Store.t F := Store.mk ∅ [] [].

(** The store of [test_get_orders], after its two orders. *)
Definition db_two_orders : Store.t Q :=
  Store.mk
    (<[1 := Product.mk "Test Product 1" "Description 1" 10%Q 19]>
     (<[2 := Product.mk "Test Product 2" "Description 2" 20%Q 13]> catalog0))
    [Order.mk 1 "Customer One" "one@example.com" 10%Q 5%Q 15%Q 1700000000;
     Order.mk 2 "Customer Two" "two@example.com" 40%Q 5%Q 45%Q 1700000060]
    [OrderItem.mk 1 1 1 10%Q false; OrderItem.mk 2 2 2 20%Q false].

(** ** Seeders ([src/db/seeders])

    What [random], the clock and the database give to a run is an argument
    of the run: the i-th [random.randint(-5, 10)] is [variation i], the key
    of the i-th row inserted is [product_key i], and so on.  Times count
    seconds. *)

(** [PRODUCTS], the sample data of [seeder.py], in binary64; a price is
    the float nearest to its decimal, as the interpreter reads it. *)
#[warnings="-inexact-float"]
Definition PRODUCTS : list (Product.t float) := [
  Product.mk "Laptop" "High-performance laptop with 16GB RAM and 512GB SSD" 1299.99%float 25;
  Product.mk "Smartphone" "Latest smartphone with 128GB storage and 48MP camera"
    799.99%float 50;
  Product.mk "Wireless Headphones"
    "Noise-cancelling wireless headphones with 30-hour battery life" 249.99%float 100;
  Product.mk "Tablet" "10-inch tablet with 64GB storage and HD display" 399.99%float 35;
  Product.mk "Smart Watch" "Fitness tracker with heart rate monitor and GPS" 199.99%float 70;
  Product.mk "Bluetooth Speaker" "Portable waterproof bluetooth speaker" 89.99%float 120;
  Product.mk "Wireless Mouse" "Ergonomic wireless mouse with long battery life"
    49.99%float 150;
  Product.mk "USB-C Cable" "6ft braided USB-C charging cable" 15.99%float 200;
  Product.mk "External Hard Drive" "2TB USB 3.0 external hard drive" 79.99%float 60;
  Product.mk "Wireless Charger" "Fast wireless charging pad compatible with all Qi devices"
    29.99%float 90
].

(** [CUSTOMERS] of [advanced_seeder.py]: name and email. *)
Definition CUSTOMERS : list (string * string) := [
  ("John Smith", "john.smith@example.com");
  ("Emma Johnson", "emma.johnson@example.com");
  ("Michael Brown", "michael.brown@example.com");
  ("Sophia Williams", "sophia.williams@example.com");
  ("William Davis", "william.davis@example.com");
  ("Olivia Miller", "olivia.miller@example.com");
  ("James Wilson", "james.wilson@example.com");
  ("Ava Moore", "ava.moore@example.com");
  ("Alexander Taylor", "alex.taylor@example.com");
  ("Isabella Anderson", "isabella.anderson@example.com")
].

Definition seconds_per_day : Z := 86400.

(** What a seeder does: it returns after printing a line, with the store
    its session has committed, or it raises. *)
Inductive seeding (F : Type) :=
  | Printed (line : string) (db : Store.t F)
  | Raised (text : string).
Arguments Printed {F} line db.
Arguments Raised {F} text.

(** The draws and replies for one order of [seed_orders]. *)
Module Draw.
Record t (F : Type) := mk {
  customer : string * string;           (* [random.choice(CUSTOMERS)] *)
  num_items : Z;                        (* [random.randint(1, 4)] *)
  sample : list (Z * Product.t F);      (* [random.sample(products, num_items)] *)
  quantity : nat → Z;                   (* the j-th [random.randint(1, 8)] *)
  days_ago : Z;                         (* [random.randint(0, 30)] *)
  now : Z;                              (* [datetime.now()] *)
  order_key : Z                         (* the key issued at [flush] *)
}.
Arguments mk {F} _ _ _ _ _ _ _.
Arguments customer {F} _.
Arguments num_items {F} _.
Arguments sample {F} _.
Arguments quantity {F} _.
Arguments days_ago {F} _.
Arguments now {F} _.
Arguments order_key {F} _.
End Draw.

Section Seeders.
Context {F : Type} `{PyFloat F}.

(** [for product_data in PRODUCTS:] of both seeders: the inventory of each
    dict is varied in place, at least 1, and a row is added for it.  The
    result is the list of the dicts after the loop and the catalog of the
    session. *)
Fixpoint add_products (variation : nat → Z) (product_key : nat → Z) (i : nat)
    (product_data : list (Product.t F)) (tbl : gmap Z (Product.t F))
    : list (Product.t F) * gmap Z (Product.t F) :=
  match product_data with
  | [] => ([], tbl)
  | data :: rest =>
      let inventory_variation := variation i in
      let data :=
        Product.mk (Product.name data) (Product.description data) (Product.price data)
          (Z.max 1 (Product.inventory data + inventory_variation)) in
      let '(rest, tbl) :=
        add_products variation product_key (S i) rest (<[product_key i := data]> tbl) in
      (data :: rest, tbl)
  end.

(** [seed_database] of [seeder.py]: the line printed, [PRODUCTS] as the
    run leaves it, and the store committed. *)
Definition seed_database (variation : nat → Z) (product_key : nat → Z)
    (on_commit : option db_error) (PRODUCTS : list (Product.t F)) (db : Store.t F)
    : string * list (Product.t F) * Store.t F :=
  let existing_products := base.size (Store.products db) in
  if (0 <? existing_products)%nat then
    ("Database already contains " +:+ pretty existing_products
       +:+ " products. Skipping seeding.", PRODUCTS, db)
  else
    let '(PRODUCTS', tbl) :=
      add_products variation product_key 0 PRODUCTS (Store.products db) in
    match on_commit with
    | None =>
        ("Successfully seeded database with " +:+ pretty (length PRODUCTS)
           +:+ " products.",
         PRODUCTS', Store.mk tbl (Store.orders db) (Store.order_items db))
    | Some e => ("Error seeding database: " +:+ str_db_error e, PRODUCTS', db)
    end.

(** The four constants of [advanced_seeder.py], lines 26 to 29, which the
    bodies below read.  They are the seeder's own, written in the module,
    and not those the environment gives the service: the bodies are kept
    over any values [cfg] of them, and [AdvancedSeeder] below is the seeder
    as the module has it. *)
Variable cfg : Config F.

(** [for product in order_products:] of [seed_orders], lines 85 to 106,
    with its accumulators; [j] counts the quantities drawn. *)
Fixpoint price_sample (quantity : nat → Z) (j : nat)
    (order_products : list (Z * Product.t F))
    (order_items : list (item_data F)) (subtotal : F) : list (item_data F) * F :=
  match order_products with
  | [] => (order_items, subtotal)
  | (product_id, product) :: rest =>
      let quantity_j := quantity j in
      let unit_price := Product.price product in
      let discount_applied := false in
      let '(discount_applied, unit_price) :=
        if quantity_j >=? BULK_DISCOUNT_THRESHOLD cfg then
          (true,
           fmul unit_price
             (fsub (float_of_int 1) (int_truediv (BULK_DISCOUNT_PERCENT cfg) 100)))
        else (discount_applied, unit_price) in
      let item_total := fmul unit_price (float_of_int quantity_j) in
      price_sample quantity (S j) rest
        (order_items ++ [mk_item_data product_id quantity_j unit_price discount_applied])
        (fadd subtotal item_total)
  end.

(** [for item in order_items:], lines 130 to 141: a row for the item, and
    its quantity off the inventory of its product, unchecked. *)
Fixpoint add_items (order_id : Z) (order_items : list (item_data F)) (s : Store.t F)
    : Store.t F :=
  match order_items with
  | [] => s
  | item :: rest =>
      let db_item :=
        OrderItem.mk order_id (d_product_id item) (d_quantity item) (d_unit_price item)
          (d_discount_applied item) in
      add_items order_id rest
        (Store.mk
           (alter
              (λ product,
                 Product.mk (Product.name product) (Product.description product)
                   (Product.price product) (Product.inventory product - d_quantity item))
              (d_product_id item) (Store.products s))
           (Store.orders s) (Store.order_items s ++ [db_item]))
  end.

(** One pass of [for _ in range(num_orders):], lines 71 to 141, on the
    session; [random.sample] raises when it is asked for more than there
    is, or for less than nothing. *)
Definition seed_order (n_products : nat) (draw : Draw.t F) (s : Store.t F)
    : string + Store.t F :=
  if (Draw.num_items draw <? 0) || (Z.of_nat n_products <? Draw.num_items draw) then
    inl "Sample larger than population or is negative"
  else
    let '(order_items, subtotal) :=
      price_sample (Draw.quantity draw) 0 (Draw.sample draw) [] fzero in
    let shipping_fee :=
      if flt subtotal (FREE_SHIPPING_THRESHOLD cfg) then SHIPPING_FEE cfg else fzero in
    let total_amount := fadd subtotal shipping_fee in
    let order_date := Draw.now draw - Draw.days_ago draw * seconds_per_day in
    let db_order :=
      Order.mk (Draw.order_key draw) (Draw.customer draw).1 (Draw.customer draw).2
        subtotal shipping_fee total_amount order_date in
    inr (add_items (Order.id db_order) order_items
           (Store.mk (Store.products s) (Store.orders s ++ [db_order])
              (Store.order_items s))).

Fixpoint seed_order_loop (n_products : nat) (draws : list (Draw.t F)) (s : Store.t F)
    : string + Store.t F :=
  match draws with
  | [] => inr s
  | draw :: rest =>
      match seed_order n_products draw s with
      | inl text => inl text
      | inr s => seed_order_loop n_products rest s
      end
  end.

(** [seed_orders] of [advanced_seeder.py]; [draw i] holds the draws of
    the i-th order. *)
Definition seed_orders (row_order : gmap Z (Product.t F) → list (Z * Product.t F))
    (draw : nat → Draw.t F) (on_commit : option db_error)
    (db : Store.t F) (num_orders : Z) : seeding F :=
  let existing_orders := length (Store.orders db) in
  if (0 <? existing_orders)%nat then
    Printed ("Database already contains " +:+ pretty existing_orders
               +:+ " orders. Skipping order seeding.") db
  else
    let products := row_order (Store.products db) in
    match products with
    | [] => Printed "No products found in database. Please run seed_products first." db
    | _ :: _ =>
        match seed_order_loop (length products) (draw <$> seq 0 (Z.to_nat num_orders)) db with
        | inl text => Raised text
        | inr session =>
            match on_commit with
            | None =>
                Printed ("Successfully seeded database with " +:+ pretty num_orders
                           +:+ " orders.") session
            | Some e => Raised (str_db_error e)
            end
        end
    end.

(** [seed_database] of [advanced_seeder.py]: the line printed and the store
    committed; whatever is raised is caught and rolled back. *)
Definition seed_database_with_orders
    (row_order : gmap Z (Product.t F) → list (Z * Product.t F))
    (draw : nat → Draw.t F) (on_commit : option db_error)
    (db : Store.t F) (num_orders : Z) : string * Store.t F :=
  match seed_orders row_order draw on_commit db num_orders with
  | Printed line db' => (line, db')
  | Raised text => ("Error seeding database: " +:+ text, db)
  end.

(** What [random] promises of the draws of one order, on the products
    that were read: a customer of the list, one to four products of the
    catalog, no product twice, quantities of one to eight. *)
Definition fair_draw (products : list (Z * Product.t F)) (draw : Draw.t F) : Prop :=
  Draw.customer draw ∈ CUSTOMERS
  ∧ 1 ≤ Draw.num_items draw ≤ 4
  ∧ Z.of_nat (length (Draw.sample draw)) = Draw.num_items draw
  ∧ NoDup (Draw.sample draw).*1
  ∧ Draw.sample draw ⊆ products
  ∧ (∀ j, 1 ≤ Draw.quantity draw j ≤ 8)
  ∧ 0 ≤ Draw.days_ago draw ≤ 30.

End Seeders.

(** [advanced_seeder.py] with the constants of its lines 26 to 29; the
    float literals [5.0] and [50.0] are the floats of the integers 5 and
    50. *)
Module AdvancedSeeder.
Definition BULK_DISCOUNT_THRESHOLD : Z := 5.
Definition BULK_DISCOUNT_PERCENT : Z := 10.
Definition SHIPPING_FEE {F : Type} `{PyFloat F} : F := float_of_int 5.
Definition FREE_SHIPPING_THRESHOLD {F : Type} `{PyFloat F} : F := float_of_int 50.

Definition constants {F : Type} `{PyFloat F} : Config F :=
  mkConfig BULK_DISCOUNT_THRESHOLD BULK_DISCOUNT_PERCENT FREE_SHIPPING_THRESHOLD
    SHIPPING_FEE.

Definition seed_order {F : Type} `{PyFloat F} (n_products : nat) (draw : Draw.t F)
    (s : Store.t F) : string + Store.t F :=
  seed_order constants n_products draw s.

Definition seed_orders {F : Type} `{PyFloat F}
    (row_order : gmap Z (Product.t F) → list (Z * Product.t F))
    (draw : nat → Draw.t F) (on_commit : option db_error)
    (db : Store.t F) (num_orders : Z) : seeding F :=
  seed_orders constants row_order draw on_commit db num_orders.

Definition seed_database {F : Type} `{PyFloat F}
    (row_order : gmap Z (Product.t F) → list (Z * Product.t F))
    (draw : nat → Draw.t F) (on_commit : option db_error)
    (db : Store.t F) (num_orders : Z) : string * Store.t F :=
  seed_database_with_orders constants row_order draw on_commit db num_orders.
End AdvancedSeeder.

(** A dict of [PRODUCTS] after its inventory was varied. *)
Definition varied {F : Type} (inventory_variation : Z) (data : Product.t F) : Product.t F :=
  Product.mk (Product.name data) (Product.description data) (Product.price data)
    (Z.max 1 (Product.inventory data + inventory_variation)).

(** The item of a seeded order for a product and the quantity drawn. *)
Definition seeded_item {F : Type} `{PyFloat F} (cfg : Config F) (quantity : Z)
    (chosen : Z * Product.t F) : item_data F :=
  mk_item_data chosen.1 quantity
    (if quantity >=? BULK_DISCOUNT_THRESHOLD cfg
     then discounted cfg (Product.price chosen.2) else Product.price chosen.2)
    (quantity >=? BULK_DISCOUNT_THRESHOLD cfg).

(** An item as the line of a request: its product and its quantity. *)
Definition as_line {F : Type} (d : item_data F) : OrderItemCreate.t :=
  OrderItemCreate.mk (d_product_id d) (d_quantity d).

(** The items of the order seeded from a draw, in the order sampled. *)
Definition seeded_items {F : Type} `{PyFloat F} (cfg : Config F) (draw : Draw.t F)
    : list (item_data F) :=
  imap (λ j chosen, seeded_item cfg (Draw.quantity draw j) chosen) (Draw.sample draw).

(** The session once the order of a draw is seeded. *)
Definition seeded_store {F : Type} `{PyFloat F} (cfg : Config F) (draw : Draw.t F)
    (s : Store.t F) : Store.t F :=
  let ds := seeded_items cfg draw in
  let subtotal := sum_totals fzero ds in
  Store.mk (take_stock (Store.products s) (as_line <$> ds))
    (Store.orders s ++
       [Order.mk (Draw.order_key draw) (Draw.customer draw).1 (Draw.customer draw).2
          subtotal (shipping_for cfg subtotal) (fadd subtotal (shipping_for cfg subtotal))
          (Draw.now draw - Draw.days_ago draw * seconds_per_day)])
    (Store.order_items s ++ (row_of (Draw.order_key draw) <$> ds)).

(** The reply of the database to the order of a draw, and the order as a
    request to the service: the customer drawn, and a line for each
    product sampled with the quantity drawn for it. *)
Definition seeded_reply {F : Type} (draw : Draw.t F) : DbReply :=
  {| issued_id := Draw.order_key draw;
     server_now := Draw.now draw - Draw.days_ago draw * seconds_per_day;
     on_commit := None |}.

Definition seeded_request {F : Type} (draw : Draw.t F) : OrderCreate.t :=
  OrderCreate.mk (Draw.customer draw).1 (Draw.customer draw).2
    (imap (λ j chosen, OrderItemCreate.mk chosen.1 (Draw.quantity draw j))
       (Draw.sample draw)).

(** The products of a sample are products of the catalog, at its prices. *)
Definition sampled_from {F : Type} (tbl : gmap Z (Product.t F)) (draw : Draw.t F) : Prop :=
  ∀ chosen,
    chosen ∈ Draw.sample draw →
    ∃ product, tbl !! chosen.1 = Some product
               ∧ Product.price product = Product.price chosen.2.

(** An order line is priced from the catalog price of its product by the
    bulk discount rule. *)
Definition line_priced {F : Type} `{PyFloat F} (cfg : Config F)
    (tbl : gmap Z (Product.t F)) (it : OrderItem.t F) : Prop :=
  ∃ product,
    tbl !! OrderItem.product_id it = Some product
    ∧ (BULK_DISCOUNT_THRESHOLD cfg ≤ OrderItem.quantity it →
         OrderItem.unit_price it
         = fmul (Product.price product)
             (fsub (float_of_int 1) (int_truediv (BULK_DISCOUNT_PERCENT cfg) 100))
         ∧ OrderItem.discount_applied it = true)
    ∧ (OrderItem.quantity it < BULK_DISCOUNT_THRESHOLD cfg →
         OrderItem.unit_price it = Product.price product
         ∧ OrderItem.discount_applied it = false).

Definition lines_priced {F : Type} `{PyFloat F} (cfg : Config F) (db : Store.t F) : Prop :=
  Forall (line_priced cfg (Store.products db)) (Store.order_items db).

(** The draws of a run of two orders on the catalog of the tests: each
    takes seven of product 1 and seven of the Luxury Item. *)
Definition draw0 (i : nat) : Draw.t Q :=
  Draw.mk ("John Smith", "john.smith@example.com") 2
    [(1, Product.mk "Test Product 1" "Description 1" 10%Q 20);
     (4, Product.mk "Luxury Item" "Very expensive item" 100%Q 5)]
    (λ _, 7) 3 1700000000 (Z.of_nat i + 1).

(** The draws of an order the catalog of the tests has the stock for:
    seven of product 3 and two of product 1. *)
Definition draw1 : Draw.t Q :=
  Draw.mk ("Emma Johnson", "emma.johnson@example.com") 2
    [(3, Product.mk "Test Product 3" "Description 3" 5%Q 50);
     (1, Product.mk "Test Product 1" "Description 1" 10%Q 20)]
    (λ j, match j with O => 7 | _ => 2 end) 12 1700000000 1.

(** Closes a goal about the running example by evaluation. *)
Ltac run := vm_compute; reflexivity.

(** * The first loop *)

Section PriceLoop.
Context {F : Type} `{PyFloat F}.
Variable cfg : Config F.
Implicit Types (tbl : gmap Z (Product.t F)) (items : list OrderItemCreate.t).
Implicit Types (ds acc : list (item_data F)) (d : item_data F).

Lemma price_loop_cons tbl item items acc sub :
  price_loop cfg tbl (item :: items) acc sub =
    match price_line cfg tbl item with
    | Raise e => Raise e
    | Return d => price_loop cfg tbl items (acc ++ [d]) (fadd sub (item_total d))
    end.
Proof.
  cbn [price_loop]. unfold price_line.
  destruct (tbl !! OrderItemCreate.product_id item) as [product|]; [|done].
  destruct (Product.inventory product <? OrderItemCreate.quantity item); [done|].
  by destruct (OrderItemCreate.quantity item >=? BULK_DISCOUNT_THRESHOLD cfg).
Qed.

Lemma price_line_Return tbl item d :
  price_line cfg tbl item = Return d →
  ∃ product,
    tbl !! OrderItemCreate.product_id item = Some product
    ∧ OrderItemCreate.quantity item ≤ Product.inventory product
    ∧ d_product_id d = OrderItemCreate.product_id item
    ∧ d_quantity d = OrderItemCreate.quantity item
    ∧ (BULK_DISCOUNT_THRESHOLD cfg ≤ OrderItemCreate.quantity item →
         d_unit_price d = discounted cfg (Product.price product)
         ∧ d_discount_applied d = true)
    ∧ (OrderItemCreate.quantity item < BULK_DISCOUNT_THRESHOLD cfg →
         d_unit_price d = Product.price product ∧ d_discount_applied d = false).
Proof.
  unfold price_line.
  destruct (tbl !! OrderItemCreate.product_id item) as [product|]; [|done].
  destruct (Z.ltb_spec (Product.inventory product) (OrderItemCreate.quantity item));
    [done|].
  intros [= <-]. exists product. cbn.
  destruct (Z.geb_spec (OrderItemCreate.quantity item) (BULK_DISCOUNT_THRESHOLD cfg));
    repeat split; (done || lia).
Qed.

Lemma available_price_line tbl item :
  available tbl item ↔ ∃ d, price_line cfg tbl item = Return d.
Proof.
  split.
  - intros (product & Hp & Hq). unfold price_line. rewrite Hp.
    destruct (Z.ltb_spec (Product.inventory product) (OrderItemCreate.quantity item));
      [lia|eauto].
  - intros (d & Hd). apply price_line_Return in Hd as (product & ? & ? & _).
    by exists product.
Qed.

(** The loop returns exactly when every line prices, with the priced
    lines in request order and the running sum of their totals. *)
Lemma price_loop_Return tbl items acc sub ois s :
  price_loop cfg tbl items acc sub = Return (ois, s) ↔
  ∃ ds, Forall2 (λ item d, price_line cfg tbl item = Return d) items ds
        ∧ ois = acc ++ ds ∧ s = sum_totals sub ds.
Proof.
  revert acc sub. induction items as [|item items IH]; intros acc sub.
  - cbn. split.
    + intros [= <- <-]. exists []. by rewrite app_nil_r.
    + intros (ds & Hds & -> & ->). apply Forall2_nil_inv_l in Hds as ->.
      by rewrite app_nil_r.
  - rewrite price_loop_cons. split.
    + destruct (price_line cfg tbl item) as [d|e] eqn:Hd; [|done].
      intros (ds & Hds & -> & ->)%IH. exists (d :: ds).
      split; [by constructor|]. by rewrite <- app_assoc.
    + intros (ds & Hds & -> & ->).
      apply Forall2_cons_inv_l in Hds as (d & ds' & Hd & Hds' & ->).
      rewrite Hd. apply IH. exists ds'. by rewrite <- app_assoc.
Qed.

(** The loop raises exactly the exception of the first line that does
    not price. *)
Lemma price_loop_Raise tbl items acc sub e :
  price_loop cfg tbl items acc sub = Raise e ↔
  ∃ pre item post,
    items = pre ++ item :: post
    ∧ Forall (available tbl) pre
    ∧ price_line cfg tbl item = Raise e.
Proof.
  revert acc sub. induction items as [|item items IH]; intros acc sub.
  - cbn. split; [done|]. intros (pre & it & post & Heq & _). by destruct pre.
  - rewrite price_loop_cons. split.
    + destruct (price_line cfg tbl item) as [d|e'] eqn:Hd.
      * intros (pre & it & post & -> & Hpre & Hit)%IH.
        exists (item :: pre), it, post. split; [done|]. split; [|done].
        constructor; [|done]. apply available_price_line. eauto.
      * intros [= ->]. exists [], item, items. by repeat split.
    + intros ([|item' pre] & it & post & Heq & Hpre & Hit); simplify_eq/=.
      * by rewrite Hit.
      * apply Forall_cons in Hpre as [(d & Hd)%available_price_line Hpre].
        rewrite Hd. apply IH. eauto 10.
Qed.

End PriceLoop.


(** * The second loop *)

Section PersistLoop.
Context {F : Type} `{PyFloat F}.
Implicit Types (tbl : gmap Z (Product.t F)) (items : list OrderItemCreate.t).
Implicit Types (ds : list (item_data F)) (s : Store.t F).

Lemma sell_0 (product : Product.t F) : sell 0 product = product.
Proof. destruct product. unfold sell. cbn. f_equal. lia. Qed.

Lemma sell_sell q r (product : Product.t F) :
  sell r (sell q product) = sell (q + r) product.
Proof. unfold sell. cbn. f_equal. lia. Qed.

Lemma insert_sell tbl k q product :
  tbl !! k = Some product → <[k := sell q product]> tbl = alter (sell q) k tbl.
Proof.
  intros Hk. apply map_eq. intros j.
  rewrite lookup_insert, lookup_alter.
  case_decide; [|done]. by rewrite Hk.
Qed.

Lemma take_stock_cons tbl item items :
  take_stock tbl (item :: items) =
    take_stock
      (alter (sell (OrderItemCreate.quantity item)) (OrderItemCreate.product_id item) tbl)
      items.
Proof. done. Qed.

(** Taking the stock of a request changes nothing of a product but its
    inventory, which loses what the request asks of the product. *)
Lemma take_stock_lookup tbl items k :
  take_stock tbl items !! k = sell (requested k items) <$> tbl !! k.
Proof.
  revert tbl. induction items as [|item items IH]; intros tbl.
  - cbn. destruct (tbl !! k) as [product|]; [|done]. cbn. by rewrite sell_0.
  - rewrite take_stock_cons, IH, lookup_alter. cbn [requested foldr].
    fold (requested k items). case_decide as Hk.
    + rewrite Hk. destruct (tbl !! k) as [product|]; [|done]. cbn.
      by rewrite sell_sell.
    + done.
Qed.

Lemma requested_not_elem_of k items :
  k ∉ OrderItemCreate.product_id <$> items → requested k items = 0.
Proof.
  induction items as [|item items IH]; [done|].
  rewrite fmap_cons, not_elem_of_cons. intros [Hne Hk].
  cbn [requested foldr]. fold (requested k items).
  case_decide; [congruence|]. by apply IH.
Qed.

(** A product named by exactly one line is asked that line's quantity. *)
Lemma requested_single pre item post :
  OrderItemCreate.product_id item ∉ OrderItemCreate.product_id <$> pre ++ post →
  requested (OrderItemCreate.product_id item) (pre ++ item :: post)
  = OrderItemCreate.quantity item.
Proof.
  rewrite fmap_app, not_elem_of_app. intros [Hpre Hpost].
  induction pre as [|item' pre IH].
  - cbn [app requested foldr]. fold (requested (OrderItemCreate.product_id item) post).
    rewrite decide_True by done. rewrite (requested_not_elem_of _ _ Hpost). lia.
  - rewrite fmap_cons, not_elem_of_cons in Hpre. destruct Hpre as [Hne Hpre].
    cbn [app requested foldr].
    fold (requested (OrderItemCreate.product_id item) (pre ++ item :: post)).
    rewrite decide_False by done. by apply IH.
Qed.

(** With every product of the request in the catalog the second loop runs
    to its end: one row per priced line, and the stock taken. *)
Lemma persist_loop_Return order_id items ds s :
  length ds = length items →
  Forall (λ item, is_Some (Store.products s !! OrderItemCreate.product_id item)) items →
  persist_loop order_id (zip ds items) s =
    Return (Store.mk (take_stock (Store.products s) items) (Store.orders s)
              (Store.order_items s ++ (row_of order_id <$> ds))).
Proof.
  revert ds s. induction items as [|item items IH]; intros ds s Hlen Hin.
  - destruct ds; [|done]. cbn. rewrite app_nil_r. by destruct s.
  - destruct ds as [|d ds]; [done|]. injection Hlen as Hlen.
    apply Forall_cons in Hin as [[product Hp] Hin].
    cbn [zip zip_with persist_loop Store.products Store.orders Store.order_items].
    rewrite Hp. fold (sell (OrderItemCreate.quantity item) product).
    rewrite (insert_sell _ _ _ _ Hp), IH; [| done |].
    + cbn [Store.products Store.orders Store.order_items].
      rewrite take_stock_cons, fmap_cons, <- app_assoc. done.
    + cbn [Store.products]. eapply Forall_impl; [exact Hin|].
      intros item' Hitem'. cbn in Hitem'. rewrite lookup_alter_is_Some. done.
Qed.

(** The rows of a new order are just those of its key when no older row
    points to that key. *)
Lemma order_lines_fresh order_id (old : list (OrderItem.t F)) ds tbl os :
  Forall (λ it, OrderItem.order_id it ≠ order_id) old →
  order_lines (Store.mk tbl os (old ++ (row_of order_id <$> ds))) order_id
  = row_of order_id <$> ds.
Proof.
  intros Hold. unfold order_lines. cbn [Store.order_items]. rewrite filter_app.
  assert (filter (λ it : OrderItem.t F, OrderItem.order_id it = order_id) old = []) as ->.
  { induction Hold as [|it old Hit _ IH]; [done|]. by rewrite filter_cons_False. }
  cbn [app]. induction ds as [|d ds IH]; [done|].
  rewrite fmap_cons, filter_cons_True by done. by rewrite IH.
Qed.

End PersistLoop.


(** * create_order as a whole *)

Section CreateOrder.
Context {F : Type} `{PyFloat F}.
Variable cfg : Config F.
Implicit Types (db : Store.t F) (order : OrderCreate.t) (reply : DbReply).
Implicit Types (ds : list (item_data F)).

(** A failure of the first loop is the failure of the call, and the store
    is the one the call started from. *)
Lemma create_order_price_Raise reply db order e :
  price_loop cfg (Store.products db) (OrderCreate.items order) [] fzero = Raise e →
  create_order cfg reply db order = (Raise e, db).
Proof. intros Hloop. unfold create_order. by rewrite Hloop. Qed.

Lemma priced_available (tbl : gmap Z (Product.t F)) items ds :
  Forall2 (λ item d, price_line cfg tbl item = Return d) items ds →
  Forall (available tbl) items.
Proof.
  induction 1 as [|item d items ds Hd _ IH]; constructor; [|done].
  apply (available_price_line cfg). eauto.
Qed.

Lemma available_priced (tbl : gmap Z (Product.t F)) items :
  Forall (available tbl) items →
  ∃ ds, Forall2 (λ item d, price_line cfg tbl item = Return d) items ds.
Proof.
  induction 1 as [|item items Hitem _ [ds IH]]; [by exists []|].
  apply (available_price_line cfg) in Hitem as [d Hd]. exists (d :: ds). by constructor.
Qed.

(** Once every line prices, the call is decided by the commit alone. *)
Lemma create_order_priced reply db order ds :
  Forall2 (λ item d, price_line cfg (Store.products db) item = Return d)
    (OrderCreate.items order) ds →
  create_order cfg reply db order =
    match on_commit reply with
    | None => (Return (response_of cfg reply db order ds), stored cfg reply db order ds)
    | Some (IntegrityError msg) =>
        (Raise (HTTPException 400 ("Database error: " +:+ msg)), db)
    | Some e => (Raise (DBError e), db)
    end.
Proof.
  intros Hds. unfold create_order.
  assert (price_loop cfg (Store.products db) (OrderCreate.items order) [] fzero
          = Return (ds, sum_totals fzero ds)) as ->.
  { apply price_loop_Return. by exists ds. }
  cbn [Order.id].
  rewrite persist_loop_Return.
  - done.
  - symmetry. by eapply Forall2_length.
  - cbn [Store.products]. eapply Forall_impl; [by eapply priced_available|].
    intros item (product & Hp & _). by exists product.
Qed.

(** A call that returns has priced every line and had its commit accepted;
    response and store are then the ones of [response_of] and [stored]. *)
Lemma create_order_Return_inv reply db order resp db' :
  create_order cfg reply db order = (Return resp, db') →
  ∃ ds,
    Forall2 (λ item d, price_line cfg (Store.products db) item = Return d)
      (OrderCreate.items order) ds
    ∧ on_commit reply = None
    ∧ resp = response_of cfg reply db order ds
    ∧ db' = stored cfg reply db order ds.
Proof.
  destruct (price_loop cfg (Store.products db) (OrderCreate.items order) [] fzero)
    as [[ois s]|e] eqn:Hloop.
  - apply price_loop_Return in Hloop as (ds & Hds & _ & _).
    rewrite (create_order_priced _ _ _ _ Hds).
    destruct (on_commit reply) as [[msg|msg]|]; [done..|].
    intros [= <- <-]. by exists ds.
  - by rewrite (create_order_price_Raise _ _ _ _ Hloop).
Qed.

End CreateOrder.

(** * Pricing *)

Section Pricing.
Context {F : Type} `{PyFloat F}.
Variable cfg : Config F.
Implicit Types (db : Store.t F) (order : OrderCreate.t) (reply : DbReply).
Implicit Types (ds : list (item_data F)).

Lemma priced_rows (tbl : gmap Z (Product.t F)) order_id items ds :
  Forall2 (λ item d, price_line cfg tbl item = Return d) items ds →
  Forall2 (bulk_discount_rule cfg tbl) items (row_of order_id <$> ds).
Proof.
  induction 1 as [|item d items ds Hd _ IH]; [constructor|].
  rewrite fmap_cons. constructor; [|done].
  apply price_line_Return in Hd as (product & Hp & _ & Hid & Hq & Hge & Hlt).
  unfold bulk_discount_rule, row_of. cbn. repeat split; [done..|].
  exists product. split; [done|]. split; [exact Hge|exact Hlt].
Qed.

Lemma lines_total_rows order_id ds :
  lines_total (row_of order_id <$> ds) = sum_totals fzero ds.
Proof.
  unfold lines_total, sum_totals. generalize (fzero (F := F)).
  induction ds as [|d ds IH]; intros start; [done|]. cbn. by rewrite IH.
Qed.

(** The response lists the rows of the order when the issued key is new. *)
Lemma response_items reply db order ds :
  fresh_order_id reply db →
  OrderResponse.items (response_of cfg reply db order ds)
  = item_response <$> (row_of (issued_id reply) <$> ds).
Proof.
  intros Hfresh. unfold response_of, stored. cbn [OrderResponse.items order_row Order.id].
  by rewrite order_lines_fresh.
Qed.

(** The rule fixes the price and the flag of a row from the line and its
    product alone: two rows that obey it for the same line agree. *)
Lemma bulk_discount_rule_functional (tbl : gmap Z (Product.t F)) item row1 row2 :
  bulk_discount_rule cfg tbl item row1 →
  bulk_discount_rule cfg tbl item row2 →
  OrderItem.unit_price row1 = OrderItem.unit_price row2
  ∧ OrderItem.discount_applied row1 = OrderItem.discount_applied row2.
Proof.
  intros (_ & _ & product & Hp & Hge1 & Hlt1) (_ & _ & product' & Hp' & Hge2 & Hlt2).
  rewrite Hp in Hp'. injection Hp' as <-.
  destruct (decide (BULK_DISCOUNT_THRESHOLD cfg ≤ OrderItemCreate.quantity item)) as [Hq|Hq].
  - destruct (Hge1 Hq) as [-> ->]. destruct (Hge2 Hq) as [-> ->]. done.
  - destruct (Hlt1 ltac:(lia)) as [-> ->]. destruct (Hlt2 ltac:(lia)) as [-> ->]. done.
Qed.

(** C1. Every requested line of an order that is created is written as one
    row, in request order; a line whose quantity is at least
    BULK_DISCOUNT_THRESHOLD has the catalog price times
    (1 - BULK_DISCOUNT_PERCENT/100) as its unit price and its discount flag
    set, a line below the threshold has the catalog price and the flag
    clear.  The rule of a line reads that line's quantity and product only,
    whatever the other lines ask.  The response lists the same lines when
    the key issued for the order is new. *)
Theorem create_order_bulk_discount reply db order resp db' :
  create_order cfg reply db order = (Return resp, db') →
  ∃ rows,
    Store.order_items db' = Store.order_items db ++ rows
    ∧ Forall2 (bulk_discount_rule cfg (Store.products db)) (OrderCreate.items order) rows
    ∧ (fresh_order_id reply db → OrderResponse.items resp = item_response <$> rows).
Proof.
  intros (ds & Hds & _ & -> & ->)%create_order_Return_inv.
  exists (row_of (issued_id reply) <$> ds). split; [done|]. split.
  - by apply priced_rows.
  - apply response_items.
Qed.

(** C2. For an order that is created, the shipping fee is SHIPPING_FEE when
    the subtotal is strictly below FREE_SHIPPING_THRESHOLD and 0.0 when it
    is not (so, for a fee other than 0.0, it is SHIPPING_FEE exactly when
    the subtotal is below the threshold); the total is the subtotal plus
    the shipping fee; and the subtotal is the sum over the lines of the
    order of unit price times quantity.  The row of the order holds the
    same three amounts. *)
Theorem create_order_shipping_total reply db order resp db' :
  create_order cfg reply db order = (Return resp, db') →
  ∃ rows db_order,
    Store.order_items db' = Store.order_items db ++ rows
    ∧ Store.orders db' = Store.orders db ++ [db_order]
    ∧ OrderResponse.subtotal resp = lines_total rows
    ∧ (flt (OrderResponse.subtotal resp) (FREE_SHIPPING_THRESHOLD cfg) = true →
         OrderResponse.shipping_fee resp = SHIPPING_FEE cfg)
    ∧ (flt (OrderResponse.subtotal resp) (FREE_SHIPPING_THRESHOLD cfg) = false →
         OrderResponse.shipping_fee resp = fzero)
    ∧ (SHIPPING_FEE cfg ≠ fzero →
         OrderResponse.shipping_fee resp = SHIPPING_FEE cfg
         ↔ flt (OrderResponse.subtotal resp) (FREE_SHIPPING_THRESHOLD cfg) = true)
    ∧ OrderResponse.total_amount resp
      = fadd (OrderResponse.subtotal resp) (OrderResponse.shipping_fee resp)
    ∧ Order.subtotal db_order = OrderResponse.subtotal resp
    ∧ Order.shipping_fee db_order = OrderResponse.shipping_fee resp
    ∧ Order.total_amount db_order = OrderResponse.total_amount resp.
Proof.
  intros (ds & Hds & _ & -> & ->)%create_order_Return_inv.
  exists (row_of (issued_id reply) <$> ds), (order_row cfg reply order ds).
  cbn [response_of stored order_row Store.order_items Store.orders
       OrderResponse.subtotal OrderResponse.shipping_fee OrderResponse.total_amount
       Order.subtotal Order.shipping_fee Order.total_amount].
  rewrite lines_total_rows. unfold shipping_for.
  destruct (flt (sum_totals fzero ds) (FREE_SHIPPING_THRESHOLD cfg)) eqn:Hlt.
  - repeat split; done.
  - repeat split; first [done | intros; congruence].
Qed.

End Pricing.

Lemma create_order_bulk_discount_witness :
  ∃ resp db',
    create_order cfg0 accepted db0 (request [(1, 6); (2, 1)]) = (Return resp, db')
    ∧ ∃ rows,
        Store.order_items db' = Store.order_items db0 ++ rows
        ∧ Forall2 (bulk_discount_rule cfg0 (Store.products db0))
            (OrderCreate.items (request [(1, 6); (2, 1)])) rows
        ∧ (fresh_order_id accepted db0 → OrderResponse.items resp = item_response <$> rows).
Proof.
  eexists _, _. split; [run|].
  apply (create_order_bulk_discount cfg0 accepted db0 (request [(1, 6); (2, 1)])). run.
Defined.

Lemma create_order_shipping_total_witness :
  ∃ resp db',
    create_order cfg0 accepted db0 (request [(1, 2); (3, 3)]) = (Return resp, db')
    ∧ OrderResponse.subtotal resp = 35%Q
    ∧ OrderResponse.shipping_fee resp = 5%Q
    ∧ OrderResponse.total_amount resp = 40%Q
    ∧ ∃ rows db_order,
        Store.order_items db' = Store.order_items db0 ++ rows
        ∧ Store.orders db' = Store.orders db0 ++ [db_order]
        ∧ OrderResponse.subtotal resp = lines_total rows
        ∧ (flt (OrderResponse.subtotal resp) (FREE_SHIPPING_THRESHOLD cfg0) = true →
             OrderResponse.shipping_fee resp = SHIPPING_FEE cfg0)
        ∧ (flt (OrderResponse.subtotal resp) (FREE_SHIPPING_THRESHOLD cfg0) = false →
             OrderResponse.shipping_fee resp = fzero)
        ∧ (SHIPPING_FEE cfg0 ≠ fzero →
             OrderResponse.shipping_fee resp = SHIPPING_FEE cfg0
             ↔ flt (OrderResponse.subtotal resp) (FREE_SHIPPING_THRESHOLD cfg0) = true)
        ∧ OrderResponse.total_amount resp
          = fadd (OrderResponse.subtotal resp) (OrderResponse.shipping_fee resp)
        ∧ Order.subtotal db_order = OrderResponse.subtotal resp
        ∧ Order.shipping_fee db_order = OrderResponse.shipping_fee resp
        ∧ Order.total_amount db_order = OrderResponse.total_amount resp.
Proof.
  eexists _, _. split; [run|]. do 3 (split; [run|]).
  apply (create_order_shipping_total cfg0 accepted db0 (request [(1, 2); (3, 3)])). run.
Defined.

(** C2 as stated fails in its "only if": with [SHIPPING_FEE=0.0] an order of
    one Luxury Item has a subtotal of 100, which is not below the threshold
    of 50, and its shipping fee, 0.0, is SHIPPING_FEE all the same. *)
Lemma create_order_shipping_total_counterexample :
  ∃ resp db',
    create_order cfg_free_shipping accepted db0 (request [(4, 1)]) = (Return resp, db')
    ∧ OrderResponse.subtotal resp = 100%Q
    ∧ OrderResponse.shipping_fee resp = SHIPPING_FEE cfg_free_shipping
    ∧ flt (OrderResponse.subtotal resp) (FREE_SHIPPING_THRESHOLD cfg_free_shipping) = false
    ∧ ¬ (OrderResponse.shipping_fee resp = SHIPPING_FEE cfg_free_shipping
         ↔ flt (OrderResponse.subtotal resp) (FREE_SHIPPING_THRESHOLD cfg_free_shipping)
           = true).
Proof.
  eexists _, _. split; [run|]. split; [reflexivity|]. split; [reflexivity|].
  split; [reflexivity|]. intros [Hfee _]. specialize (Hfee eq_refl). discriminate Hfee.
Qed.

(** * Stock *)

Section Stock.
Context {F : Type} `{PyFloat F}.
Variable cfg : Config F.
Implicit Types (db : Store.t F) (order : OrderCreate.t) (reply : DbReply).

Lemma stock_stored reply db order ds k :
  stock (stored cfg reply db order ds) k
  = (λ s, s - requested k (OrderCreate.items order)) <$> stock db k.
Proof.
  unfold stock, stored. cbn [Store.products]. rewrite take_stock_lookup.
  by destruct (Store.products db !! k).
Qed.

(** C6. After an order is created, the stock of every product is its
    prior stock less the quantity the order asks of that product, all its
    lines together; a product named by one line, of quantity q, with prior
    stock s, ends with stock s - q; and a product no line names keeps its
    row, stock included, as it was. *)
Theorem create_order_stock reply db order resp db' :
  create_order cfg reply db order = (Return resp, db') →
  ∀ k,
    stock db' k = (λ s, s - requested k (OrderCreate.items order)) <$> stock db k
    ∧ (∀ pre item post,
         OrderCreate.items order = pre ++ item :: post →
         OrderItemCreate.product_id item = k →
         k ∉ OrderItemCreate.product_id <$> pre ++ post →
         ∃ s, stock db k = Some s ∧ stock db' k = Some (s - OrderItemCreate.quantity item))
    ∧ (k ∉ OrderItemCreate.product_id <$> OrderCreate.items order →
         Store.products db' !! k = Store.products db !! k).
Proof.
  intros (ds & Hds & _ & -> & ->)%create_order_Return_inv k.
  split; [apply stock_stored|]. split.
  - intros pre item post Hitems <- Hk.
    apply priced_available in Hds. rewrite Hitems in Hds.
    apply Forall_app in Hds as [_ [(product & Hp & _) _]%Forall_cons].
    exists (Product.inventory product). rewrite stock_stored.
    unfold stock. rewrite Hp, Hitems, requested_single by done. done.
  - intros Hk. unfold stored. cbn [Store.products].
    rewrite take_stock_lookup, requested_not_elem_of by done.
    destruct (Store.products db !! k) as [product|]; [|done]. cbn. by rewrite sell_0.
Qed.

End Stock.

Lemma create_order_stock_witness :
  ∃ resp db',
    create_order cfg0 accepted db0 (request [(1, 2); (3, 3)]) = (Return resp, db')
    ∧ stock db0 1 = Some 20 ∧ stock db' 1 = Some 18
    ∧ stock db0 3 = Some 50 ∧ stock db' 3 = Some 47
    ∧ Store.products db' !! 2 = Store.products db0 !! 2
    ∧ ∀ k,
        stock db' k
        = (λ s, s - requested k (OrderCreate.items (request [(1, 2); (3, 3)]))) <$> stock db0 k.
Proof.
  eexists _, _. split; [run|]. do 5 (split; [run|]). intros k.
  apply (create_order_stock cfg0 accepted db0 (request [(1, 2); (3, 3)]) _ _ eq_refl k).
Defined.

Lemma db0_stock_nonneg : stock_nonneg db0.
Proof.
  unfold stock_nonneg, db0, catalog0. cbn [Store.products].
  repeat (apply map_Forall_insert_2; [cbn; lia|]). apply map_Forall_empty.
Qed.

(** C3, at the input where the code leaves it: the catalog of the fixture
    has no negative stock and the request passes validation, both lines
    ask 15 of a product that has 20, the order is created, and the product
    is left with a stock of -10. *)
Theorem create_order_oversells :
  stock_nonneg db0
  ∧ valid_order (request [(1, 15); (1, 15)])
  ∧ ∃ resp db',
      create_order cfg0 accepted db0 (request [(1, 15); (1, 15)]) = (Return resp, db')
      ∧ stock db' 1 = Some (-10)
      ∧ ¬ stock_nonneg db'.
Proof.
  split; [exact db0_stock_nonneg|].
  split.
  { unfold valid_order. cbn. repeat constructor. }
  eexists _, _. split; [run|]. split; [run|].
  intros Hnonneg.
  assert (Hlookup : ∃ product, Store.products
            (create_order cfg0 accepted db0 (request [(1, 15); (1, 15)])).2 !! 1
            = Some product ∧ Product.inventory product = -10).
  { eexists. split; run. }
  destruct Hlookup as (product & Hp & Hinv).
  specialize (Hnonneg 1 product). cbn beta in Hnonneg.
  assert (0 ≤ Product.inventory product) as Hge; [|lia].
  apply Hnonneg. revert Hp. vm_compute. done.
Qed.

(** * Strings of the error details *)

Lemma append_cons a (s t : string) : String a s +:+ t = String a (s +:+ t).
Proof. reflexivity. Qed.

Lemma prefix_append (sub s : string) : String.prefix sub (sub +:+ s) = true.
Proof.
  induction sub as [|a sub IH]; [by destruct s|].
  rewrite append_cons. cbn [String.prefix].
  destruct (Ascii.ascii_dec a a); [done|congruence].
Qed.

Lemma occurs_here (sub s : string) : occurs sub (sub +:+ s) = true.
Proof.
  assert (Hprefix := prefix_append sub s).
  destruct (sub +:+ s); cbn [occurs]; by rewrite Hprefix.
Qed.

Lemma occurs_self (sub : string) : occurs sub sub = true.
Proof.
  assert (String.prefix sub sub = true) as Hprefix.
  { induction sub as [|a sub IH]; [done|]. cbn [String.prefix].
    destruct (Ascii.ascii_dec a a); [done|congruence]. }
  destruct sub; cbn [occurs]; by rewrite Hprefix.
Qed.

Lemma occurs_append_r (sub t s : string) :
  occurs sub s = true → occurs sub (t +:+ s) = true.
Proof.
  intros Hs. induction t as [|a t IH]; [done|].
  rewrite append_cons. cbn [occurs]. rewrite IH. apply orb_true_r.
Qed.

(** * Failures of create_order *)

Section Failures.
Context {F : Type} `{PyFloat F}.
Variable cfg : Config F.
Implicit Types (db : Store.t F) (order : OrderCreate.t) (reply : DbReply).
Implicit Types (tbl : gmap Z (Product.t F)) (item : OrderItemCreate.t).

Lemma available_dec tbl item : available tbl item ∨ ¬ available tbl item.
Proof.
  unfold available. destruct (tbl !! OrderItemCreate.product_id item) as [product|].
  - destruct (decide (OrderItemCreate.quantity item ≤ Product.inventory product)).
    + left. eauto.
    + right. intros (product' & [= <-] & ?). done.
  - right. by intros (product' & [=] & _).
Qed.

(** The lines of a list all have their stock, or there is a first one
    that has not. *)
Lemma first_unavailable tbl (items : list OrderItemCreate.t) :
  Forall (available tbl) items
  ∨ ∃ pre item post,
      items = pre ++ item :: post ∧ Forall (available tbl) pre ∧ ¬ available tbl item.
Proof.
  induction items as [|item items IH]; [by left|].
  destruct (available_dec tbl item) as [Hitem|Hitem].
  - destruct IH as [IH|(pre & it & post & -> & Hpre & Hit)].
    + left. by constructor.
    + right. exists (item :: pre), it, post. repeat split; [|done]. by constructor.
  - right. exists [], item, items. by repeat split.
Qed.

(** A list with a line that names an absent product has a first such
    line. *)
Lemma first_missing tbl (items : list OrderItemCreate.t) item0 :
  item0 ∈ items →
  tbl !! OrderItemCreate.product_id item0 = None →
  ∃ pre item post,
    items = pre ++ item :: post
    ∧ Forall (λ it, is_Some (tbl !! OrderItemCreate.product_id it)) pre
    ∧ tbl !! OrderItemCreate.product_id item = None.
Proof.
  intros Hin Hmissing. induction items as [|item items IH]; [by apply elem_of_nil in Hin|].
  destruct (tbl !! OrderItemCreate.product_id item) as [product|] eqn:Hp.
  - apply elem_of_cons in Hin as [->|Hin]; [congruence|].
    destruct (IH Hin) as (pre & it & post & -> & Hpre & Hit).
    exists (item :: pre), it, post. split; [done|]. split; [|done].
    constructor; [by exists product|done].
  - exists [], item, items. by repeat split.
Qed.

Lemma price_line_missing tbl item :
  tbl !! OrderItemCreate.product_id item = None →
  price_line cfg tbl item
  = Raise (HTTPException 404 (not_found_detail (OrderItemCreate.product_id item))).
Proof. intros Hp. unfold price_line. by rewrite Hp. Qed.

Lemma price_line_short tbl item product :
  tbl !! OrderItemCreate.product_id item = Some product →
  Product.inventory product < OrderItemCreate.quantity item →
  price_line cfg tbl item
  = Raise (HTTPException 400
             (not_enough_detail (Product.name product) (OrderItemCreate.quantity item)
                (Product.inventory product))).
Proof.
  intros Hp Hlt. unfold price_line. rewrite Hp.
  destruct (Z.ltb_spec (Product.inventory product) (OrderItemCreate.quantity item));
    [done|lia].
Qed.

(** The call fails at the first line that does not price, with the
    exception of that line, and persists nothing. *)
Lemma create_order_first_failure reply db order pre item post e :
  OrderCreate.items order = pre ++ item :: post →
  Forall (available (Store.products db)) pre →
  price_line cfg (Store.products db) item = Raise e →
  create_order cfg reply db order = (Raise e, db).
Proof.
  intros Hitems Hpre Hitem. apply create_order_price_Raise.
  apply price_loop_Raise. by exists pre, item, post.
Qed.

(** A request with a line that lacks its product or its stock fails, at
    its first such line, and persists nothing. *)
Lemma create_order_unavailable reply db order item0 :
  item0 ∈ OrderCreate.items order →
  ¬ available (Store.products db) item0 →
  ∃ e, create_order cfg reply db order = (Raise e, db).
Proof.
  intros Hin Hitem0.
  destruct (first_unavailable (Store.products db) (OrderCreate.items order))
    as [Hall|(pre & item & post & Hitems & Hpre & Hitem)].
  - destruct Hitem0. by apply (proj1 (Forall_forall _ _) Hall).
  - destruct (price_line cfg (Store.products db) item) as [d|e] eqn:Hline.
    + destruct Hitem. apply (available_price_line cfg). eauto.
    + exists e. by eapply create_order_first_failure.
Qed.

(** C4, amended. A request with a line that names a product absent from
    the catalog fails, persists no order and no order line and changes no
    stock.  With [item] the first line that names an absent product: when
    every line before it asks no more than the stock of its product the
    failure is the 404 "Product with ID <id> not found" of [item];
    otherwise it is the 400 of the first earlier line that asks more than
    the stock. *)
Theorem create_order_missing_product reply db order item0 :
  item0 ∈ OrderCreate.items order →
  Store.products db !! OrderItemCreate.product_id item0 = None →
  ∃ pre item post e,
    OrderCreate.items order = pre ++ item :: post
    ∧ Forall (λ it, is_Some (Store.products db !! OrderItemCreate.product_id it)) pre
    ∧ Store.products db !! OrderItemCreate.product_id item = None
    ∧ create_order cfg reply db order = (Raise e, db)
    ∧ ((Forall (available (Store.products db)) pre
        ∧ e = HTTPException 404
                ("Product with ID " +:+ pretty (OrderItemCreate.product_id item)
                   +:+ " not found"))
       ∨ (∃ pre' it post' product,
            pre = pre' ++ it :: post'
            ∧ Forall (available (Store.products db)) pre'
            ∧ Store.products db !! OrderItemCreate.product_id it = Some product
            ∧ Product.inventory product < OrderItemCreate.quantity it
            ∧ e = HTTPException 400
                    (not_enough_detail (Product.name product)
                       (OrderItemCreate.quantity it) (Product.inventory product)))).
Proof.
  intros Hin0 Hmissing0.
  destruct (first_missing _ _ _ Hin0 Hmissing0)
    as (pre & item & post & Hitems & Hpresent & Hmissing).
  exists pre, item, post.
  destruct (first_unavailable (Store.products db) pre)
    as [Hpre|(pre' & it & post' & Hsplit & Hpre' & Hit)].
  - eexists. repeat split; [done..| |].
    + eapply create_order_first_failure; [done..|]. by apply price_line_missing.
    + left. done.
  - assert (Hpresent' := Hpresent). rewrite Hsplit in Hpresent'.
    apply Forall_app in Hpresent' as [_ [[product Hp] _]%Forall_cons].
    assert (Product.inventory product < OrderItemCreate.quantity it) as Hlt.
    { destruct (decide (Product.inventory product < OrderItemCreate.quantity it));
        [done|]. destruct Hit. exists product. split; [done|lia]. }
    eexists. repeat split; [done..| |].
    + eapply (create_order_first_failure _ _ _ pre' it (post' ++ item :: post));
        [by rewrite Hitems, Hsplit, <- app_assoc | done | by apply price_line_short].
    + right. by exists pre', it, post', product.
Qed.

(** C5, amended. When the lines before [item] all have their stock and
    [item] asks more than the stock of its product, the call fails with a
    400 whose detail is "Not enough inventory for product <name>.
    Requested: <quantity>, Available: <stock>": it carries the name of
    the product, the quantity asked and the stock; no order is persisted
    and no stock changes. *)
Theorem create_order_insufficient_inventory reply db order pre item post product :
  OrderCreate.items order = pre ++ item :: post →
  Forall (available (Store.products db)) pre →
  Store.products db !! OrderItemCreate.product_id item = Some product →
  Product.inventory product < OrderItemCreate.quantity item →
  ∃ detail,
    create_order cfg reply db order = (Raise (HTTPException 400 detail), db)
    ∧ detail
      = "Not enough inventory for product " +:+ Product.name product
          +:+ ". Requested: " +:+ pretty (OrderItemCreate.quantity item)
          +:+ ", Available: " +:+ pretty (Product.inventory product)
    ∧ occurs (Product.name product) detail = true
    ∧ occurs (pretty (OrderItemCreate.quantity item)) detail = true
    ∧ occurs (pretty (Product.inventory product)) detail = true.
Proof.
  intros Hitems Hpre Hp Hlt. eexists. split.
  { eapply create_order_first_failure; [done..|]. by apply price_line_short. }
  unfold not_enough_detail. split; [done|].
  repeat split.
  - apply occurs_append_r, occurs_here.
  - do 3 apply occurs_append_r. apply occurs_here.
  - do 5 apply occurs_append_r. apply occurs_self.
Qed.

(** C8, amended. When every line has its stock and the commit raises an
    integrity error, the call rolls back (the store is the one it started
    from: no order, no order line, no stock taken) and raises an
    HTTPException of status 400, a client error, whose detail is "Database
    error: " followed by the text of the error. *)
Theorem create_order_write_conflict reply db order msg :
  Forall (available (Store.products db)) (OrderCreate.items order) →
  on_commit reply = Some (IntegrityError msg) →
  ∃ status_code,
    create_order cfg reply db order
    = (Raise (HTTPException status_code ("Database error: " +:+ msg)), db)
    ∧ status_code = 400
    ∧ client_error status_code.
Proof.
  intros [ds Hds]%(available_priced cfg) Hcommit. exists 400.
  rewrite (create_order_priced _ _ _ _ _ Hds), Hcommit. unfold client_error.
  repeat split; lia.
Qed.

End Failures.

Lemma create_order_missing_product_witness :
  create_order cfg0 accepted db0 (request [(1, 2); (999, 1); (2, 1)])
  = (Raise (HTTPException 404 "Product with ID 999 not found"), db0)
  ∧ ∃ pre item post e,
      OrderCreate.items (request [(1, 2); (999, 1); (2, 1)]) = pre ++ item :: post
      ∧ Forall (λ it, is_Some (Store.products db0 !! OrderItemCreate.product_id it)) pre
      ∧ Store.products db0 !! OrderItemCreate.product_id item = None
      ∧ create_order cfg0 accepted db0 (request [(1, 2); (999, 1); (2, 1)]) = (Raise e, db0)
      ∧ ((Forall (available (Store.products db0)) pre
          ∧ e = HTTPException 404
                  ("Product with ID " +:+ pretty (OrderItemCreate.product_id item)
                     +:+ " not found"))
         ∨ (∃ pre' it post' product,
              pre = pre' ++ it :: post'
              ∧ Forall (available (Store.products db0)) pre'
              ∧ Store.products db0 !! OrderItemCreate.product_id it = Some product
              ∧ Product.inventory product < OrderItemCreate.quantity it
              ∧ e = HTTPException 400
                      (not_enough_detail (Product.name product)
                         (OrderItemCreate.quantity it) (Product.inventory product)))).
Proof.
  split; [run|].
  apply (create_order_missing_product cfg0 accepted db0
           (request [(1, 2); (999, 1); (2, 1)]) (OrderItemCreate.mk 999 1)).
  - cbn. apply list_elem_of_further, list_elem_of_here.
  - run.
Defined.

(** C4 as stated fails: the second line names product 999, which the
    catalog does not have, but the first line asks 100 of a product that
    has 20, and the call fails with the 400 of that line, not with a 404. *)
Lemma create_order_missing_product_counterexample :
  (∃ item,
     item ∈ OrderCreate.items (request [(1, 100); (999, 1)])
     ∧ Store.products db0 !! OrderItemCreate.product_id item = None)
  ∧ create_order cfg0 accepted db0 (request [(1, 100); (999, 1)])
    = (Raise (HTTPException 400
                "Not enough inventory for product Test Product 1. Requested: 100, Available: 20"),
       db0)
  ∧ ¬ ∃ detail db',
        create_order cfg0 accepted db0 (request [(1, 100); (999, 1)])
        = (Raise (HTTPException 404 detail), db').
Proof.
  assert (create_order cfg0 accepted db0 (request [(1, 100); (999, 1)])
          = (Raise (HTTPException 400
                      "Not enough inventory for product Test Product 1. Requested: 100, Available: 20"),
             db0)) as Hrun by run.
  split; [|split; [exact Hrun|]].
  - exists (OrderItemCreate.mk 999 1). split; [|run].
    cbn. apply list_elem_of_further, list_elem_of_here.
  - intros (detail & db' & Heq). rewrite Hrun in Heq. by injection Heq.
Qed.

Lemma create_order_insufficient_inventory_witness :
  Store.products db0 !! 2 = Some (Product.mk "Test Product 2" "Description 2" 20%Q 15)
  ∧ ∃ detail,
      create_order cfg0 accepted db0 (request [(1, 2); (2, 20)])
      = (Raise (HTTPException 400 detail), db0)
      ∧ detail
        = "Not enough inventory for product " +:+ "Test Product 2"
            +:+ ". Requested: " +:+ pretty 20 +:+ ", Available: " +:+ pretty 15
      ∧ occurs "Test Product 2" detail = true
      ∧ occurs (pretty 20) detail = true
      ∧ occurs (pretty 15) detail = true.
Proof.
  split; [run|].
  apply (create_order_insufficient_inventory cfg0 accepted db0
           (request [(1, 2); (2, 20)])
           [OrderItemCreate.mk 1 2] (OrderItemCreate.mk 2 20) []
           (Product.mk "Test Product 2" "Description 2" 20%Q 15)).
  - reflexivity.
  - repeat constructor. eexists. split; [run|]. cbn. lia.
  - run.
  - cbn. lia.
Defined.

(** C5 as stated fails: the only line asks 6 of product 4, which has 5;
    the detail of the 400 names the product ("Luxury Item"), the 6 asked
    and the 5 in stock, and the id 4 is nowhere in it. *)
Lemma create_order_insufficient_inventory_counterexample :
  Store.products db0 !! 4 = Some (Product.mk "Luxury Item" "Very expensive item" 100%Q 5)
  ∧ create_order cfg0 accepted db0 (request [(4, 6)])
    = (Raise (HTTPException 400
                "Not enough inventory for product Luxury Item. Requested: 6, Available: 5"),
       db0)
  ∧ ¬ ∃ status_code detail db',
        create_order cfg0 accepted db0 (request [(4, 6)])
        = (Raise (HTTPException status_code detail), db')
        ∧ occurs (pretty 4) detail = true.
Proof.
  assert (create_order cfg0 accepted db0 (request [(4, 6)])
          = (Raise (HTTPException 400
                      "Not enough inventory for product Luxury Item. Requested: 6, Available: 5"),
             db0)) as Hrun by run.
  split; [run|]. split; [exact Hrun|].
  intros (status_code & detail & db' & Heq & Hocc). rewrite Hrun in Heq.
  injection Heq as _ <- _. revert Hocc. vm_compute. discriminate.
Qed.

Lemma create_order_write_conflict_witness :
  Forall (available (Store.products db0)) (OrderCreate.items (request [(1, 2); (3, 3)]))
  ∧ ∃ status_code,
      create_order cfg0 conflict db0 (request [(1, 2); (3, 3)])
      = (Raise (HTTPException status_code ("Database error: " +:+ "duplicate key value")),
         db0)
      ∧ status_code = 400
      ∧ client_error status_code.
Proof.
  assert (Forall (available (Store.products db0))
            (OrderCreate.items (request [(1, 2); (3, 3)]))) as Havailable.
  { repeat constructor; (eexists; split; [run|cbn; lia]). }
  split; [exact Havailable|].
  exact (create_order_write_conflict cfg0 conflict db0 (request [(1, 2); (3, 3)])
           "duplicate key value" Havailable eq_refl).
Defined.

(** C8 as stated fails in its last part: every line has its stock, the
    commit raises an integrity error, the store is rolled back, and the
    exception raised has status 400, which is no server error. *)
Lemma create_order_write_conflict_counterexample :
  Forall (available (Store.products db0)) (OrderCreate.items (request [(1, 2); (3, 3)]))
  ∧ on_commit conflict = Some (IntegrityError "duplicate key value")
  ∧ create_order cfg0 conflict db0 (request [(1, 2); (3, 3)])
    = (Raise (HTTPException 400 "Database error: duplicate key value"), db0)
  ∧ ¬ ∃ status_code detail db',
        create_order cfg0 conflict db0 (request [(1, 2); (3, 3)])
        = (Raise (HTTPException status_code detail), db')
        ∧ server_error status_code.
Proof.
  assert (create_order cfg0 conflict db0 (request [(1, 2); (3, 3)])
          = (Raise (HTTPException 400 "Database error: duplicate key value"), db0))
    as Hrun by run.
  split; [repeat constructor; (eexists; split; [run|cbn; lia])|].
  split; [reflexivity|]. split; [exact Hrun|].
  intros (status_code & detail & db' & Heq & Hserver). rewrite Hrun in Heq.
  injection Heq as <- _ _. unfold server_error in Hserver. lia.
Qed.

(** * Inventory adjustment *)

Section Inventory.
Context {F : Type} `{PyFloat F}.
Implicit Types (db : Store.t F) (reply : DbReply).

(** C7. [update_product_inventory] on a product id and a change of
    stock: with no product of that id it fails with the 404 "Product not
    found"; with a product whose stock plus the change is below zero it
    fails with a 400 and the store, so the stock, is as before; otherwise
    the commit decides.  When the database accepts it, the call returns
    the product with its stock set to the stock plus the change, which is
    what the store then holds, every other product being as before.  When
    the commit raises, as it does for a stock the column cannot hold, the
    call fails with a 500 that carries the text of the error, and the
    store, so the stock, is as before. *)
Theorem update_product_inventory_cases reply db product_id inventory_update :
  (Store.products db !! product_id = None →
     update_product_inventory reply db product_id inventory_update
     = (Raise (HTTPException 404 "Product not found"), db))
  ∧ (∀ product,
       Store.products db !! product_id = Some product →
       Product.inventory product + InventoryUpdate.quantity inventory_update < 0 →
       update_product_inventory reply db product_id inventory_update
       = (Raise (HTTPException 400
                   (below_zero_detail (Product.inventory product)
                      (InventoryUpdate.quantity inventory_update))), db)
       ∧ stock db product_id = Some (Product.inventory product))
  ∧ (∀ product,
       Store.products db !! product_id = Some product →
       0 ≤ Product.inventory product + InventoryUpdate.quantity inventory_update →
       on_commit reply = None →
       ∃ product' db',
         update_product_inventory reply db product_id inventory_update
         = (Return product', db')
         ∧ Product.inventory product'
           = Product.inventory product + InventoryUpdate.quantity inventory_update
         ∧ Store.products db' !! product_id = Some product'
         ∧ stock db' product_id
           = Some (Product.inventory product + InventoryUpdate.quantity inventory_update)
         ∧ ∀ k, k ≠ product_id → Store.products db' !! k = Store.products db !! k)
  ∧ (∀ product e,
       Store.products db !! product_id = Some product →
       0 ≤ Product.inventory product + InventoryUpdate.quantity inventory_update →
       on_commit reply = Some e →
       update_product_inventory reply db product_id inventory_update
       = (Raise (HTTPException 500 ("Error updating inventory: " +:+ str_db_error e)), db)
       ∧ stock db product_id = Some (Product.inventory product)).
Proof.
  unfold update_product_inventory. split; [|split; [|split]].
  - by intros ->.
  - intros product Hp Hlt. rewrite Hp.
    destruct (Z.ltb_spec
                (Product.inventory product + InventoryUpdate.quantity inventory_update) 0);
      [|lia].
    split; [done|]. unfold stock. by rewrite Hp.
  - intros product Hp Hge Hcommit. rewrite Hp, Hcommit.
    destruct (Z.ltb_spec
                (Product.inventory product + InventoryUpdate.quantity inventory_update) 0);
      [lia|].
    eexists _, _. split; [done|]. unfold stock. cbn [Store.products Product.inventory].
    rewrite lookup_insert_eq. repeat split; [done..|].
    intros k Hk. by rewrite lookup_insert_ne.
  - intros product e Hp Hge Hcommit. rewrite Hp, Hcommit.
    destruct (Z.ltb_spec
                (Product.inventory product + InventoryUpdate.quantity inventory_update) 0);
      [lia|].
    split; [done|]. unfold stock. by rewrite Hp.
Qed.

(** A commit that raises is rolled back and reported with status 500. *)
Lemma update_product_inventory_rollback reply db product_id inventory_update product e :
  Store.products db !! product_id = Some product →
  0 ≤ Product.inventory product + InventoryUpdate.quantity inventory_update →
  on_commit reply = Some e →
  update_product_inventory reply db product_id inventory_update
  = (Raise (HTTPException 500 ("Error updating inventory: " +:+ str_db_error e)), db).
Proof.
  intros Hp Hge Hcommit. unfold update_product_inventory. rewrite Hp, Hcommit.
  destruct (Z.ltb_spec
              (Product.inventory product + InventoryUpdate.quantity inventory_update) 0);
    [lia|done].
Qed.

(** X3. Whatever its outcome, an adjustment of inventory keeps every stock
    at zero or more. *)
Theorem update_product_inventory_stock_nonneg reply db product_id inventory_update :
  stock_nonneg db →
  stock_nonneg (update_product_inventory reply db product_id inventory_update).2.
Proof.
  intros Hdb. unfold update_product_inventory.
  destruct (Store.products db !! product_id) as [product|] eqn:Hp; [|done].
  destruct (Z.ltb_spec
              (Product.inventory product + InventoryUpdate.quantity inventory_update) 0);
    [done|].
  destruct (on_commit reply); [done|].
  unfold stock_nonneg. cbn [snd Store.products].
  apply map_Forall_insert_2; [cbn; lia|done].
Qed.

(** So does the creation of a product that passed validation. *)
Lemma create_product_stock_nonneg reply db (product : ProductCreate.t F) :
  valid_product product →
  stock_nonneg db →
  stock_nonneg (create_product reply db product).2.
Proof.
  intros [_ Hinv] Hdb. unfold create_product.
  destruct (on_commit reply) as [[msg|msg]|]; [done..|].
  unfold stock_nonneg. cbn [snd Store.products].
  apply map_Forall_insert_2; [cbn; lia|done].
Qed.

End Inventory.

Lemma update_product_inventory_witness :
  ∃ product' db',
    update_product_inventory accepted db0 1 (InventoryUpdate.mk (-5)) = (Return product', db')
    ∧ Product.inventory product' = 20 + -5
    ∧ Store.products db' !! 1 = Some product'
    ∧ stock db' 1 = Some (20 + -5)
    ∧ ∀ k, k ≠ 1 → Store.products db' !! k = Store.products db0 !! k.
Proof.
  destruct (update_product_inventory_cases accepted db0 1 (InventoryUpdate.mk (-5)))
    as (_ & _ & Hok & _).
  apply (Hok (Product.mk "Test Product 1" "Description 1" 10%Q 20)).
  - run.
  - cbn. lia.
  - reflexivity.
Defined.

(** C7 as stated fails in its last case: product 1 is in the catalog with
    a stock of 20 and the change of 2147483648 takes it to no less than
    zero, yet the call does not succeed: the database refuses the new
    stock at the commit, and the call fails with a 500, the stock being
    as before. *)
Lemma update_product_inventory_cases_counterexample :
  stock db0 1 = Some 20
  ∧ 0 ≤ 20 + 2147483648
  ∧ update_product_inventory out_of_range db0 1 (InventoryUpdate.mk 2147483648)
    = (Raise (HTTPException 500 "Error updating inventory: integer out of range"), db0)
  ∧ ¬ ∃ product' db',
        update_product_inventory out_of_range db0 1 (InventoryUpdate.mk 2147483648)
        = (Return product', db').
Proof.
  assert (update_product_inventory out_of_range db0 1 (InventoryUpdate.mk 2147483648)
          = (Raise (HTTPException 500 "Error updating inventory: integer out of range"),
             db0)) as Hrun by run.
  split; [run|]. split; [lia|]. split; [exact Hrun|].
  intros (product' & db' & Heq). rewrite Hrun in Heq. discriminate Heq.
Qed.

(** * Empty requests and repeated runs *)

Section Runs.
Context {F : Type} `{PyFloat F}.
Variable cfg : Config F.
Implicit Types (db : Store.t F) (order : OrderCreate.t) (reply : DbReply).

(** C9. A request with no line passes validation and is accepted: with 0.0
    below FREE_SHIPPING_THRESHOLD and the commit accepted, the call returns; the
    order row it appends has a subtotal of 0.0, SHIPPING_FEE as shipping fee
    and 0.0 + SHIPPING_FEE as total, which is SHIPPING_FEE as soon as adding
    0.0 to the fee gives the fee; no order line is written and no product
    changes; the response carries the same amounts and, the issued key
    being new, no line. *)
Theorem create_order_empty reply db order :
  OrderCreate.items order = [] →
  flt fzero (FREE_SHIPPING_THRESHOLD cfg) = true →
  on_commit reply = None →
  valid_order order
  ∧ ∃ resp db' db_order,
    create_order cfg reply db order = (Return resp, db')
    ∧ Store.orders db' = Store.orders db ++ [db_order]
    ∧ Store.order_items db' = Store.order_items db
    ∧ Store.products db' = Store.products db
    ∧ Order.subtotal db_order = fzero
    ∧ Order.shipping_fee db_order = SHIPPING_FEE cfg
    ∧ Order.total_amount db_order = fadd fzero (SHIPPING_FEE cfg)
    ∧ OrderResponse.subtotal resp = fzero
    ∧ OrderResponse.shipping_fee resp = SHIPPING_FEE cfg
    ∧ OrderResponse.total_amount resp = fadd fzero (SHIPPING_FEE cfg)
    ∧ (fadd fzero (SHIPPING_FEE cfg) = SHIPPING_FEE cfg →
         Order.total_amount db_order = SHIPPING_FEE cfg
         ∧ OrderResponse.total_amount resp = SHIPPING_FEE cfg)
    ∧ (fresh_order_id reply db → OrderResponse.items resp = []).
Proof.
  intros Hitems Hthreshold Hcommit.
  split; [unfold valid_order; rewrite Hitems; constructor|].
  assert (Forall2 (λ item d, price_line cfg (Store.products db) item = Return d)
            (OrderCreate.items order) []) as Hds.
  { rewrite Hitems. constructor. }
  assert (fresh_order_id reply db →
          OrderResponse.items (response_of cfg reply db order []) = []) as Hlines.
  { intros Hfresh. by rewrite response_items. }
  exists (response_of cfg reply db order []), (stored cfg reply db order []),
    (order_row cfg reply order []).
  rewrite (create_order_priced _ _ _ _ _ Hds), Hcommit.
  repeat match goal with |- _ ∧ _ => split end; try exact Hlines.
  all: unfold stored, response_of, order_row, shipping_for, sum_totals.
  all: cbn [foldl fmap list_fmap Store.orders Store.order_items Store.products
            Order.subtotal Order.shipping_fee Order.total_amount
            OrderResponse.subtotal OrderResponse.shipping_fee
            OrderResponse.total_amount].
  all: rewrite ?Hitems, ?Hthreshold, ?app_nil_r; done.
Qed.

(** C10. Two runs of [create_order] on the same request and configuration,
    from stores with the same catalog, whose commits the database answers
    alike, end alike: both raise the same exception, or both return the
    same priced lines, subtotal, shipping fee and total; and both leave
    the same catalog, so the same stock for every product.  Which it is
    is read off the catalog, the request and the answer to the commit:
    with the stock for every line and the commit accepted both runs
    return, with a priced line for each line of the request, and leave of
    every product its stock less what the request asks of it; otherwise
    both raise the same exception and leave their stores as they were.
    The runs may differ in the orders already stored, in the key issued
    and in the clock. *)
Theorem create_order_deterministic reply1 reply2 db1 db2 order :
  Store.products db1 = Store.products db2 →
  on_commit reply1 = on_commit reply2 →
  fresh_order_id reply1 db1 →
  fresh_order_id reply2 db2 →
  same_result (create_order cfg reply1 db1 order) (create_order cfg reply2 db2 order)
  ∧ (∀ k, stock (create_order cfg reply1 db1 order).2 k
          = stock (create_order cfg reply2 db2 order).2 k)
  ∧ (Forall (available (Store.products db1)) (OrderCreate.items order) →
     on_commit reply1 = None →
     ∃ resp1 resp2 db1' db2',
       create_order cfg reply1 db1 order = (Return resp1, db1')
       ∧ create_order cfg reply2 db2 order = (Return resp2, db2')
       ∧ length (OrderResponse.items resp1) = length (OrderCreate.items order)
       ∧ ∀ k, stock db1' k
              = (λ s, s - requested k (OrderCreate.items order)) <$> stock db1 k)
  ∧ (¬ Forall (available (Store.products db1)) (OrderCreate.items order)
     ∨ on_commit reply1 ≠ None →
     ∃ e,
       create_order cfg reply1 db1 order = (Raise e, db1)
       ∧ create_order cfg reply2 db2 order = (Raise e, db2)).
Proof.
  intros Hcatalog Hcommit Hfresh1 Hfresh2.
  assert (∀ k, stock db1 k = stock db2 k) as Hstock.
  { intros k. unfold stock. by rewrite Hcatalog. }
  destruct (price_loop cfg (Store.products db1) (OrderCreate.items order) [] fzero)
    as [[ois s]|e] eqn:Hloop.
  - apply price_loop_Return in Hloop as (ds & Hds1 & _ & _).
    pose proof Hds1 as Hds2. rewrite Hcatalog in Hds2.
    rewrite (create_order_priced _ _ _ _ _ Hds1), (create_order_priced _ _ _ _ _ Hds2).
    rewrite <- Hcommit. destruct (on_commit reply1) as [[msg|msg]|].
    + split; [by split|]. split; [exact Hstock|]. split; [done|]. eauto.
    + split; [by split|]. split; [exact Hstock|]. split; [done|]. eauto.
    + assert (Store.products (stored cfg reply1 db1 order ds)
              = Store.products (stored cfg reply2 db2 order ds)) as Hstored.
      { unfold stored. cbn [Store.products]. by rewrite Hcatalog. }
      split; [|split; [|split]].
      * split; cbn [fst snd]; [|done].
        rewrite !response_items by done. cbn. rewrite <- !list_fmap_compose. done.
      * intros k. cbn [snd]. unfold stock. by rewrite Hstored.
      * intros _ _. eexists _, _, _, _. split; [done|]. split; [done|]. split.
        -- rewrite response_items by done. rewrite !length_fmap.
           symmetry. by eapply Forall2_length.
        -- intros k. apply stock_stored.
      * intros [Hshort|Hraise]; [|done]. destruct Hshort. by eapply priced_available.
  - pose proof Hloop as Hloop2. rewrite Hcatalog in Hloop2.
    rewrite (create_order_price_Raise _ _ _ _ _ Hloop),
      (create_order_price_Raise _ _ _ _ _ Hloop2).
    split; [by split|]. split; [exact Hstock|]. split; [|eauto].
    intros [ds Hds]%(available_priced cfg) _.
    assert (price_loop cfg (Store.products db1) (OrderCreate.items order) [] fzero
            = Return ([] ++ ds, sum_totals fzero ds)) as Hloop'.
    { apply price_loop_Return. eauto. }
    rewrite Hloop in Hloop'. discriminate Hloop'.
Qed.

End Runs.

Lemma create_order_empty_witness :
  valid_order (request [])
  ∧ ∃ resp db',
      create_order cfg0 accepted db0 (request []) = (Return resp, db')
      ∧ OrderResponse.items resp = []
      ∧ OrderResponse.subtotal resp = 0%Q
      ∧ OrderResponse.shipping_fee resp = 5%Q
      ∧ OrderResponse.total_amount resp = 5%Q
      ∧ length (Store.orders db') = 1%nat
      ∧ Store.order_items db' = []
      ∧ Store.products db' = catalog0.
Proof.
  assert (flt fzero (FREE_SHIPPING_THRESHOLD cfg0) = true) as Hthreshold by reflexivity.
  destruct (create_order_empty cfg0 accepted db0 (request []) eq_refl Hthreshold eq_refl)
    as (Hvalid & resp & db' & db_order & Hrun & Horders & Hlines & Hcatalog & _ & _ & _
        & Hsubtotal & Hshipping & _ & Htotal & Hitems).
  split; [exact Hvalid|]. exists resp, db'.
  split; [exact Hrun|]. split; [apply Hitems; constructor|].
  split; [exact Hsubtotal|]. split; [exact Hshipping|].
  split; [exact (proj2 (Htotal eq_refl))|].
  split; [by rewrite Horders|]. split; [exact Hlines|exact Hcatalog].
Defined.

Lemma create_order_deterministic_witness :
  let reply2 := {| issued_id := 8; server_now := 1800000000; on_commit := None |} in
  let db2 :=
    Store.mk catalog0
      [Order.mk 7 "Jane Smith" "jane@example.com" 100%Q 0%Q 100%Q 1750000000]
      [OrderItem.mk 7 4 1 100%Q false] in
  same_result
    (create_order cfg0 accepted db0 (request [(1, 6); (2, 1)]))
    (create_order cfg0 reply2 db2 (request [(1, 6); (2, 1)]))
  ∧ (∀ k,
       stock (create_order cfg0 accepted db0 (request [(1, 6); (2, 1)])).2 k
       = stock (create_order cfg0 reply2 db2 (request [(1, 6); (2, 1)])).2 k)
  ∧ ∃ resp1 resp2 db1' db2',
      create_order cfg0 accepted db0 (request [(1, 6); (2, 1)]) = (Return resp1, db1')
      ∧ create_order cfg0 reply2 db2 (request [(1, 6); (2, 1)]) = (Return resp2, db2')
      ∧ length (OrderResponse.items resp1) = length (OrderCreate.items (request [(1, 6); (2, 1)]))
      ∧ ∀ k, stock db1' k
             = (λ s, s - requested k (OrderCreate.items (request [(1, 6); (2, 1)])))
                 <$> stock db0 k.
Proof.
  intros reply2 db2.
  assert (fresh_order_id accepted db0) as Hfresh1 by constructor.
  assert (fresh_order_id reply2 db2) as Hfresh2.
  { repeat constructor. cbn. lia. }
  assert (Forall (available (Store.products db0))
            (OrderCreate.items (request [(1, 6); (2, 1)]))) as Havailable.
  { repeat constructor; (eexists; split; [run|cbn; lia]). }
  destruct (create_order_deterministic cfg0 accepted reply2 db0 db2
              (request [(1, 6); (2, 1)]) eq_refl eq_refl Hfresh1 Hfresh2)
    as (Hsame & Hstock & Hreturn & _).
  split; [exact Hsame|]. split; [exact Hstock|]. exact (Hreturn Havailable eq_refl).
Defined.

(** C10 as stated fails: the two runs start from the same store, so from
    equal catalogs, with the same request and configuration; the database
    accepts the commit of the first, which returns the order, and loses
    the connection at the commit of the second, which raises. *)
Lemma create_order_deterministic_counterexample :
  (∃ resp db',
     create_order cfg0 accepted db0 (request [(1, 6); (2, 1)]) = (Return resp, db')
     ∧ stock db' 1 = Some 14)
  ∧ create_order cfg0 dropped db0 (request [(1, 6); (2, 1)])
    = (Raise (DBError (OperationalError "server closed the connection unexpectedly")), db0)
  ∧ stock db0 1 = Some 20
  ∧ ¬ same_result
        (create_order cfg0 accepted db0 (request [(1, 6); (2, 1)]))
        (create_order cfg0 dropped db0 (request [(1, 6); (2, 1)])).
Proof.
  split; [eexists _, _; split; run|]. split; [run|]. split; [run|].
  intros [Hsame _]. vm_compute in Hsame. exact Hsame.
Qed.

(** * The stock invariant across create_order *)

Section Invariant.
Context {F : Type} `{PyFloat F}.
Variable cfg : Config F.
Implicit Types (db : Store.t F) (order : OrderCreate.t) (reply : DbReply).

(** X1. A call of [create_order] that raises, at whichever line or at the
    commit, leaves the store exactly as it found it: no order, no order
    line, no stock taken. *)
Theorem create_order_all_or_nothing reply db order e db' :
  create_order cfg reply db order = (Raise e, db') → db' = db.
Proof.
  destruct (price_loop cfg (Store.products db) (OrderCreate.items order) [] fzero)
    as [[ois s]|e'] eqn:Hloop.
  - apply price_loop_Return in Hloop as (ds & Hds & _ & _).
    rewrite (create_order_priced _ _ _ _ _ Hds).
    destruct (on_commit reply) as [[msg|msg]|]; by intros [= _ <-].
  - rewrite (create_order_price_Raise _ _ _ _ _ Hloop). by intros [= _ <-].
Qed.

(** The store of a committed order has every stock at zero or more
    exactly when the request asks of no product more than the product
    has, all lines together. *)
Lemma stored_stock_nonneg_iff reply db order ds :
  stock_nonneg db →
  stock_nonneg (stored cfg reply db order ds)
  ↔ ∀ k s, stock db k = Some s → requested k (OrderCreate.items order) ≤ s.
Proof.
  intros Hdb. unfold stock_nonneg, stored, stock. cbn [Store.products]. split.
  - intros Hafter k s Hs.
    destruct (Store.products db !! k) as [product|] eqn:Hp; [|done].
    injection Hs as <-.
    specialize (Hafter k (sell (requested k (OrderCreate.items order)) product)).
    cbn in Hafter. rewrite take_stock_lookup, Hp in Hafter.
    specialize (Hafter eq_refl). lia.
  - intros Hask k product'. rewrite take_stock_lookup.
    destruct (Store.products db !! k) as [product|] eqn:Hp; [|done].
    intros [= <-]. cbn. specialize (Hask k (Product.inventory product)).
    rewrite Hp in Hask. specialize (Hask eq_refl). lia.
Qed.

(** X2. With no product named by two lines, [create_order] leaves every stock
    at zero or more, whatever its outcome: the check of the first loop is
    then the check of the whole request. *)
Theorem create_order_stock_nonneg reply db order :
  stock_nonneg db →
  NoDup (OrderItemCreate.product_id <$> OrderCreate.items order) →
  stock_nonneg (create_order cfg reply db order).2.
Proof.
  intros Hdb Hnodup.
  destruct (price_loop cfg (Store.products db) (OrderCreate.items order) [] fzero)
    as [[ois sub]|e] eqn:Hloop;
    [|by rewrite (create_order_price_Raise _ _ _ _ _ Hloop)].
  apply price_loop_Return in Hloop as (ds & Hds & _ & _).
  rewrite (create_order_priced _ _ _ _ _ Hds).
  destruct (on_commit reply) as [[msg|msg]|]; [done..|]. cbn [snd].
  apply stored_stock_nonneg_iff; [done|]. intros k s Hs. unfold stock in Hs.
  destruct (Store.products db !! k) as [product|] eqn:Hp; [|done]. injection Hs as <-.
  destruct (decide (k ∈ OrderItemCreate.product_id <$> OrderCreate.items order))
    as [Hk|Hk].
  - apply list_elem_of_fmap in Hk as (item & -> & Hitem).
    apply list_elem_of_split in Hitem as (pre & post & Hitems).
    apply priced_available in Hds. rewrite Hitems in Hds.
    apply Forall_app in Hds as [_ [(product' & Hp' & Hq) _]%Forall_cons].
    rewrite Hp in Hp'. injection Hp' as <-.
    rewrite Hitems, requested_single; [done|].
    rewrite Hitems, fmap_app, fmap_cons in Hnodup.
    apply NoDup_app in Hnodup as (_ & Hpre & [Hpost _]%NoDup_cons).
    rewrite fmap_app, not_elem_of_app. split; [|done].
    intros Hin. apply (Hpre _ Hin). apply list_elem_of_here.
  - rewrite requested_not_elem_of by done. by apply (Hdb k product).
Qed.

End Invariant.

Lemma create_order_all_or_nothing_witness :
  ∃ e db',
    create_order cfg0 accepted db0 (request [(1, 2); (2, 20)]) = (Raise e, db')
    ∧ db' = db0.
Proof.
  eexists _, _. split; [run|].
  apply (create_order_all_or_nothing cfg0 accepted db0 (request [(1, 2); (2, 20)])
           (HTTPException 400
              "Not enough inventory for product Test Product 2. Requested: 20, Available: 15")).
  run.
Defined.

Lemma create_order_stock_nonneg_witness :
  stock_nonneg db0
  ∧ NoDup (OrderItemCreate.product_id <$> OrderCreate.items (request [(1, 6); (2, 1)]))
  ∧ stock_nonneg (create_order cfg0 accepted db0 (request [(1, 6); (2, 1)])).2.
Proof.
  assert (NoDup (OrderItemCreate.product_id <$> OrderCreate.items (request [(1, 6); (2, 1)])))
    as Hnodup.
  { cbn. repeat constructor; rewrite ?elem_of_cons, ?elem_of_nil; intros Hin;
      repeat destruct Hin as [Hin|Hin]; done. }
  split; [exact db0_stock_nonneg|]. split; [exact Hnodup|].
  exact (create_order_stock_nonneg cfg0 accepted db0 (request [(1, 6); (2, 1)])
           db0_stock_nonneg Hnodup).
Defined.

Lemma update_product_inventory_stock_nonneg_witness :
  stock_nonneg db0
  ∧ stock_nonneg (update_product_inventory accepted db0 1 (InventoryUpdate.mk (-30))).2
  ∧ stock_nonneg (update_product_inventory accepted db0 1 (InventoryUpdate.mk (-20))).2.
Proof.
  split; [exact db0_stock_nonneg|]. split.
  - exact (update_product_inventory_stock_nonneg accepted db0 1 (InventoryUpdate.mk (-30))
             db0_stock_nonneg).
  - exact (update_product_inventory_stock_nonneg accepted db0 1 (InventoryUpdate.mk (-20))
             db0_stock_nonneg).
Defined.

(** * The scenarios of the test suite *)

(** [test_create_order_with_bulk_discount_no_shipping]: six of product 1 at
    10.0 with 10% off and one of product 2 at 20.0. *)
Example bulk_discount_scenario :
  ∃ resp db' line1 line2,
    create_order cfg0 accepted db0 (request [(1, 6); (2, 1)]) = (Return resp, db')
    ∧ OrderResponse.items resp = [line1; line2]
    ∧ (OrderItemResponse.unit_price line1 == 9)%Q
    ∧ OrderItemResponse.discount_applied line1 = true
    ∧ (OrderItemResponse.unit_price line2 == 20)%Q
    ∧ OrderItemResponse.discount_applied line2 = false
    ∧ (OrderResponse.subtotal resp == 74)%Q
    ∧ (OrderResponse.shipping_fee resp == 0)%Q
    ∧ (OrderResponse.total_amount resp == 74)%Q
    ∧ stock db' 1 = Some 14
    ∧ stock db' 2 = Some 14.
Proof. eexists _, _, _, _. repeat split; run. Qed.

(** [test_create_order_insufficient_inventory]: twenty of a product that
    has fifteen. *)
Example insufficient_inventory_scenario :
  ∃ detail db',
    create_order cfg0 accepted db0 (request [(2, 20)]) = (Raise (HTTPException 400 detail), db')
    ∧ occurs "Not enough inventory" detail = true
    ∧ stock db' 2 = Some 15.
Proof. eexists _, _. repeat split; run. Qed.

(** [test_update_inventory_invalid]: thirty off a stock of twenty. *)
Example update_inventory_invalid_scenario :
  ∃ detail db',
    update_product_inventory accepted db0 1 (InventoryUpdate.mk (-30))
    = (Raise (HTTPException 400 detail), db')
    ∧ occurs "Cannot reduce inventory below zero" detail = true
    ∧ stock db' 1 = Some 20.
Proof. eexists _, _. repeat split; run. Qed.

(** * The same scenarios in binary64 *)

(** [test_create_order_with_bulk_discount_no_shipping], with the numbers
    the interpreter computes: 10.0 * (1 - 10 / 100) is 9.0 and the subtotal
    is 74.0. *)
Example binary64_bulk_discount_scenario :
  ∃ resp db' line1 line2,
    create_order cfg64 accepted db64 (request [(1, 6); (2, 1)]) = (Return resp, db')
    ∧ OrderResponse.items resp = [line1; line2]
    ∧ OrderItemResponse.unit_price line1 = 9%float
    ∧ OrderItemResponse.discount_applied line1 = true
    ∧ OrderItemResponse.unit_price line2 = 20%float
    ∧ OrderItemResponse.discount_applied line2 = false
    ∧ OrderResponse.subtotal resp = 74%float
    ∧ OrderResponse.shipping_fee resp = 0%float
    ∧ OrderResponse.total_amount resp = 74%float.
Proof. eexists _, _, _, _. repeat split; run. Qed.

(** [test_create_order_bulk_item_with_discount]: thirty at 2.5 with 10%
    off. *)
Example binary64_bulk_item_scenario :
  ∃ resp db',
    create_order cfg64 accepted db64 (request [(5, 30)]) = (Return resp, db')
    ∧ OrderResponse.subtotal resp = 67.5%float
    ∧ OrderResponse.shipping_fee resp = 0%float
    ∧ OrderResponse.total_amount resp = 67.5%float
    ∧ stock db' 5 = Some 170.
Proof. eexists _, _. repeat split; run. Qed.

(** An order with no line, in binary64: 0.0 + 5.0 is 5.0. *)
Example binary64_empty_order_scenario :
  fadd fzero (SHIPPING_FEE cfg64) = SHIPPING_FEE cfg64
  ∧ ∃ resp db',
      create_order cfg64 accepted db64 (request []) = (Return resp, db')
      ∧ OrderResponse.items resp = []
      ∧ OrderResponse.subtotal resp = 0%float
      ∧ OrderResponse.shipping_fee resp = 5%float
      ∧ OrderResponse.total_amount resp = 5%float.
Proof. split; [run|]. eexists _, _. repeat split; run. Qed.

(** * Listings *)

Section Listings.
Context {F : Type}.
Implicit Types (db : Store.t F) (skip limit : Z).

Lemma offset_limit_lookup {A : Type} skip limit (rows : list A) (i : nat) :
  0 ≤ skip → 0 ≤ limit →
  offset_limit skip limit rows !! i
  = if decide (Z.of_nat i < limit) then rows !! (Z.to_nat skip + i)%nat else None.
Proof.
  intros Hskip Hlimit. unfold offset_limit. case_decide.
  - rewrite lookup_take_lt by lia. apply lookup_drop.
  - apply lookup_take_ge. lia.
Qed.

Lemma offset_limit_length {A : Type} skip limit (rows : list A) :
  0 ≤ skip → 0 ≤ limit →
  Z.of_nat (length (offset_limit skip limit rows))
  = Z.min limit (Z.max 0 (Z.of_nat (length rows) - skip)).
Proof.
  intros Hskip Hlimit. unfold offset_limit. rewrite length_take, length_drop. lia.
Qed.

Lemma offset_limit_next {A : Type} skip limit1 limit2 (rows : list A) :
  0 ≤ skip → 0 ≤ limit1 → 0 ≤ limit2 →
  offset_limit skip limit1 rows ++ offset_limit (skip + limit1) limit2 rows
  = offset_limit skip (limit1 + limit2) rows.
Proof.
  intros Hskip H1 H2. unfold offset_limit.
  rewrite !Z2Nat.inj_add by lia. rewrite <- drop_drop. apply take_take_drop.
Qed.

(** X5. Pages of the listing of orders that follow one another tile it: a
    page of limit1 from skip followed by the page of limit2 from skip +
    limit1 is the page of limit1 + limit2 from skip, with no order lost or
    repeated; and the page from 0 with a limit of at least the count is
    the whole table in its order. *)
Theorem get_all_orders_next_page db skip limit1 limit2 :
  0 ≤ skip → 0 ≤ limit1 → 0 ≤ limit2 →
  get_all_orders db skip limit1 ++ get_all_orders db (skip + limit1) limit2
  = get_all_orders db skip (limit1 + limit2)
  ∧ (Z.of_nat (length (Store.orders db)) ≤ limit1 →
       get_all_orders db 0 limit1 = Store.orders db).
Proof.
  intros Hskip H1 H2. unfold get_all_orders. split.
  - by apply offset_limit_next.
  - intros Hall. unfold offset_limit. change (Z.to_nat 0) with 0%nat. rewrite drop_0.
    apply take_ge. lia.
Qed.

(** X6. Whatever order the database returns the rows in, a page of the
    listing of products, for bounds from zero upwards, holds rows of the
    catalog only, each under its own id and no id twice, min(limit, count
    - skip) of them; and from 0 with a limit of at least the count it
    holds every product. *)
Theorem get_product_list_page row_order db skip limit :
  scans_table row_order →
  0 ≤ skip → 0 ≤ limit →
  (∀ k product,
     (k, product) ∈ get_product_list row_order db skip limit →
     Store.products db !! k = Some product)
  ∧ NoDup (get_product_list row_order db skip limit).*1
  ∧ Z.of_nat (length (get_product_list row_order db skip limit))
    = Z.min limit (Z.max 0 (Z.of_nat (base.size (Store.products db)) - skip))
  ∧ (Z.of_nat (base.size (Store.products db)) ≤ limit →
       get_product_list row_order db 0 limit ≡ₚ map_to_list (Store.products db)).
Proof.
  intros Hscan Hskip Hlimit. unfold get_product_list.
  assert (offset_limit skip limit (row_order (Store.products db))
            `sublist_of` row_order (Store.products db)) as Hsub.
  { unfold offset_limit. etrans; [apply sublist_take|apply sublist_drop]. }
  split; [|split; [|split]].
  - intros k product Hin. apply elem_of_map_to_list. rewrite <- (Hscan _).
    by eapply elem_of_sublist.
  - eapply sublist_NoDup; [|by apply fmap_sublist].
    rewrite (Hscan _). apply NoDup_fst_map_to_list.
  - rewrite offset_limit_length by done.
    by rewrite (Permutation_length (Hscan _)), length_map_to_list.
  - intros Hall. unfold offset_limit. change (Z.to_nat 0) with 0%nat. rewrite drop_0.
    assert (length (row_order (Store.products db)) = base.size (Store.products db)) as Hlen.
    { by rewrite (Permutation_length (Hscan _)), length_map_to_list. }
    rewrite take_ge by lia. apply Hscan.
Qed.

End Listings.

(** * Histories of the service *)

Section Histories.
Context {F : Type} `{PyFloat F}.
Variable cfg : Config F.
Implicit Types (db : Store.t F) (order : OrderCreate.t) (reply : DbReply).

Lemma extends_refl db : extends db db.
Proof. repeat split; [done..|]. intros k product Hk. by exists product. Qed.

Lemma extends_trans db1 db2 db3 : extends db1 db2 → extends db2 db3 → extends db1 db3.
Proof.
  intros (Ho1 & Hi1 & Hp1) (Ho2 & Hi2 & Hp2). repeat split; [by etrans..|].
  intros k product Hk.
  destruct (Hp1 _ _ Hk) as (product' & Hk' & Hn & Hd & Hpr).
  destruct (Hp2 _ _ Hk') as (product'' & Hk'' & Hn' & Hd' & Hpr').
  exists product''. repeat split; [done|congruence..].
Qed.

Lemma create_order_extends reply db order :
  extends db (create_order cfg reply db order).2.
Proof.
  destruct (price_loop cfg (Store.products db) (OrderCreate.items order) [] fzero)
    as [[ois sub]|e] eqn:Hloop;
    [|rewrite (create_order_price_Raise _ _ _ _ _ Hloop); apply extends_refl].
  apply price_loop_Return in Hloop as (ds & Hds & _ & _).
  rewrite (create_order_priced _ _ _ _ _ Hds).
  destruct (on_commit reply) as [[msg|msg]|]; [apply extends_refl..|].
  unfold extends, stored. cbn [snd Store.orders Store.order_items Store.products].
  split; [by apply prefix_app_r|]. split; [by apply prefix_app_r|].
  intros k product Hk. rewrite take_stock_lookup, Hk. cbn. eauto.
Qed.

Lemma create_product_extends reply db (product : ProductCreate.t F) :
  Store.products db !! issued_id reply = None →
  extends db (create_product reply db product).2.
Proof.
  intros Hnew. unfold create_product.
  destruct (on_commit reply) as [[msg|msg]|]; [apply extends_refl..|].
  unfold extends. cbn [snd Store.orders Store.order_items Store.products].
  repeat split; [done..|]. intros k old Hk. exists old.
  rewrite lookup_insert_ne by congruence. done.
Qed.

Lemma update_product_inventory_extends reply db product_id inventory_update :
  extends db (update_product_inventory reply db product_id inventory_update).2.
Proof.
  unfold update_product_inventory.
  destruct (Store.products db !! product_id) as [product|] eqn:Hp; [|apply extends_refl].
  destruct (_ <? 0); [apply extends_refl|].
  destruct (on_commit reply); [apply extends_refl|].
  unfold extends. cbn [snd Store.orders Store.order_items Store.products].
  repeat split; [done..|]. intros k old Hk.
  destruct (decide (k = product_id)) as [->|Hne].
  - rewrite lookup_insert_eq. rewrite Hp in Hk. injection Hk as <-. eauto.
  - rewrite lookup_insert_ne by done. by exists old.
Qed.

Lemma service_step_extends db db' : service_step cfg db db' → extends db db'.
Proof.
  destruct 1.
  - apply create_order_extends.
  - by apply create_product_extends.
  - apply update_product_inventory_extends.
Qed.

(** X7. Whatever calls the service takes, in whatever order and with
    whatever outcomes, it never deletes or rewrites what is stored: the
    orders and the order lines stored before are still there, unchanged
    and in the same places, and every product is still in the catalog
    under its name, description and price; of a product only the inventory
    ever changes. *)
Theorem service_never_rewrites db db' :
  reachable cfg db db' → extends db db'.
Proof.
  induction 1 as [db|db1 db2 db3 Hstep _ IH]; [apply extends_refl|].
  eapply extends_trans; [|exact IH]. by apply service_step_extends.
Qed.

(** X8. A page of the listing of orders that lies within the orders stored
    now is never changed by later calls of the service. *)
Theorem get_all_orders_stable db db' skip limit :
  reachable cfg db db' →
  0 ≤ skip → 0 ≤ limit →
  skip + limit ≤ Z.of_nat (length (Store.orders db)) →
  get_all_orders db' skip limit = get_all_orders db skip limit.
Proof.
  intros Hrun Hskip Hlimit Hwithin.
  assert (Store.orders db `prefix_of` Store.orders db') as [new Hnew].
  { induction Hrun as [db|db1 db2 db3 Hstep _ IH]; [done|].
    etrans; [apply (service_step_extends _ _ Hstep)|]. apply IH.
    destruct (service_step_extends _ _ Hstep) as ([new Hnew] & _).
    rewrite Hnew, length_app. lia. }
  unfold get_all_orders, offset_limit. rewrite Hnew.
  rewrite drop_app_le by lia. rewrite take_app_le; [done|].
  rewrite length_drop. lia.
Qed.

End Histories.

(** * What the service keeps true *)

Section Consistency.
Context {F : Type} `{PyFloat F}.
Variable cfg : Config F.
Implicit Types (db : Store.t F) (order : OrderCreate.t) (reply : DbReply).
Implicit Types (ds : list (item_data F)).

Lemma order_lines_app tbl os (old new : list (OrderItem.t F)) order_id :
  order_lines (Store.mk tbl os (old ++ new)) order_id
  = order_lines (Store.mk tbl os old) order_id
    ++ filter (λ it, OrderItem.order_id it = order_id) new.
Proof. unfold order_lines. cbn [Store.order_items]. apply filter_app. Qed.

Lemma filter_rows_other order_id issued ds :
  order_id ≠ issued →
  filter (λ it : OrderItem.t F, OrderItem.order_id it = order_id) (row_of issued <$> ds) = [].
Proof.
  intros Hne. induction ds as [|d ds IH]; [done|].
  rewrite fmap_cons, filter_cons_False; [done|]. cbn. congruence.
Qed.

(** The consistency of an order reads the order lines only. *)
Lemma order_consistent_lines db db' (o : Order.t F) :
  Store.order_items db' = Store.order_items db →
  order_consistent cfg db o → order_consistent cfg db' o.
Proof. unfold order_consistent, order_lines. by intros ->. Qed.

Lemma referential_integrity_catalog db (tbl : gmap Z (Product.t F)) :
  (∀ k, is_Some (Store.products db !! k) → is_Some (tbl !! k)) →
  referential_integrity db →
  referential_integrity (Store.mk tbl (Store.orders db) (Store.order_items db)).
Proof.
  intros Hkeep Hrefs. unfold referential_integrity.
  cbn [Store.products Store.orders Store.order_items].
  eapply Forall_impl; [exact Hrefs|]. intros it [Hp Ho]. split; [by apply Hkeep|done].
Qed.

Lemma priced_rows_present (tbl : gmap Z (Product.t F)) order_id items ds :
  Forall2 (λ item d, price_line cfg tbl item = Return d) items ds →
  Forall (λ row, is_Some (tbl !! OrderItem.product_id row)
                 ∧ OrderItem.order_id row = order_id)
    (row_of order_id <$> ds).
Proof.
  induction 1 as [|item d items ds Hd _ IH]; [constructor|].
  rewrite fmap_cons. constructor; [|done].
  apply price_line_Return in Hd as (product & Hp & _ & Hid & _).
  cbn. rewrite Hid. split; [by exists product|done].
Qed.

Lemma stored_consistent reply db order ds :
  Forall2 (λ item d, price_line cfg (Store.products db) item = Return d)
    (OrderCreate.items order) ds →
  issued_id reply ∉ Order.id <$> Store.orders db →
  consistent cfg db →
  consistent cfg (stored cfg reply db order ds).
Proof.
  intros Hds Hnew (Hids & Hrefs & Horders).
  assert (Forall (λ it : OrderItem.t F, OrderItem.order_id it ≠ issued_id reply)
            (Store.order_items db)) as Hfresh.
  { eapply Forall_impl; [exact Hrefs|]. intros it [_ Hin] Heq. by rewrite Heq in Hin. }
  unfold consistent, stored. cbn [Store.orders]. split; [|split].
  - rewrite fmap_app. apply NoDup_app. split; [done|]. split.
    + intros k Hk [->|[]%elem_of_nil]%elem_of_cons. done.
    + apply NoDup_singleton.
  - unfold referential_integrity. cbn [Store.products Store.orders Store.order_items].
    apply Forall_app. split.
    + eapply Forall_impl; [exact Hrefs|]. intros it [[product Hp] Hin]. split.
      * rewrite take_stock_lookup, Hp. by eexists.
      * rewrite fmap_app. apply elem_of_app. by left.
    + eapply Forall_impl; [exact (priced_rows_present _ (issued_id reply) _ _ Hds)|].
      intros row [[product Hp] ->]. split.
      * rewrite take_stock_lookup, Hp. by eexists.
      * rewrite fmap_app. apply elem_of_app. right. cbn. apply list_elem_of_here.
  - apply Forall_app. split.
    + apply Forall_forall. intros o Ho.
      assert (Order.id o ≠ issued_id reply) as Hne.
      { intros Heq. apply Hnew. rewrite <- Heq. by apply list_elem_of_fmap_2. }
      destruct (proj1 (Forall_forall _ _) Horders o Ho) as (Hsub & Hfee & Htotal).
      unfold order_consistent. rewrite order_lines_app, filter_rows_other, app_nil_r by done.
      repeat split; [|done..]. rewrite Hsub. unfold order_lines. done.
    + constructor; [|constructor]. unfold order_consistent, order_row.
      cbn [Order.id Order.subtotal Order.shipping_fee Order.total_amount].
      rewrite order_lines_fresh by done. rewrite lines_total_rows. by repeat split.
Qed.

(** One call keeps the store consistent. *)
Lemma service_step_consistent db db' :
  service_step cfg db db' → consistent cfg db → consistent cfg db'.
Proof.
  destruct 1 as [reply db order Hnew|reply db product Hnew|reply db product_id upd];
    intros Hdb.
  - destruct (price_loop cfg (Store.products db) (OrderCreate.items order) [] fzero)
      as [[ois sub]|e] eqn:Hloop;
      [|by rewrite (create_order_price_Raise _ _ _ _ _ Hloop)].
    apply price_loop_Return in Hloop as (ds & Hds & _ & _).
    rewrite (create_order_priced _ _ _ _ _ Hds).
    destruct (on_commit reply) as [[msg|msg]|]; [done..|]. cbn [snd].
    by apply stored_consistent.
  - unfold ProductController.create_product, create_product.
    destruct (on_commit reply) as [[msg|msg]|]; [done..|]. cbn [snd].
    destruct Hdb as (Hids & Hrefs & Horders). split; [done|]. split.
    + apply referential_integrity_catalog; [|done].
      intros k Hk. rewrite lookup_insert_is_Some. destruct (decide (issued_id reply = k)); eauto.
    + eapply Forall_impl; [exact Horders|]. intros o. by apply order_consistent_lines.
  - unfold ProductController.update_product_inventory, update_product_inventory.
    destruct (Store.products db !! product_id) as [product|] eqn:Hp; [|done].
    destruct (_ <? 0); [done|]. destruct (on_commit reply); [done|]. cbn [snd].
    destruct Hdb as (Hids & Hrefs & Horders). split; [done|]. split.
    + apply referential_integrity_catalog; [|done].
      intros k Hk. rewrite lookup_insert_is_Some. destruct (decide (product_id = k)); eauto.
    + eapply Forall_impl; [exact Horders|]. intros o. by apply order_consistent_lines.
Qed.

Lemma reachable_consistent db db' :
  reachable cfg db db' → consistent cfg db → consistent cfg db'.
Proof.
  induction 1 as [db|db1 db2 db3 Hstep _ IH]; [done|].
  intros Hdb. apply IH. by eapply service_step_consistent.
Qed.

(** X9. Starting from an empty database, whatever calls the service takes
    and whatever their outcomes, the store it reaches is consistent: no two
    orders share an id; every order line points to a product of the catalog
    and to a stored order; and of every stored order the subtotal is the
    sum over its stored lines of unit price times quantity, the shipping
    fee is SHIPPING_FEE when the subtotal is below FREE_SHIPPING_THRESHOLD
    and 0.0 otherwise, and the total is the subtotal plus the shipping
    fee. *)
Theorem service_keeps_consistent db :
  reachable cfg empty_store db → consistent cfg db.
Proof.
  intros Hrun. apply (reachable_consistent _ _ Hrun).
  unfold consistent, referential_integrity, empty_store.
  cbn [Store.orders Store.order_items]. repeat split; constructor.
Qed.

Lemma get_order_listed db (o : Order.t F) :
  NoDup (Order.id <$> Store.orders db) →
  o ∈ Store.orders db →
  get_order db (Order.id o) = Return o.
Proof.
  unfold get_order. induction (Store.orders db) as [|o' os IH]; intros Hids Hin.
  - by apply elem_of_nil in Hin.
  - rewrite fmap_cons in Hids. apply NoDup_cons in Hids as [Hnotin Hids]. cbn [List.find].
    apply elem_of_cons in Hin as [->|Hin]; [by rewrite Z.eqb_refl|].
    destruct (Z.eqb_spec (Order.id o') (Order.id o)) as [Heq|_]; [|by apply IH].
    destruct Hnotin. rewrite Heq. by apply list_elem_of_fmap_2.
Qed.

Lemma get_order_unlisted db k :
  k ∉ Order.id <$> Store.orders db →
  get_order db k = Raise (HTTPException 404 "Order not found").
Proof.
  unfold get_order. induction (Store.orders db) as [|o os IH]; [done|].
  rewrite fmap_cons, not_elem_of_cons. intros [Hne Hk]. cbn [List.find].
  destruct (Z.eqb_spec (Order.id o) k); [congruence|]. by apply IH.
Qed.

(** X10. After any history of the service from an empty database, looking
    an order up by its id and listing the orders agree: [get_order] on the
    id of an order of the listing returns that very order, and on an id
    of no order of the listing it fails with the 404 "Order not found". *)
Theorem get_order_agrees_with_listing db :
  reachable cfg empty_store db →
  (∀ o, o ∈ Store.orders db → get_order db (Order.id o) = Return o)
  ∧ (∀ k, k ∉ Order.id <$> Store.orders db →
       get_order db k = Raise (HTTPException 404 "Order not found")).
Proof.
  intros Hrun.
  assert (consistent cfg empty_store) as Hempty.
  { unfold consistent, referential_integrity, empty_store.
    cbn [Store.orders Store.order_items]. repeat split; constructor. }
  destruct (reachable_consistent _ _ Hrun Hempty) as (Hids & _).
  split; [intros o; by apply get_order_listed|apply get_order_unlisted].
Qed.

End Consistency.

(** * Writing, then reading *)

Section RoundTrips.
Context {F : Type} `{PyFloat F}.
Variable cfg : Config F.
Implicit Types (db : Store.t F) (order : OrderCreate.t) (reply : DbReply).

Lemma get_order_snoc (tbl : gmap Z (Product.t F)) os (o : Order.t F) its its' k :
  get_order (Store.mk tbl (os ++ [o]) its) k
  = match get_order (Store.mk tbl os its') k with
    | Return found => Return found
    | Raise _ =>
        if Order.id o =? k then Return o else Raise (HTTPException 404 "Order not found")
    end.
Proof.
  unfold get_order. cbn [Store.orders]. induction os as [|o' os IH].
  - cbn. by destruct (Order.id o =? k).
  - cbn [app List.find]. by destruct (Order.id o' =? k).
Qed.

(** X11. An order that [create_order] has returned, under a key no stored
    order has, is the order [get_order] then returns for the id of the
    response, with the customer, the amounts and the time of the response;
    and for every other id [get_order] answers as it did before the
    call. *)
Theorem create_order_then_get_order reply db order resp db' :
  issued_id reply ∉ Order.id <$> Store.orders db →
  create_order cfg reply db order = (Return resp, db') →
  (∃ o,
     get_order db' (OrderResponse.id resp) = Return o
     ∧ Order.id o = OrderResponse.id resp
     ∧ Order.customer_name o = OrderCreate.customer_name order
     ∧ Order.customer_email o = OrderCreate.customer_email order
     ∧ Order.subtotal o = OrderResponse.subtotal resp
     ∧ Order.shipping_fee o = OrderResponse.shipping_fee resp
     ∧ Order.total_amount o = OrderResponse.total_amount resp
     ∧ Order.created_at o = OrderResponse.created_at resp)
  ∧ ∀ k, k ≠ OrderResponse.id resp → get_order db' k = get_order db k.
Proof.
  intros Hnew (ds & Hds & _ & -> & ->)%create_order_Return_inv.
  unfold stored, response_of. cbn [OrderResponse.id order_row Order.id]. split.
  - exists (order_row cfg reply order ds).
    rewrite (get_order_snoc _ _ _ _ (Store.order_items db)).
    assert (get_order
              (Store.mk (take_stock (Store.products db) (OrderCreate.items order))
                 (Store.orders db) (Store.order_items db)) (issued_id reply)
            = Raise (HTTPException 404 "Order not found")) as ->.
    { by apply get_order_unlisted. }
    unfold order_row at 1. cbn [Order.id]. rewrite Z.eqb_refl. by repeat split.
  - intros k Hk. rewrite (get_order_snoc _ _ _ _ (Store.order_items db)).
    change (get_order
              (Store.mk (take_stock (Store.products db) (OrderCreate.items order))
                 (Store.orders db) (Store.order_items db)) k)
      with (get_order db k).
    destruct (get_order db k) as [o|e] eqn:Hget; [done|].
    unfold order_row. cbn [Order.id].
    destruct (Z.eqb_spec (issued_id reply) k); [congruence|].
    revert Hget. unfold get_order. by destruct (List.find _ _).
Qed.

(** X12. [create_product], the commit being accepted, stores the product
    under the issued key with the name, description, price and inventory
    of the request, and [get_product] on that key then returns it; the
    orders and order lines are untouched; and when the key is new, every
    other product is as before and the catalog has one product more.  When
    the commit raises an integrity error the call fails with the 400
    "Product already exists" and the store is as before. *)
Theorem create_product_then_get_product reply db (product : ProductCreate.t F) :
  (on_commit reply = None →
     ∃ stored_product db',
       create_product reply db product = (Return (issued_id reply, stored_product), db')
       ∧ get_product db' (issued_id reply) = Return stored_product
       ∧ Product.name stored_product = ProductCreate.name product
       ∧ Product.description stored_product = ProductCreate.description product
       ∧ Product.price stored_product = ProductCreate.price product
       ∧ Product.inventory stored_product = ProductCreate.inventory product
       ∧ Store.orders db' = Store.orders db
       ∧ Store.order_items db' = Store.order_items db
       ∧ (Store.products db !! issued_id reply = None →
            (∀ k, k ≠ issued_id reply → get_product db' k = get_product db k)
            ∧ base.size (Store.products db') = S (base.size (Store.products db))))
  ∧ (∀ msg,
       on_commit reply = Some (IntegrityError msg) →
       create_product reply db product
       = (Raise (HTTPException 400 "Product already exists"), db)).
Proof.
  unfold create_product. split.
  - intros ->. eexists _, _. split; [done|].
    unfold get_product. cbn [Store.products Store.orders Store.order_items
                               Product.name Product.description Product.price
                               Product.inventory].
    rewrite lookup_insert_eq. repeat split; [done..| |].
    + intros k Hk. by rewrite lookup_insert_ne.
    + by apply map_size_insert_None.
  - by intros msg ->.
Qed.

(** X13. An adjustment of inventory that is accepted is undone by the
    opposite adjustment: for a product with a stock of zero or more, a
    change that keeps the stock at zero or more followed by the opposite
    change, both commits accepted, returns the product as it was and
    leaves the store as it was before the two calls. *)
Theorem update_product_inventory_undo reply1 reply2 db product_id change product :
  Store.products db !! product_id = Some product →
  0 ≤ Product.inventory product →
  0 ≤ Product.inventory product + change →
  on_commit reply1 = None →
  on_commit reply2 = None →
  update_product_inventory reply2
    (update_product_inventory reply1 db product_id (InventoryUpdate.mk change)).2
    product_id (InventoryUpdate.mk (- change))
  = (Return product, db).
Proof.
  intros Hp Hstock Hchange Hcommit1 Hcommit2.
  unfold update_product_inventory at 2. rewrite Hp, Hcommit1. cbn [InventoryUpdate.quantity].
  destruct (Z.ltb_spec (Product.inventory product + change) 0); [lia|]. cbn [snd].
  unfold update_product_inventory. cbn [Store.products Store.orders Store.order_items].
  rewrite lookup_insert_eq, Hcommit2.
  cbn [InventoryUpdate.quantity Product.inventory Product.name Product.description
       Product.price].
  destruct (Z.ltb_spec (Product.inventory product + change + - change) 0); [lia|].
  assert (Product.mk (Product.name product) (Product.description product)
            (Product.price product) (Product.inventory product + change + - change)
          = product) as ->.
  { destruct product. cbn. f_equal. lia. }
  rewrite insert_insert_eq, insert_id by done. by destruct db.
Qed.

(** X14. Two adjustments of inventory that are both accepted amount to
    one: when the stock stays at zero or more after the first change and
    after the second, the two calls in a row return the product and leave
    the store that the single call with the sum of the changes does. *)
Theorem update_product_inventory_twice reply1 reply2 db product_id change1 change2 product :
  Store.products db !! product_id = Some product →
  0 ≤ Product.inventory product + change1 →
  0 ≤ Product.inventory product + change1 + change2 →
  on_commit reply1 = None →
  on_commit reply2 = None →
  update_product_inventory reply2
    (update_product_inventory reply1 db product_id (InventoryUpdate.mk change1)).2
    product_id (InventoryUpdate.mk change2)
  = update_product_inventory reply2 db product_id (InventoryUpdate.mk (change1 + change2)).
Proof.
  intros Hp Hchange1 Hchange2 Hcommit1 Hcommit2.
  unfold update_product_inventory at 2. rewrite Hp, Hcommit1. cbn [InventoryUpdate.quantity].
  destruct (Z.ltb_spec (Product.inventory product + change1) 0); [lia|]. cbn [snd].
  unfold update_product_inventory. cbn [Store.products Store.orders Store.order_items].
  rewrite lookup_insert_eq, Hp, Hcommit2.
  cbn [InventoryUpdate.quantity Product.inventory Product.name Product.description
       Product.price].
  destruct (Z.ltb_spec (Product.inventory product + change1 + change2) 0); [lia|].
  destruct (Z.ltb_spec (Product.inventory product + (change1 + change2)) 0); [lia|].
  rewrite insert_insert_eq, Z.add_assoc. done.
Qed.

Lemma requested_nonneg k (items : list OrderItemCreate.t) :
  Forall (λ item, 0 < OrderItemCreate.quantity item) items →
  0 ≤ requested k items
  ∧ (k ∈ OrderItemCreate.product_id <$> items → 0 < requested k items).
Proof.
  induction 1 as [|item items Hq _ [IH0 IH1]]; [split; [done|by intros ?%elem_of_nil]|].
  cbn [requested foldr]. fold (requested k items). rewrite fmap_cons, elem_of_cons.
  case_decide as Hk; [split; [lia|intros _; lia]|].
  split; [done|]. intros [->|Hin]; [done|by apply IH1].
Qed.

(** X15. An order whose request passed validation (every quantity above
    zero) never adds stock: whatever the outcome of [create_order], no
    product is left with more stock than it had, and when the order is
    created every product it names is left with strictly less. *)
Theorem create_order_takes_stock reply db order k s :
  valid_order order →
  stock db k = Some s →
  ∃ s',
    stock (create_order cfg reply db order).2 k = Some s'
    ∧ s' ≤ s
    ∧ (∀ resp,
         (create_order cfg reply db order).1 = Return resp →
         k ∈ OrderItemCreate.product_id <$> OrderCreate.items order →
         s' < s).
Proof.
  intros Hvalid Hs. destruct (requested_nonneg k _ Hvalid) as [Hge Hgt].
  destruct (price_loop cfg (Store.products db) (OrderCreate.items order) [] fzero)
    as [[ois sub]|e] eqn:Hloop.
  - apply price_loop_Return in Hloop as (ds & Hds & _ & _).
    rewrite (create_order_priced _ _ _ _ _ Hds).
    destruct (on_commit reply) as [[msg|msg]|]; cbn [fst snd].
    + exists s. by repeat split; [|lia|].
    + exists s. by repeat split; [|lia|].
    + exists (s - requested k (OrderCreate.items order)).
      rewrite stock_stored, Hs. repeat split; [lia|]. intros _ _ Hin.
      specialize (Hgt Hin). lia.
  - rewrite (create_order_price_Raise _ _ _ _ _ Hloop). cbn [fst snd].
    exists s. by repeat split; [|lia|].
Qed.

End RoundTrips.

(** * The extras at work *)

Lemma get_all_orders_next_page_witness :
  get_all_orders db_two_orders 0 1 ++ get_all_orders db_two_orders (0 + 1) 1
  = get_all_orders db_two_orders 0 (1 + 1)
  ∧ (Z.of_nat (length (Store.orders db_two_orders)) ≤ 1 →
       get_all_orders db_two_orders 0 1 = Store.orders db_two_orders).
Proof. apply (get_all_orders_next_page db_two_orders 0 1 1); lia. Defined.

Lemma get_product_list_page_witness :
  let row_order := (map_to_list : gmap Z (Product.t Q) → list (Z * Product.t Q)) in
  scans_table row_order
  ∧ (∀ k product,
       (k, product) ∈ get_product_list row_order db0 1 2 →
       Store.products db0 !! k = Some product)
  ∧ NoDup (get_product_list row_order db0 1 2).*1
  ∧ Z.of_nat (length (get_product_list row_order db0 1 2))
    = Z.min 2 (Z.max 0 (Z.of_nat (base.size (Store.products db0)) - 1))
  ∧ (Z.of_nat (base.size (Store.products db0)) ≤ 2 →
       get_product_list row_order db0 0 2 ≡ₚ map_to_list (Store.products db0)).
Proof.
  intros row_order.
  assert (scans_table row_order) as Hscan.
  { intros tbl. reflexivity. }
  split; [exact Hscan|].
  apply (get_product_list_page row_order db0 1 2 Hscan); lia.
Defined.

Lemma one_order_reachable :
  reachable cfg0 db0 (create_order cfg0 accepted db0 (request [(1, 2); (3, 3)])).2.
Proof.
  eapply rtc_l; [|apply rtc_refl]. apply step_create_order. cbn. apply not_elem_of_nil.
Qed.

Lemma service_never_rewrites_witness :
  extends db0 (create_order cfg0 accepted db0 (request [(1, 2); (3, 3)])).2
  ∧ stock (create_order cfg0 accepted db0 (request [(1, 2); (3, 3)])).2 1 = Some 18.
Proof.
  split; [|run]. exact (service_never_rewrites cfg0 _ _ one_order_reachable).
Defined.

Lemma two_orders_reachable :
  reachable cfg0 db_two_orders
    (create_order cfg0
       {| issued_id := 3; server_now := 1700000120; on_commit := None |}
       db_two_orders (request [(5, 30)])).2.
Proof.
  eapply rtc_l; [|apply rtc_refl]. apply step_create_order. cbn.
  rewrite !elem_of_cons, elem_of_nil. intros [|[|[]]]; done.
Qed.

Lemma get_all_orders_stable_witness :
  get_all_orders
    (create_order cfg0
       {| issued_id := 3; server_now := 1700000120; on_commit := None |}
       db_two_orders (request [(5, 30)])).2 1 1
  = get_all_orders db_two_orders 1 1
  ∧ length
      (Store.orders
         (create_order cfg0
            {| issued_id := 3; server_now := 1700000120; on_commit := None |}
            db_two_orders (request [(5, 30)])).2) = 3%nat.
Proof.
  split; [|run].
  apply (get_all_orders_stable cfg0 _ _ 1 1 two_orders_reachable); cbn; lia.
Defined.

Lemma history_from_empty :
  reachable cfg0 empty_store
    (create_order cfg0 accepted
       (ProductController.create_product accepted empty_store
          (ProductCreate.mk "New Product" "New product description" (1599 # 100)%Q 25)).2
       (request [(1, 6)])).2.
Proof.
  eapply rtc_l; [apply step_create_product; reflexivity|].
  eapply rtc_l; [|apply rtc_refl]. apply step_create_order. cbn. apply not_elem_of_nil.
Qed.

Lemma service_keeps_consistent_witness :
  consistent cfg0
    (create_order cfg0 accepted
       (ProductController.create_product accepted empty_store
          (ProductCreate.mk "New Product" "New product description" (1599 # 100)%Q 25)).2
       (request [(1, 6)])).2
  ∧ length
      (Store.order_items
         (create_order cfg0 accepted
            (ProductController.create_product accepted empty_store
               (ProductCreate.mk "New Product" "New product description"
                  (1599 # 100)%Q 25)).2
            (request [(1, 6)])).2) = 1%nat.
Proof. split; [|run]. exact (service_keeps_consistent cfg0 _ history_from_empty). Defined.

Lemma get_order_agrees_with_listing_witness :
  let db :=
    (create_order cfg0 accepted
       (ProductController.create_product accepted empty_store
          (ProductCreate.mk "New Product" "New product description" (1599 # 100)%Q 25)).2
       (request [(1, 6)])).2 in
  length (Store.orders db) = 1%nat
  ∧ (∀ o, o ∈ Store.orders db → get_order db (Order.id o) = Return o)
  ∧ (∀ k, k ∉ Order.id <$> Store.orders db →
       get_order db k = Raise (HTTPException 404 "Order not found")).
Proof.
  intros db. split; [run|].
  exact (get_order_agrees_with_listing cfg0 _ history_from_empty).
Defined.

Lemma create_order_then_get_order_witness :
  ∃ resp db',
    create_order cfg0 accepted db0 (request [(1, 3); (2, 2)]) = (Return resp, db')
    ∧ (∃ o,
         get_order db' (OrderResponse.id resp) = Return o
         ∧ Order.id o = OrderResponse.id resp
         ∧ Order.customer_name o
           = OrderCreate.customer_name (request [(1, 3); (2, 2)])
         ∧ Order.customer_email o
           = OrderCreate.customer_email (request [(1, 3); (2, 2)])
         ∧ Order.subtotal o = OrderResponse.subtotal resp
         ∧ Order.shipping_fee o = OrderResponse.shipping_fee resp
         ∧ Order.total_amount o = OrderResponse.total_amount resp
         ∧ Order.created_at o = OrderResponse.created_at resp)
    ∧ ∀ k, k ≠ OrderResponse.id resp → get_order db' k = get_order db0 k.
Proof.
  eexists _, _. split; [run|].
  apply (create_order_then_get_order cfg0 accepted db0 (request [(1, 3); (2, 2)])).
  - cbn. apply not_elem_of_nil.
  - run.
Defined.

Lemma create_product_then_get_product_witness :
  ∃ stored_product db',
    create_product accepted db0
      (ProductCreate.mk "New Product" "New product description" (1599 # 100)%Q 25)
    = (Return (issued_id accepted, stored_product), db')
    ∧ get_product db' (issued_id accepted) = Return stored_product
    ∧ Product.name stored_product = "New Product"
    ∧ Product.description stored_product = "New product description"
    ∧ Product.price stored_product = (1599 # 100)%Q
    ∧ Product.inventory stored_product = 25.
Proof.
  destruct (create_product_then_get_product accepted db0
              (ProductCreate.mk "New Product" "New product description" (1599 # 100)%Q 25))
    as [Hok _].
  destruct (Hok eq_refl)
    as (stored_product & db' & Hrun & Hget & Hname & Hdesc & Hprice & Hinv & _).
  by exists stored_product, db'.
Defined.

Lemma update_product_inventory_undo_witness :
  update_product_inventory accepted
    (update_product_inventory accepted db0 1 (InventoryUpdate.mk 10)).2
    1 (InventoryUpdate.mk (- 10))
  = (Return (Product.mk "Test Product 1" "Description 1" 10%Q 20), db0).
Proof.
  apply (update_product_inventory_undo accepted accepted db0 1 10
           (Product.mk "Test Product 1" "Description 1" 10%Q 20)).
  - run.
  - cbn. lia.
  - cbn. lia.
  - reflexivity.
  - reflexivity.
Defined.

Lemma update_product_inventory_twice_witness :
  update_product_inventory accepted
    (update_product_inventory accepted db0 1 (InventoryUpdate.mk 10)).2
    1 (InventoryUpdate.mk (- 25))
  = update_product_inventory accepted db0 1 (InventoryUpdate.mk (10 + - 25)).
Proof.
  apply (update_product_inventory_twice accepted accepted db0 1 10 (- 25)
           (Product.mk "Test Product 1" "Description 1" 10%Q 20)).
  - run.
  - cbn. lia.
  - cbn. lia.
  - reflexivity.
  - reflexivity.
Defined.

Lemma create_order_takes_stock_witness :
  valid_order (request [(1, 2); (3, 3)])
  ∧ ∃ s',
      stock (create_order cfg0 accepted db0 (request [(1, 2); (3, 3)])).2 3 = Some s'
      ∧ s' ≤ 50
      ∧ (∀ resp,
           (create_order cfg0 accepted db0 (request [(1, 2); (3, 3)])).1 = Return resp →
           3 ∈ OrderItemCreate.product_id <$> OrderCreate.items (request [(1, 2); (3, 3)]) →
           s' < 50).
Proof.
  assert (valid_order (request [(1, 2); (3, 3)])) as Hvalid.
  { unfold valid_order. cbn. repeat constructor. }
  split; [exact Hvalid|].
  apply (create_order_takes_stock cfg0 accepted db0 (request [(1, 2); (3, 3)]) 3 50 Hvalid).
  run.
Defined.

(** * The product seeder *)

Section ProductSeeder.
Context {F : Type} `{PyFloat F}.
Implicit Types (tbl : gmap Z (Product.t F)) (product_data : list (Product.t F)).
Implicit Types (variation product_key : nat → Z).

Lemma add_products_cons variation product_key i data product_data tbl :
  add_products variation product_key i (data :: product_data) tbl
  = (varied (variation i) data
       :: (add_products variation product_key (S i) product_data
             (<[product_key i := varied (variation i) data]> tbl)).1,
     (add_products variation product_key (S i) product_data
        (<[product_key i := varied (variation i) data]> tbl)).2).
Proof. cbn [add_products]. fold (varied (variation i) data). by destruct (add_products _ _ _ _ _). Qed.

Lemma add_products_dicts variation product_key i product_data tbl (j : nat) :
  (add_products variation product_key i product_data tbl).1 !! j
  = varied (variation (i + j)%nat) <$> product_data !! j.
Proof.
  revert i tbl j. induction product_data as [|data product_data IH]; intros i tbl j; [done|].
  rewrite add_products_cons. destruct j as [|j]; cbn [fst].
  - by rewrite Nat.add_0_r.
  - cbn. rewrite IH. by rewrite Nat.add_succ_comm.
Qed.

Lemma add_products_other variation product_key i product_data tbl k :
  (∀ j : nat, (j < length product_data)%nat → product_key (i + j)%nat ≠ k) →
  (add_products variation product_key i product_data tbl).2 !! k = tbl !! k.
Proof.
  revert i tbl. induction product_data as [|data product_data IH]; intros i tbl Hk; [done|].
  rewrite add_products_cons. cbn [snd]. rewrite IH.
  - apply lookup_insert_ne. specialize (Hk 0%nat). rewrite Nat.add_0_r in Hk.
    apply Hk. cbn. lia.
  - intros j Hj. rewrite Nat.add_succ_comm. apply Hk. cbn. lia.
Qed.

Lemma add_products_rows variation product_key i product_data tbl (j : nat) data :
  Inj (=) (=) product_key →
  product_data !! j = Some data →
  (add_products variation product_key i product_data tbl).2 !! product_key (i + j)%nat
  = Some (varied (variation (i + j)%nat) data).
Proof.
  intros Hinj. revert i tbl j.
  induction product_data as [|data' product_data IH]; intros i tbl j Hj; [done|].
  rewrite add_products_cons. cbn [snd]. destruct j as [|j].
  - injection Hj as ->. rewrite Nat.add_0_r. rewrite add_products_other.
    + apply lookup_insert_eq.
    + intros j _ Heq. apply Hinj in Heq. lia.
  - rewrite <- Nat.add_succ_comm. by apply IH.
Qed.

Lemma add_products_size variation product_key i product_data tbl :
  Inj (=) (=) product_key →
  (∀ j : nat, tbl !! product_key (i + j)%nat = None) →
  base.size (add_products variation product_key i product_data tbl).2
  = (length product_data + base.size tbl)%nat.
Proof.
  intros Hinj. revert i tbl.
  induction product_data as [|data product_data IH]; intros i tbl Hnew; [done|].
  rewrite add_products_cons. cbn [snd length]. rewrite IH.
  - rewrite map_size_insert_None; [lia|]. specialize (Hnew 0%nat).
    by rewrite Nat.add_0_r in Hnew.
  - intros j. rewrite lookup_insert_ne.
    + rewrite Nat.add_succ_comm. apply Hnew.
    + intros Heq. apply Hinj in Heq. lia.
Qed.

Lemma add_products_floor variation product_key i product_data tbl :
  map_Forall (λ _ product, 1 ≤ Product.inventory product) tbl →
  map_Forall (λ _ product, 1 ≤ Product.inventory product)
    (add_products variation product_key i product_data tbl).2.
Proof.
  revert i tbl. induction product_data as [|data product_data IH]; intros i tbl Htbl; [done|].
  rewrite add_products_cons. cbn [snd]. apply IH.
  apply map_Forall_insert_2; [|done]. unfold varied. cbn. lia.
Qed.

Lemma add_products_filled variation product_key i product_data tbl :
  product_data ≠ [] ∨ tbl ≠ ∅ →
  (add_products variation product_key i product_data tbl).2 ≠ ∅.
Proof.
  revert i tbl. induction product_data as [|data product_data IH]; intros i tbl Hsome.
  - by destruct Hsome.
  - rewrite add_products_cons. cbn [snd]. apply IH. right. apply insert_non_empty.
Qed.

(** X16. On an empty catalog and with its commit accepted, [seed_database]
    of the product seeder stores one product for every entry of PRODUCTS,
    under the key issued for it, with the name, description and price of
    the entry and as inventory the entry's inventory plus the variation
    drawn, raised to 1 when it is below; so the catalog has as many
    products as PRODUCTS has entries, every product has a stock of at
    least 1, and for a variation between -5 and 10 the stock lies between
    the entry's inventory less 5 and the larger of 1 and that inventory
    plus 10.  Orders and order lines are untouched, PRODUCTS is left with
    the varied inventories, and the line printed counts the entries. *)
Theorem seed_database_seeds variation product_key PRODUCTS (db : Store.t F) :
  Inj (=) (=) product_key →
  Store.products db = ∅ →
  ∃ PRODUCTS' db',
    seed_database variation product_key None PRODUCTS db
    = ("Successfully seeded database with " +:+ pretty (length PRODUCTS) +:+ " products.",
       PRODUCTS', db')
    ∧ Store.orders db' = Store.orders db
    ∧ Store.order_items db' = Store.order_items db
    ∧ base.size (Store.products db') = length PRODUCTS
    ∧ map_Forall (λ _ product, 1 ≤ Product.inventory product) (Store.products db')
    ∧ ∀ (i : nat) data,
        PRODUCTS !! i = Some data →
        PRODUCTS' !! i = Some (varied (variation i) data)
        ∧ Store.products db' !! product_key i = Some (varied (variation i) data)
        ∧ (-5 ≤ variation i ≤ 10 →
             Product.inventory data - 5 ≤ Product.inventory (varied (variation i) data)
             ∧ Product.inventory (varied (variation i) data)
               ≤ Z.max 1 (Product.inventory data + 10)).
Proof.
  intros Hinj Hempty. unfold seed_database. rewrite Hempty, map_size_empty.
  cbn [Nat.ltb Nat.leb].
  assert (Hsize := add_products_size variation product_key 0 PRODUCTS ∅ Hinj
                     (λ j, lookup_empty _)).
  assert (Hfloor := add_products_floor variation product_key 0 PRODUCTS ∅
                      (map_Forall_empty _)).
  assert (Hdicts := add_products_dicts variation product_key 0 PRODUCTS ∅).
  assert (Hrows := λ j data, add_products_rows variation product_key 0 PRODUCTS ∅ j data Hinj).
  destruct (add_products variation product_key 0 PRODUCTS ∅) as [PRODUCTS' tbl].
  cbn [fst snd] in *. eexists _, _. split; [reflexivity|].
  cbn [Store.orders Store.order_items Store.products].
  split; [done|]. split; [done|]. split; [by rewrite Hsize, map_size_empty, Nat.add_0_r|].
  split; [done|]. intros i data Hi. split; [|split].
  - by rewrite Hdicts, Hi.
  - by apply Hrows.
  - unfold varied. cbn. lia.
Qed.

(** X17. [seed_database] of the product seeder is safe to run again: on a
    catalog that has a product it prints that it skips and changes neither
    the store nor PRODUCTS; when its commit raises it leaves the store as
    it was; and a second run, after a run that skipped or whose commit was
    accepted, leaves the store of the first. *)
Theorem seed_database_again variation product_key on_commit PRODUCTS (db : Store.t F) :
  ((0 < base.size (Store.products db))%nat →
     seed_database variation product_key on_commit PRODUCTS db
     = ("Database already contains " +:+ pretty (base.size (Store.products db))
          +:+ " products. Skipping seeding.", PRODUCTS, db))
  ∧ (∀ e, on_commit = Some e →
       (seed_database variation product_key on_commit PRODUCTS db).2 = db)
  ∧ (on_commit = None ∨ (0 < base.size (Store.products db))%nat →
     ∀ variation' product_key' on_commit',
       (seed_database variation' product_key' on_commit'
          (seed_database variation product_key on_commit PRODUCTS db).1.2
          (seed_database variation product_key on_commit PRODUCTS db).2).2
       = (seed_database variation product_key on_commit PRODUCTS db).2).
Proof.
  assert (∀ v k c P (d : Store.t F),
            (0 < base.size (Store.products d))%nat →
            seed_database v k c P d
            = ("Database already contains " +:+ pretty (base.size (Store.products d))
                 +:+ " products. Skipping seeding.", P, d)) as Hskip.
  { intros v k c P d Hsome. unfold seed_database.
    by destruct (Nat.ltb_spec 0 (base.size (Store.products d))); [|lia]. }
  split; [apply Hskip|]. split.
  - intros e ->. unfold seed_database.
    destruct (0 <? base.size (Store.products db))%nat; [done|].
    by destruct (add_products _ _ _ _ _).
  - intros Hfirst variation' product_key' on_commit'.
    destruct (Nat.ltb_spec 0 (base.size (Store.products db))) as [Hsome|Hnone].
    { rewrite (Hskip _ _ _ _ _ Hsome). cbn [fst snd]. by rewrite (Hskip _ _ _ _ _ Hsome). }
    destruct Hfirst as [->|?]; [|lia].
    unfold seed_database at 2 3 4.
    destruct (Nat.ltb_spec 0 (base.size (Store.products db))); [lia|].
    destruct (add_products variation product_key 0 PRODUCTS (Store.products db))
      as [PRODUCTS' tbl] eqn:Hadd. cbn [fst snd].
    destruct PRODUCTS as [|data PRODUCTS].
    + cbn in Hadd. injection Hadd as <- <-. unfold seed_database.
      cbn [Store.products Store.orders Store.order_items].
      destruct (0 <? base.size (Store.products db))%nat; [done|]. cbn.
      by destruct on_commit'.
    + rewrite Hskip; [done|]. cbn [Store.products].
      assert (base.size tbl ≠ 0%nat); [|lia]. apply map_size_non_empty_iff.
      replace tbl with
        (add_products variation product_key 0 (data :: PRODUCTS) (Store.products db)).2
        by by rewrite Hadd.
      apply add_products_filled. by left.
Qed.

End ProductSeeder.

(** * The order seeder *)

Section OrderSeeder.
Context {F : Type} `{PyFloat F}.
Variable cfg : Config F.
Implicit Types (s db : Store.t F) (draw : Draw.t F) (ds : list (item_data F)).

Lemma price_sample_items quantity j (order_products : list (Z * Product.t F)) acc sub :
  price_sample cfg quantity j order_products acc sub
  = (acc ++ imap (λ i chosen, seeded_item cfg (quantity (j + i)%nat) chosen) order_products,
     sum_totals sub
       (imap (λ i chosen, seeded_item cfg (quantity (j + i)%nat) chosen) order_products)).
Proof.
  revert j acc sub.
  induction order_products as [|[product_id product] rest IH]; intros j acc sub.
  - cbn. by rewrite app_nil_r.
  - cbn [price_sample imap]. rewrite Nat.add_0_r.
    assert (imap ((λ i chosen, seeded_item cfg (quantity (j + i)%nat) chosen) ∘ S) rest
            = imap (λ i chosen, seeded_item cfg (quantity (S j + i)%nat) chosen) rest) as ->.
    { apply imap_ext. intros i chosen _. cbn. by rewrite Nat.add_succ_r. }
    unfold seeded_item at 1 3. cbn [fst snd]. unfold discounted.
    destruct (quantity j >=? BULK_DISCOUNT_THRESHOLD cfg);
      rewrite IH, <- app_assoc; done.
Qed.

Lemma add_items_rows order_id ds s :
  add_items order_id ds s
  = Store.mk (take_stock (Store.products s) (as_line <$> ds)) (Store.orders s)
      (Store.order_items s ++ (row_of order_id <$> ds)).
Proof.
  revert s. induction ds as [|d ds IH]; intros s.
  - cbn. rewrite app_nil_r. by destruct s.
  - cbn [add_items]. rewrite IH. cbn [Store.products Store.orders Store.order_items].
    rewrite fmap_cons, take_stock_cons, fmap_cons, <- app_assoc. done.
Qed.

(** An order is seeded unless [random.sample] raises. *)
Lemma seed_order_store (n_products : nat) draw s :
  seed_order cfg n_products draw s
  = if (Draw.num_items draw <? 0) || (Z.of_nat n_products <? Draw.num_items draw)
    then inl "Sample larger than population or is negative"
    else inr (seeded_store cfg draw s).
Proof.
  unfold seed_order. destruct (_ || _); [done|].
  rewrite price_sample_items, add_items_rows. done.
Qed.

End OrderSeeder.

Section SeededOrders.
Context {F : Type} `{PyFloat F}.
Variable cfg : Config F.
Implicit Types (s db : Store.t F) (draw : Draw.t F) (ds : list (item_data F)).
Implicit Types (tbl : gmap Z (Product.t F)).

(** The lines of the request are the items of the seeded order. *)
Lemma seeded_items_lines draw :
  as_line <$> seeded_items cfg draw = OrderCreate.items (seeded_request draw).
Proof.
  unfold seeded_items, seeded_request. cbn [OrderCreate.items].
  rewrite fmap_imap. by apply imap_ext.
Qed.

Lemma seeded_store_stored draw s :
  seeded_store cfg draw s
  = stored cfg (seeded_reply draw) s (seeded_request draw) (seeded_items cfg draw).
Proof.
  unfold seeded_store, stored. cbn zeta. by rewrite seeded_items_lines.
Qed.

Lemma seeded_items_elem_of draw d :
  d ∈ seeded_items cfg draw →
  ∃ j chosen, Draw.sample draw !! j = Some chosen
              ∧ d = seeded_item cfg (Draw.quantity draw j) chosen.
Proof.
  unfold seeded_items. intros (j & chosen & -> & Hj)%elem_of_lookup_imap. eauto.
Qed.

Lemma seeded_items_products draw :
  OrderItemCreate.product_id <$> (as_line <$> seeded_items cfg draw) = (Draw.sample draw).*1.
Proof.
  unfold seeded_items. rewrite <- list_fmap_compose, fmap_imap.
  rewrite <- (imap_const fst). by apply imap_ext.
Qed.

(** The prices of a catalog survive the taking of stock. *)
Lemma take_stock_price tbl items k product :
  tbl !! k = Some product →
  ∃ product', take_stock tbl items !! k = Some product'
              ∧ Product.price product' = Product.price product.
Proof.
  intros Hk. rewrite take_stock_lookup, Hk. cbn. eauto.
Qed.

Lemma sampled_from_take_stock tbl items draw :
  sampled_from tbl draw → sampled_from (take_stock tbl items) draw.
Proof.
  intros Hdraw chosen Hin. destruct (Hdraw chosen Hin) as (product & Hp & Hprice).
  destruct (take_stock_price tbl items _ _ Hp) as (product' & Hp' & Hprice').
  exists product'. split; [done|congruence].
Qed.

Lemma line_priced_catalog tbl tbl' (it : OrderItem.t F) :
  (∀ k product, tbl !! k = Some product →
     ∃ product', tbl' !! k = Some product' ∧ Product.price product' = Product.price product) →
  line_priced cfg tbl it → line_priced cfg tbl' it.
Proof.
  intros Hkeep (product & Hp & Hge & Hlt).
  destruct (Hkeep _ _ Hp) as (product' & Hp' & Hprice).
  exists product'. rewrite Hprice. done.
Qed.

(** The rows of a seeded order are priced by the rule. *)
Lemma seeded_rows_priced tbl draw order_id :
  sampled_from tbl draw →
  Forall (line_priced cfg tbl) (row_of order_id <$> seeded_items cfg draw).
Proof.
  intros Hdraw. apply Forall_fmap, Forall_forall.
  intros d (j & chosen & Hj & ->)%seeded_items_elem_of.
  destruct (Hdraw chosen) as (product & Hp & Hprice); [by eapply list_elem_of_lookup_2|].
  exists product. cbn. split; [done|]. rewrite Hprice. unfold discounted. split; intros Hq.
  - destruct (Z.geb_spec (Draw.quantity draw j) (BULK_DISCOUNT_THRESHOLD cfg)); [done|lia].
  - destruct (Z.geb_spec (Draw.quantity draw j) (BULK_DISCOUNT_THRESHOLD cfg)); [lia|done].
Qed.

(** With the stock at hand, the items of a seeded order are the lines of
    its request as [create_order] prices them. *)
Lemma seeded_items_priced tbl draw :
  sampled_from tbl draw →
  Forall (available tbl) (as_line <$> seeded_items cfg draw) →
  Forall2 (λ item d, price_line cfg tbl item = Return d)
    (as_line <$> seeded_items cfg draw) (seeded_items cfg draw).
Proof.
  intros Hdraw Hstock. apply Forall2_fmap_l, Forall_Forall2_diag, Forall_forall.
  intros d Hd. rewrite Forall_fmap, Forall_forall in Hstock.
  destruct (Hstock d Hd) as (product & Hp & Hq).
  apply seeded_items_elem_of in Hd as (j & chosen & Hj & ->).
  destruct (Hdraw chosen) as (product' & Hp' & Hprice); [by eapply list_elem_of_lookup_2|].
  cbn in Hp, Hq |- *. unfold price_line. cbn. rewrite Hp.
  rewrite Hp' in Hp. injection Hp as ->.
  destruct (Z.ltb_spec (Product.inventory product) (Draw.quantity draw j)); [lia|].
  unfold seeded_item. by rewrite Hprice.
Qed.

Lemma stored_rows_consistent reply db order ds :
  Forall (λ d, is_Some (Store.products db !! d_product_id d)) ds →
  issued_id reply ∉ Order.id <$> Store.orders db →
  consistent cfg db →
  consistent cfg (stored cfg reply db order ds).
Proof.
  intros Hds Hnew (Hids & Hrefs & Horders).
  assert (Forall (λ it : OrderItem.t F, OrderItem.order_id it ≠ issued_id reply)
            (Store.order_items db)) as Hfresh.
  { eapply Forall_impl; [exact Hrefs|]. intros it [_ Hin] Heq. by rewrite Heq in Hin. }
  unfold consistent, stored. cbn [Store.orders]. split; [|split].
  - rewrite fmap_app. apply NoDup_app. split; [done|]. split.
    + intros k Hk [->|[]%elem_of_nil]%elem_of_cons. done.
    + apply NoDup_singleton.
  - unfold referential_integrity. cbn [Store.products Store.orders Store.order_items].
    apply Forall_app. split.
    + eapply Forall_impl; [exact Hrefs|]. intros it [[product Hp] Hin]. split.
      * rewrite take_stock_lookup, Hp. by eexists.
      * rewrite fmap_app. apply elem_of_app. by left.
    + apply Forall_fmap. eapply Forall_impl; [exact Hds|].
      intros d [product Hp]. cbn. split.
      * rewrite take_stock_lookup, Hp. by eexists.
      * rewrite fmap_app. apply elem_of_app. right. cbn. apply list_elem_of_here.
  - apply Forall_app. split.
    + apply Forall_forall. intros o Ho.
      assert (Order.id o ≠ issued_id reply) as Hne.
      { intros Heq. apply Hnew. rewrite <- Heq. by apply list_elem_of_fmap_2. }
      destruct (proj1 (Forall_forall _ _) Horders o Ho) as (Hsub & Hfee & Htotal).
      unfold order_consistent. rewrite order_lines_app, filter_rows_other, app_nil_r by done.
      repeat split; [|done..]. rewrite Hsub. unfold order_lines. done.
    + constructor; [|constructor]. unfold order_consistent, order_row.
      cbn [Order.id Order.subtotal Order.shipping_fee Order.total_amount].
      rewrite order_lines_fresh by done. rewrite lines_total_rows. by repeat split.
Qed.

Lemma stored_lines_priced reply db order ds :
  Forall (line_priced cfg (Store.products db)) (row_of (issued_id reply) <$> ds) →
  lines_priced cfg db → lines_priced cfg (stored cfg reply db order ds).
Proof.
  intros Hnew Hold. unfold lines_priced, stored. cbn [Store.products Store.order_items].
  apply Forall_app. split; (eapply Forall_impl; [eassumption|]); intros it;
    apply line_priced_catalog; intros k product; apply take_stock_price.
Qed.

Lemma seeded_store_keeps draw s :
  sampled_from (Store.products s) draw →
  Draw.order_key draw ∉ Order.id <$> Store.orders s →
  consistent cfg s → lines_priced cfg s →
  consistent cfg (seeded_store cfg draw s) ∧ lines_priced cfg (seeded_store cfg draw s).
Proof.
  intros Hdraw Hnew Hs Hlines. rewrite seeded_store_stored. split.
  - apply stored_rows_consistent; [|done..]. apply Forall_forall.
    intros d (j & chosen & Hj & ->)%seeded_items_elem_of.
    destruct (Hdraw chosen) as (product & Hp & _); [by eapply list_elem_of_lookup_2|].
    by exists product.
  - apply stored_lines_priced; [|done]. by apply seeded_rows_priced.
Qed.


(** The session of the loop once every order of [draws] is seeded. *)
Lemma seed_order_loop_runs (n_products : nat) draws s :
  Forall (λ draw, 0 ≤ Draw.num_items draw ≤ Z.of_nat n_products) draws →
  seed_order_loop cfg n_products draws s
  = inr (foldl (λ s draw, seeded_store cfg draw s) s draws).
Proof.
  intros Hdraws. revert s. induction Hdraws as [|draw draws Hdraw _ IH]; intros s; [done|].
  cbn [seed_order_loop foldl]. rewrite seed_order_store.
  destruct (Z.ltb_spec (Draw.num_items draw) 0); [lia|].
  destruct (Z.ltb_spec (Z.of_nat n_products) (Draw.num_items draw)); [lia|].
  cbn [orb]. apply IH.
Qed.

Lemma seed_order_loop_raises (n_products : nat) draws s :
  Exists (λ draw, Draw.num_items draw < 0 ∨ Z.of_nat n_products < Draw.num_items draw)
    draws →
  seed_order_loop cfg n_products draws s
  = inl "Sample larger than population or is negative".
Proof.
  revert s. induction draws as [|draw draws IH]; intros s Hbad; [by apply Exists_nil in Hbad|].
  cbn [seed_order_loop]. rewrite seed_order_store.
  destruct (Z.ltb_spec (Draw.num_items draw) 0); [done|].
  destruct (Z.ltb_spec (Z.of_nat n_products) (Draw.num_items draw)); [done|].
  cbn [orb]. apply IH. apply Exists_cons in Hbad as [[?|?]|Hbad]; [lia..|done].
Qed.

Lemma seeded_run_keeps draws s :
  NoDup (Draw.order_key <$> draws) →
  Forall (λ draw, Draw.order_key draw ∉ Order.id <$> Store.orders s) draws →
  Forall (sampled_from (Store.products s)) draws →
  consistent cfg s → lines_priced cfg s →
  consistent cfg (foldl (λ s draw, seeded_store cfg draw s) s draws)
  ∧ lines_priced cfg (foldl (λ s draw, seeded_store cfg draw s) s draws).
Proof.
  revert s. induction draws as [|draw draws IH]; intros s Hkeys Hnew Hdraws Hs Hlines; [done|].
  rewrite fmap_cons in Hkeys. apply NoDup_cons in Hkeys as [Hkey Hkeys].
  apply Forall_cons in Hnew as [Hnew0 Hnew]. apply Forall_cons in Hdraws as [Hdraw Hdraws].
  destruct (seeded_store_keeps draw s) as [Hs' Hlines']; [done..|].
  cbn [foldl]. apply IH; [done| | |done..].
  - apply Forall_forall. intros draw' Hin. cbn [seeded_store Store.orders].
    rewrite fmap_app, not_elem_of_app. split.
    + by apply (proj1 (Forall_forall _ _) Hnew).
    + cbn. intros [Heq|[]%elem_of_nil]%elem_of_cons. apply Hkey. rewrite <- Heq.
      by apply list_elem_of_fmap_2.
  - eapply Forall_impl; [exact Hdraws|]. intros draw'. apply sampled_from_take_stock.
Qed.

Lemma seeded_run_orders draws s :
  length (Store.orders (foldl (λ s draw, seeded_store cfg draw s) s draws))
  = (length (Store.orders s) + length draws)%nat.
Proof.
  revert s. induction draws as [|draw draws IH]; intros s; [cbn; lia|].
  cbn [foldl]. rewrite IH. cbn [seeded_store Store.orders]. rewrite length_app. cbn. lia.
Qed.

(** What one order asks of a product when no product is on two lines. *)
Lemma requested_once k (items : list OrderItemCreate.t) m :
  0 ≤ m →
  NoDup (OrderItemCreate.product_id <$> items) →
  Forall (λ item, 0 ≤ OrderItemCreate.quantity item ≤ m) items →
  0 ≤ requested k items ≤ m.
Proof.
  intros Hm. induction items as [|item items IH]; [cbn; lia|].
  rewrite fmap_cons. intros [Hitem Hids]%NoDup_cons [Hq Hqs]%Forall_cons.
  cbn [requested foldr]. fold (requested k items). case_decide as Hk; [|by apply IH].
  rewrite Hk in Hitem. rewrite (requested_not_elem_of _ _ Hitem). lia.
Qed.

Lemma seeded_requested draw k :
  NoDup (Draw.sample draw).*1 →
  (∀ j, 1 ≤ Draw.quantity draw j ≤ 8) →
  0 ≤ requested k (as_line <$> seeded_items cfg draw) ≤ 8.
Proof.
  intros Hids Hq. apply requested_once; [lia| |].
  - by rewrite seeded_items_products.
  - apply Forall_fmap, Forall_forall.
    intros d (j & chosen & _ & ->)%seeded_items_elem_of. cbn. specialize (Hq j). lia.
Qed.

Lemma seeded_store_stock draw s k :
  stock (seeded_store cfg draw s) k
  = (λ x, x - requested k (as_line <$> seeded_items cfg draw)) <$> stock s k.
Proof. by rewrite seeded_store_stored, stock_stored, seeded_items_lines. Qed.

Lemma seeded_run_stock draws s k x :
  Forall (λ draw, NoDup (Draw.sample draw).*1 ∧ ∀ j, 1 ≤ Draw.quantity draw j ≤ 8) draws →
  stock s k = Some x →
  ∃ x', stock (foldl (λ s draw, seeded_store cfg draw s) s draws) k = Some x'
        ∧ x - 8 * Z.of_nat (length draws) ≤ x' ≤ x.
Proof.
  intros Hdraws. revert s x.
  induction Hdraws as [|draw draws [Hids Hq] _ IH]; intros s x Hx.
  - exists x. cbn. split; [done|lia].
  - cbn [foldl]. pose proof (seeded_requested draw k Hids Hq) as Hr.
    destruct (IH (seeded_store cfg draw s)
                (x - requested k (as_line <$> seeded_items cfg draw))) as (x' & Hx' & Hb).
    { by rewrite seeded_store_stock, Hx. }
    exists x'. split; [done|]. cbn [length]. lia.
Qed.

(** A product that no order samples keeps its row. *)
Lemma seeded_run_unsampled draws s k :
  Forall (λ draw, k ∉ (Draw.sample draw).*1) draws →
  Store.products (foldl (λ s draw, seeded_store cfg draw s) s draws) !! k
  = Store.products s !! k.
Proof.
  intros Hdraws. revert s. induction Hdraws as [|draw draws Hk _ IH]; intros s; [done|].
  cbn [foldl]. rewrite IH. cbn [seeded_store Store.products].
  rewrite take_stock_lookup, requested_not_elem_of by by rewrite seeded_items_products.
  destruct (Store.products s !! k) as [product|]; [|done]. cbn. by rewrite sell_0.
Qed.

End SeededOrders.

(** * The seeder and the service *)

Section SeederAndService.
Context {F : Type} `{PyFloat F}.
Implicit Types (s : Store.t F) (draw : Draw.t F).

(** X18. The seeder prices an order with the constants written in its
    module, the service with those of its environment.  One pass of the
    order loop of [seed_orders] on products of the catalog, at its prices,
    always stores the order.  When the environment gives the service the
    constants of the seeder: where the catalog has the stock for every line
    the seeder stores what [create_order] stores for the same customer,
    with a line for each product sampled and the quantity drawn for it,
    under the key and date of the seeded order; where it has not,
    [create_order] refuses the request and leaves the store alone, and the
    seeder stores the order all the same. *)
Theorem seed_order_as_create_order (env : Config F) (n_products : nat) draw s :
  env = AdvancedSeeder.constants →
  0 ≤ Draw.num_items draw ≤ Z.of_nat n_products →
  sampled_from (Store.products s) draw →
  ∃ db',
    AdvancedSeeder.seed_order n_products draw s = inr db'
    ∧ length (Store.orders db') = S (length (Store.orders s))
    ∧ (Forall (available (Store.products s)) (OrderCreate.items (seeded_request draw)) →
         ∃ resp,
           create_order env (seeded_reply draw) s (seeded_request draw) = (Return resp, db'))
    ∧ (¬ Forall (available (Store.products s)) (OrderCreate.items (seeded_request draw)) →
         ∃ e,
           create_order env (seeded_reply draw) s (seeded_request draw) = (Raise e, s)
           ∧ db' ≠ s).
Proof.
  intros -> Hn Hdraw. unfold AdvancedSeeder.seed_order.
  exists (seeded_store AdvancedSeeder.constants draw s). split; [|split; [|split]].
  - rewrite seed_order_store.
    destruct (Z.ltb_spec (Draw.num_items draw) 0); [lia|].
    by destruct (Z.ltb_spec (Z.of_nat n_products) (Draw.num_items draw)); [lia|].
  - cbn [seeded_store Store.orders]. rewrite length_app. cbn. lia.
  - intros Hstock. eexists.
    rewrite (create_order_priced _ _ _ _
               (seeded_items AdvancedSeeder.constants draw)).
    + cbn [on_commit seeded_reply]. by rewrite seeded_store_stored.
    + rewrite <- (seeded_items_lines AdvancedSeeder.constants).
      apply seeded_items_priced; [done|]. by rewrite seeded_items_lines.
  - intros Hstock.
    destruct (first_unavailable (Store.products s) (OrderCreate.items (seeded_request draw)))
      as [Hall|(pre & item & post & Hitems & _ & Hitem)]; [done|].
    destruct (create_order_unavailable AdvancedSeeder.constants (seeded_reply draw) s
                (seeded_request draw) item) as [e He]; [|done|].
    { rewrite Hitems. apply elem_of_app. right. apply list_elem_of_here. }
    exists e. split; [done|]. intros Heq. apply (f_equal (λ db, length (Store.orders db))) in Heq.
    cbn [seeded_store Store.orders] in Heq. rewrite length_app in Heq. cbn in Heq. lia.
Qed.

End SeederAndService.

(** * Priced lines *)

Section PricedLines.
Context {F : Type} `{PyFloat F}.
Variable cfg : Config F.
Implicit Types (s db : Store.t F) (ds : list (item_data F)).
Implicit Types (tbl : gmap Z (Product.t F)).

Lemma priced_rows_line_priced tbl order_id items ds :
  Forall2 (λ item d, price_line cfg tbl item = Return d) items ds →
  Forall (line_priced cfg tbl) (row_of order_id <$> ds).
Proof.
  induction 1 as [|item d items ds Hd _ IH]; [constructor|].
  rewrite fmap_cons. constructor; [|done].
  apply price_line_Return in Hd as (product & Hp & _ & Hid & Hq & Hge & Hlt).
  exists product. cbn. rewrite Hid, Hq. done.
Qed.

Lemma lines_priced_extends db db' :
  extends db db' → Store.order_items db' = Store.order_items db →
  lines_priced cfg db → lines_priced cfg db'.
Proof.
  intros (_ & _ & Hkeep) Hitems Hlines. unfold lines_priced. rewrite Hitems.
  eapply Forall_impl; [exact Hlines|]. intros it. apply line_priced_catalog.
  intros k product Hp. destruct (Hkeep k product Hp) as (product' & ? & _ & _ & ?). eauto.
Qed.

Lemma service_step_lines_priced db db' :
  service_step cfg db db' → lines_priced cfg db → lines_priced cfg db'.
Proof.
  destruct 1 as [reply db order Hnew|reply db product Hnew|reply db product_id upd];
    intros Hdb.
  - destruct (price_loop cfg (Store.products db) (OrderCreate.items order) [] fzero)
      as [[ois sub]|e] eqn:Hloop;
      [|by rewrite (create_order_price_Raise cfg _ _ _ _ Hloop)].
    apply price_loop_Return in Hloop as (ds & Hds & _ & _).
    rewrite (create_order_priced cfg _ _ _ _ Hds).
    destruct (on_commit reply) as [[msg|msg]|]; [done..|]. cbn [snd].
    apply stored_lines_priced; [|done]. by eapply priced_rows_line_priced.
  - apply (lines_priced_extends db); [by apply create_product_extends| |done].
    unfold ProductController.create_product, create_product.
    by destruct (on_commit reply) as [[msg|msg]|].
  - apply (lines_priced_extends db); [by apply update_product_inventory_extends| |done].
    unfold ProductController.update_product_inventory, update_product_inventory.
    destruct (Store.products db !! product_id) as [product|]; [|done].
    destruct (_ <? 0); [done|]. by destruct (on_commit reply).
Qed.

Lemma reachable_lines_priced db db' :
  reachable cfg db db' → lines_priced cfg db → lines_priced cfg db'.
Proof.
  induction 1 as [db|db1 db2 db3 Hstep _ IH]; [done|].
  intros Hdb. apply IH. by eapply service_step_lines_priced.
Qed.

(** X19. Starting from an empty database, whatever calls the service takes,
    every stored order line names a product of the catalog and is priced
    from the price that product has now: at or above the bulk threshold
    the price times [1 - percent/100] with the flag set, below it the
    price itself with the flag clear.  No call changes a price. *)
Theorem service_keeps_lines_priced db :
  reachable cfg empty_store db → lines_priced cfg db.
Proof. intros Hrun. apply (reachable_lines_priced _ _ Hrun). constructor. Qed.

End PricedLines.

(** * A run of the order seeder *)

Section SeederRun.
Context {F : Type} `{PyFloat F}.
Variable cfg : Config F.
Variable row_order : gmap Z (Product.t F) → list (Z * Product.t F).
Hypothesis Hscan : scans_table row_order.
Implicit Types (s db : Store.t F) (draw : nat → Draw.t F).

Lemma row_order_length (tbl : gmap Z (Product.t F)) :
  length (row_order tbl) = base.size tbl.
Proof. by rewrite (Hscan tbl), length_map_to_list. Qed.

Lemma row_order_nil (tbl : gmap Z (Product.t F)) : row_order tbl = [] ↔ tbl = ∅.
Proof.
  rewrite <- map_to_list_empty_iff. split; intros Hnil.
  - apply Permutation_nil_r. by rewrite <- (Hscan tbl), Hnil.
  - apply Permutation_nil_r. by rewrite (Hscan tbl), Hnil.
Qed.

Lemma fair_draw_sampled_from (tbl : gmap Z (Product.t F)) (d : Draw.t F) :
  fair_draw (row_order tbl) d → sampled_from tbl d.
Proof.
  intros (_ & _ & _ & _ & Hsub & _) chosen Hin.
  apply Hsub in Hin. rewrite (Hscan tbl) in Hin.
  destruct chosen as [k product]. apply elem_of_map_to_list in Hin. by exists product.
Qed.

Lemma fair_draw_num_items (tbl : gmap Z (Product.t F)) (d : Draw.t F) :
  fair_draw (row_order tbl) d →
  0 ≤ Draw.num_items d ≤ Z.of_nat (length (row_order tbl)).
Proof.
  intros (_ & Hn & Hlen & Hids & Hsub & _). split; [lia|]. rewrite <- Hlen.
  apply inj_le, submseteq_length, NoDup_submseteq; [|exact Hsub].
  by apply NoDup_fmap_1 in Hids.
Qed.

(** [seed_orders] when the table of orders is empty and the catalog is
    not. *)
Lemma seed_orders_loop draw on_commit db num_orders :
  Store.orders db = [] → Store.products db ≠ ∅ →
  seed_orders cfg row_order draw on_commit db num_orders
  = match seed_order_loop cfg (length (row_order (Store.products db)))
            (draw <$> seq 0 (Z.to_nat num_orders)) db with
    | inl text => Raised text
    | inr session =>
        match on_commit with
        | None =>
            Printed ("Successfully seeded database with " +:+ pretty num_orders
                       +:+ " orders.") session
        | Some e => Raised (str_db_error e)
        end
    end.
Proof.
  intros Horders Hproducts. unfold seed_orders. rewrite Horders. change (0 <? length [])%nat with false. cbv iota zeta.
  destruct (row_order (Store.products db)) as [|row rows] eqn:Hrows; [|done].
  by apply row_order_nil in Hrows.
Qed.

Lemma seed_orders_runs draw on_commit db num_orders :
  (∀ i, (i < Z.to_nat num_orders)%nat →
        fair_draw (row_order (Store.products db)) (draw i)) →
  Store.orders db = [] → Store.products db ≠ ∅ →
  seed_database_with_orders cfg row_order draw on_commit db num_orders
  = match on_commit with
    | None =>
        ("Successfully seeded database with " +:+ pretty num_orders +:+ " orders.",
         foldl (λ s d, seeded_store cfg d s) db (draw <$> seq 0 (Z.to_nat num_orders)))
    | Some e => ("Error seeding database: " +:+ str_db_error e, db)
    end.
Proof.
  intros Hfair Horders Hproducts. unfold seed_database_with_orders.
  rewrite seed_orders_loop by done. rewrite seed_order_loop_runs; [by destruct on_commit|].
  apply Forall_fmap, Forall_forall. intros i [_ Hi]%elem_of_seq. cbn.
  apply fair_draw_num_items, Hfair. lia.
Qed.

(** X20. [seed_database] of [advanced_seeder.py] leaves the store as it
    finds it when the table of orders has a row, when the catalog is empty,
    when [random.sample] is asked for fewer than no products or for more
    than the catalog has, and when the commit fails; the first three print
    the line of their case. *)
Theorem seed_orders_leaves_store draw on_commit db num_orders :
  (Store.orders db ≠ [] →
     seed_database_with_orders cfg row_order draw on_commit db num_orders
     = ("Database already contains " +:+ pretty (length (Store.orders db))
          +:+ " orders. Skipping order seeding.", db))
  ∧ (Store.orders db = [] → Store.products db = ∅ →
       seed_database_with_orders cfg row_order draw on_commit db num_orders
       = ("No products found in database. Please run seed_products first.", db))
  ∧ (Store.orders db = [] → Store.products db ≠ ∅ →
       ∀ i, (i < Z.to_nat num_orders)%nat →
         Draw.num_items (draw i) < 0
         ∨ Z.of_nat (base.size (Store.products db)) < Draw.num_items (draw i) →
         seed_database_with_orders cfg row_order draw on_commit db num_orders
         = ("Error seeding database: Sample larger than population or is negative", db))
  ∧ (∀ e, on_commit = Some e →
       (seed_database_with_orders cfg row_order draw on_commit db num_orders).2 = db).
Proof.
  split; [|split; [|split]].
  - intros Horders. unfold seed_database_with_orders, seed_orders.
    by destruct (Store.orders db).
  - intros Horders Hproducts. unfold seed_database_with_orders, seed_orders.
    rewrite Horders. change (0 <? length [])%nat with false. cbv iota zeta.
    by rewrite (proj2 (row_order_nil _) Hproducts).
  - intros Horders Hproducts i Hi Hbad. unfold seed_database_with_orders.
    rewrite seed_orders_loop by done.
    rewrite seed_order_loop_raises; [done|].
    apply Exists_fmap, Exists_exists. exists i. split; [apply elem_of_seq; lia|].
    cbn. by rewrite row_order_length.
  - intros e ->. unfold seed_database_with_orders, seed_orders.
    destruct (0 <? _)%nat; [done|]. destruct (row_order _); [done|].
    by destruct (seed_order_loop _ _ _ _).
Qed.

(** X21. On a catalog with no orders yet, with draws as [random] gives them
    and a new key for each order, the order seeder commits [num_orders]
    orders and the store is consistent: ids are distinct, every line points
    to a product and to an order, the amounts of every order follow from its
    lines, and every line is priced from the catalog by the bulk discount
    rule, as the orders of [create_order] are. *)
Theorem seed_orders_consistent draw db num_orders :
  (∀ i, (i < Z.to_nat num_orders)%nat →
        fair_draw (row_order (Store.products db)) (draw i)) →
  (∀ i j, (i < Z.to_nat num_orders)%nat → (j < Z.to_nat num_orders)%nat →
          Draw.order_key (draw i) = Draw.order_key (draw j) → i = j) →
  Store.orders db = [] → Store.order_items db = [] → Store.products db ≠ ∅ →
  ∃ db',
    seed_database_with_orders cfg row_order draw None db num_orders
    = ("Successfully seeded database with " +:+ pretty num_orders +:+ " orders.", db')
    ∧ length (Store.orders db') = Z.to_nat num_orders
    ∧ consistent cfg db'
    ∧ lines_priced cfg db'.
Proof.
  intros Hfair Hkeys Horders Hitems Hproducts.
  rewrite seed_orders_runs by done.
  eexists. split; [done|]. split.
  { rewrite seeded_run_orders, Horders, length_fmap, length_seq. done. }
  apply seeded_run_keeps.
  - rewrite <- list_fmap_compose. apply NoDup_fmap_2_strong; [|apply NoDup_seq].
    intros i j [_ Hi]%elem_of_seq [_ Hj]%elem_of_seq Heq. apply Hkeys; [lia..|done].
  - rewrite Horders. apply Forall_forall. intros d _. apply not_elem_of_nil.
  - apply Forall_fmap, Forall_forall. intros i [_ Hi]%elem_of_seq. cbn.
    apply fair_draw_sampled_from, Hfair. lia.
  - unfold consistent, referential_integrity. rewrite Horders, Hitems.
    repeat split; constructor.
  - unfold lines_priced. rewrite Hitems. constructor.
Qed.

(** X22. The order seeder takes stock without checking it: whatever the
    run comes to, a product of stock [x] stays in the catalog with a stock
    between [x - 8 * num_orders] and [x], and with [x] when no order
    samples it. *)
Theorem seed_orders_stock draw on_commit db num_orders k x :
  (∀ i, (i < Z.to_nat num_orders)%nat →
        fair_draw (row_order (Store.products db)) (draw i)) →
  stock db k = Some x →
  ∃ x',
    stock (seed_database_with_orders cfg row_order draw on_commit db num_orders).2 k
    = Some x'
    ∧ x - 8 * Z.max 0 num_orders ≤ x' ≤ x
    ∧ ((∀ i, (i < Z.to_nat num_orders)%nat → k ∉ (Draw.sample (draw i)).*1) → x' = x).
Proof.
  intros Hfair Hx.
  assert (Store.products db ≠ ∅) as Hproducts.
  { intros Hempty. unfold stock in Hx. by rewrite Hempty, lookup_empty in Hx. }
  destruct (Store.orders db) as [|o os] eqn:Horders.
  - rewrite seed_orders_runs by done.
    destruct on_commit as [e|]; cbn [snd].
    { exists x. split; [done|]. split; [lia|done]. }
    destruct (seeded_run_stock cfg (draw <$> seq 0 (Z.to_nat num_orders)) db k x)
      as (x' & Hx' & Hb); [|done|].
    { apply Forall_fmap, Forall_forall. intros i [_ Hi]%elem_of_seq. cbn.
      destruct (Hfair i) as (_ & _ & _ & Hids & _ & Hq & _); [lia|done]. }
    exists x'. split; [done|]. rewrite length_fmap, length_seq in Hb. split; [lia|].
    intros Hk. unfold stock in Hx', Hx.
    rewrite seeded_run_unsampled in Hx'; [congruence|].
    apply Forall_fmap, Forall_forall. intros i [_ Hi]%elem_of_seq. cbn. apply Hk. lia.
  - exists x. unfold seed_database_with_orders, seed_orders. rewrite Horders.
    cbn. split; [done|]. split; [lia|done].
Qed.

End SeederRun.

(** * The seeders at work *)

Lemma seed_database_seeds_witness :
  let variation := λ i : nat, Z.of_nat i - 5 in
  let product_key := λ i : nat, Z.of_nat i + 1 in
  Inj (=) (=) product_key
  ∧ ∃ PRODUCTS' db',
      seed_database variation product_key None PRODUCTS empty_store
      = ("Successfully seeded database with " +:+ pretty (length PRODUCTS) +:+ " products.",
         PRODUCTS', db')
      ∧ base.size (Store.products db') = length PRODUCTS
      ∧ stock db' 1 = Some 20.
Proof.
  intros variation product_key.
  assert (Inj (=) (=) product_key) as Hinj.
  { intros i j Heq. unfold product_key in Heq. lia. }
  split; [exact Hinj|].
  destruct (seed_database_seeds variation product_key PRODUCTS empty_store Hinj eq_refl)
    as (PRODUCTS' & db' & Hrun & _ & _ & Hsize & _ & Hrows).
  exists PRODUCTS', db'. split; [exact Hrun|]. split; [exact Hsize|].
  pose proof (proj1 (proj2 (Hrows 0%nat _ eq_refl))) as Hrow.
  change (product_key 0%nat) with 1 in Hrow. unfold stock. by rewrite Hrow.
Defined.

Lemma seed_database_again_witness :
  let variation := λ i : nat, Z.of_nat i - 5 in
  let product_key := λ i : nat, Z.of_nat i + 1 in
  (0 < base.size (Store.products db64))%nat
  ∧ seed_database variation product_key None PRODUCTS db64
    = ("Database already contains " +:+ pretty (base.size (Store.products db64))
         +:+ " products. Skipping seeding.", PRODUCTS, db64).
Proof.
  intros variation product_key.
  assert (0 < base.size (Store.products db64))%nat as Hsome.
  { vm_compute. lia. }
  split; [exact Hsome|].
  exact (proj1 (seed_database_again variation product_key None PRODUCTS db64) Hsome).
Defined.

Lemma draw0_sampled_from i : sampled_from catalog0 (draw0 i).
Proof.
  intros chosen [->|[->|[]%elem_of_nil]%elem_of_cons]%elem_of_cons;
    eexists; split; reflexivity.
Qed.

Lemma draw0_fair i : fair_draw (map_to_list catalog0) (draw0 i).
Proof.
  repeat split.
  - apply list_elem_of_here.
  - cbn. lia.
  - cbn. lia.
  - cbn. apply NoDup_cons. split; [|apply NoDup_singleton].
    intros [=]%list_elem_of_singleton.
  - intros chosen [->|[->|[]%elem_of_nil]%elem_of_cons]%elem_of_cons;
      apply elem_of_map_to_list; reflexivity.
  - cbn. lia.
  - cbn. lia.
  - cbn. lia.
  - cbn. lia.
Qed.

Lemma draw1_sampled_from : sampled_from catalog0 draw1.
Proof.
  intros chosen [->|[->|[]%elem_of_nil]%elem_of_cons]%elem_of_cons;
    eexists; split; reflexivity.
Qed.

Lemma seed_order_as_create_order_witness :
  cfg0 = AdvancedSeeder.constants
  ∧ 0 ≤ Draw.num_items draw1 ≤ Z.of_nat 5
  ∧ sampled_from (Store.products db0) draw1
  ∧ Forall (available (Store.products db0)) (OrderCreate.items (seeded_request draw1))
  ∧ ∃ db' resp,
      AdvancedSeeder.seed_order 5 draw1 db0 = inr db'
      ∧ length (Store.orders db') = 1%nat
      ∧ create_order cfg0 (seeded_reply draw1) db0 (seeded_request draw1)
        = (Return resp, db').
Proof.
  assert (0 ≤ Draw.num_items draw1 ≤ Z.of_nat 5) as Hn by (cbn; lia).
  assert (Forall (available (Store.products db0))
            (OrderCreate.items (seeded_request draw1))) as Havailable.
  { repeat constructor; (eexists; split; [run|cbn; lia]). }
  assert (cfg0 = AdvancedSeeder.constants) as Hcfg by reflexivity.
  split; [exact Hcfg|]. split; [exact Hn|]. split; [exact draw1_sampled_from|].
  split; [exact Havailable|].
  destruct (seed_order_as_create_order cfg0 5 draw1 db0 Hcfg Hn draw1_sampled_from)
    as (db' & Hrun & Hlen & Hsame & _).
  destruct (Hsame Havailable) as [resp Hresp].
  exists db', resp. split; [exact Hrun|]. split; [exact Hlen|exact Hresp].
Defined.

Lemma service_keeps_lines_priced_witness :
  lines_priced cfg0
    (create_order cfg0 accepted
       (ProductController.create_product accepted empty_store
          (ProductCreate.mk "New Product" "New product description" (1599 # 100)%Q 25)).2
       (request [(1, 6)])).2.
Proof. apply service_keeps_lines_priced, history_from_empty. Defined.

Lemma seed_orders_leaves_store_witness :
  let row_order := (map_to_list : gmap Z (Product.t Q) → list (Z * Product.t Q)) in
  scans_table row_order
  ∧ seed_database_with_orders cfg0 row_order draw0 None db_two_orders 2
    = ("Database already contains " +:+ pretty (length (Store.orders db_two_orders))
         +:+ " orders. Skipping order seeding.", db_two_orders).
Proof.
  intros row_order.
  assert (scans_table row_order) as Hscan.
  { intros tbl. reflexivity. }
  split; [exact Hscan|].
  apply (seed_orders_leaves_store cfg0 row_order Hscan draw0 None db_two_orders 2). done.
Defined.

Lemma seed_orders_consistent_witness :
  let row_order := (map_to_list : gmap Z (Product.t Q) → list (Z * Product.t Q)) in
  scans_table row_order
  ∧ (∀ i, (i < Z.to_nat 2)%nat → fair_draw (row_order (Store.products db0)) (draw0 i))
  ∧ ∃ db',
      seed_database_with_orders cfg0 row_order draw0 None db0 2
      = ("Successfully seeded database with " +:+ pretty 2 +:+ " orders.", db')
      ∧ length (Store.orders db') = Z.to_nat 2
      ∧ consistent cfg0 db'
      ∧ lines_priced cfg0 db'.
Proof.
  intros row_order.
  assert (scans_table row_order) as Hscan.
  { intros tbl. reflexivity. }
  assert (∀ i, (i < Z.to_nat 2)%nat → fair_draw (row_order (Store.products db0)) (draw0 i))
    as Hfair.
  { intros i _. apply draw0_fair. }
  split; [exact Hscan|]. split; [exact Hfair|].
  apply (seed_orders_consistent cfg0 row_order Hscan draw0 db0 2 Hfair); [|done..].
  intros i j _ _ Heq. cbn in Heq. lia.
Defined.

Lemma seed_orders_stock_witness :
  let row_order := (map_to_list : gmap Z (Product.t Q) → list (Z * Product.t Q)) in
  scans_table row_order
  ∧ (∀ i, (i < Z.to_nat 2)%nat → fair_draw (row_order (Store.products db0)) (draw0 i))
  ∧ stock db0 4 = Some 5
  ∧ ∃ x',
      stock (seed_database_with_orders cfg0 row_order draw0 None db0 2).2 4 = Some x'
      ∧ 5 - 8 * Z.max 0 2 ≤ x' ≤ 5
      ∧ ((∀ i, (i < Z.to_nat 2)%nat → 4 ∉ (Draw.sample (draw0 i)).*1) → x' = 5).
Proof.
  intros row_order.
  assert (scans_table row_order) as Hscan.
  { intros tbl. reflexivity. }
  assert (∀ i, (i < Z.to_nat 2)%nat → fair_draw (row_order (Store.products db0)) (draw0 i))
    as Hfair.
  { intros i _. apply draw0_fair. }
  split; [exact Hscan|]. split; [exact Hfair|]. split; [reflexivity|].
  apply (seed_orders_stock cfg0 row_order Hscan draw0 None db0 2 4 5 Hfair). reflexivity.
Defined.

(** The seeder checks no stock: two orders of seven Luxury Items leave a
    stock of five at nine below zero. *)
Example seed_orders_oversells_scenario :
  stock (seed_database_with_orders cfg0 map_to_list draw0 None db0 2).2 4 = Some (-9)
  ∧ ∃ e, create_order cfg0 (seeded_reply (draw0 0)) db0 (seeded_request (draw0 0))
         = (Raise e, db0).
Proof. split; [run|]. eexists. run. Qed.

(** The constants of the seeder are the configuration of the examples, in
    exact arithmetic and in binary64. *)
Example seeder_constants_scenario :
  AdvancedSeeder.constants = cfg0 ∧ AdvancedSeeder.constants = cfg64.
Proof. split; run. Qed.

(** With another threshold in the environment the two part ways: seven of
    product 3 are a bulk line for the seeder, whose threshold is 5, and
    none for a service whose threshold is 8. *)
Example seed_order_other_environment_scenario :
  ∃ db' resp db'',
    AdvancedSeeder.seed_order 5 draw1 db0 = inr db'
    ∧ create_order cfg_threshold_8 (seeded_reply draw1) db0 (seeded_request draw1)
      = (Return resp, db'')
    ∧ OrderItem.discount_applied <$> Store.order_items db' = [true; false]
    ∧ OrderItem.discount_applied <$> Store.order_items db'' = [false; false].
Proof. eexists _, _, _. split; [run|]. split; [run|]. split; run. Qed.
